(** * Open-window advisor: the forecast-to-interval reduction of [app.py]

    A shallow embedding of [ftoc], [calculate_rh] and [find_optimal_periods]
    and the properties of the admissibility test and of the run-length
    encoding of admissible hours.

    Conventions of the embedding.
    - Python numbers (JSON ints and floats, the [int] thresholds) are real
      numbers; [math.exp] is the real exponential.  Rounding, overflow and
      underflow of binary floating point are outside this model ([math.exp]
      raising [OverflowError] just left of the pole of the formula, its
      result underflowing to [0.0] just right of it, a NaN passing the
      clamp); the test [b + t == 0] that decides a [ZeroDivisionError] is
      exact in both.  Where the order or the exact value of two results is
      at stake, the module [Rounded] gives the formula with every operation
      rounded.
    - [None] is [None : option _]; a raised exception is [Raise e].
    - A dict is a [gmap]; a list indexed by position is a [list] read with
      [!!], an index out of range raising [IndexError]. *)

From Stdlib Require Import ZArith Reals Lra Lia Ascii String.
From stdpp Require Import base option list strings gmap.

(** ** Exceptions *)

Inductive exn : Set :=
| TypeError | KeyError | IndexError | ValueError | ZeroDivisionError.

Inductive result (A : Type) : Type :=
| Ok (a : A)
| Raise (e : exn).
Arguments Ok {A} a.
Arguments Raise {A} e.

#[global] Instance result_ret : MRet result := λ A a, Ok a.
#[global] Instance result_bind : MBind result := λ A B f c,
  match c with Ok a => f a | Raise e => Raise e end.

(** [l[i]] of Python for a non-negative [i]. *)
Definition getitem {A} (l : list A) (i : nat) : result A :=
  match l !! i with Some x => Ok x | None => Raise IndexError end.

(** ** Numbers *)

#[global] Instance Rle_decision : RelDecision Rle := Rle_dec.
#[global] Instance Rlt_decision : RelDecision Rlt := Rlt_dec.
#[global] Instance Req_decision : EqDecision R := Req_dec_T.

(** ** Helper functions of [app.py] *)

Module Humidity.

Definition ftoc (f : option R) : option R :=
  match f with
  | None => None
  | Some f => Some ((f - 32) * 5 / 9)%R
  end.

Definition ctof (c : option R) : option R :=
  match c with
  | None => None
  | Some c => Some (c * 9 / 5 + 32)%R
  end.

(** Magnus formula constants (Sonntag90). *)
Definition a : R := 17.62%R.
Definition b : R := 243.12%R.

(** [6.112 * math.exp((a * t) / (b + t))]: the float division raises when
    the divisor is zero. *)
Definition vapor_pressure (t : R) : result R :=
  if decide (b + t = 0)%R then Raise ZeroDivisionError
  else Ok (6.112 * exp ((a * t) / (b + t)))%R.

(** With the real exponential [es] is positive, so that the guard
    [es <= 0] is never taken here; in binary64 it is taken when [es]
    underflows to [0.0], within some ten degrees Fahrenheit to the right of
    the pole. *)
Definition calculate_rh (temp_c dew_point_c : option R) : result (option R) :=
  match temp_c, dew_point_c with
  | Some temp_c, Some dew_point_c =>
      es ← vapor_pressure temp_c;
      e ← vapor_pressure dew_point_c;
      if decide (es <= 0)%R then Ok None
      else
        let rh := (e / es * 100)%R in
        Ok (Some (Rmin (Rmax rh 0) 100))
  | _, _ => Ok None
  end.

(** The spec's [predictIndoorRH]: both temperatures are given in Fahrenheit
    and converted by [ftoc] before [calculate_rh] is called (lines 207 and
    235-236 of [find_optimal_periods]). *)
Definition predictIndoorRH (indoor_ref_temp_f dew_point_f : option R)
  : result (option R) :=
  calculate_rh (ftoc indoor_ref_temp_f) (ftoc dew_point_f).

End Humidity.

(** ** The humidity formula in rounded arithmetic

    The same functions with the result of every arithmetic operation
    passed through [rnd], the rounding of an exact result to a float, the
    decimal constants rounded as they are when the program is read, and
    [math.exp] as a function [fexp] of its own.  The model above is the
    instance [rnd x := x], [fexp := exp].  Overflow to infinity and
    [OverflowError] are not represented: what is stated of this model keeps
    the temperatures between -100 C and 100 C, where every intermediate
    result is far from the ends of the float range. *)

Module Rounded.

Section Operations.
Variable rnd : R → R.
Variable fexp : R → R.

(** [(f - 32) * 5 / 9], three operations. *)
Definition ftoc (f : option R) : option R :=
  match f with
  | None => None
  | Some f => Some (rnd (rnd (rnd (f - 32) * 5) / 9))%R
  end.

Definition a : R := rnd 17.62%R.
Definition b : R := rnd 243.12%R.

(** [6.112 * math.exp((a * t) / (b + t))]. *)
Definition vapor_pressure (t : R) : result R :=
  let divisor := rnd (b + t)%R in
  if decide (divisor = 0)%R then Raise ZeroDivisionError
  else Ok (rnd (rnd 6.112 * fexp (rnd (rnd (a * t) / divisor))))%R.

Definition calculate_rh (temp_c dew_point_c : option R) : result (option R) :=
  match temp_c, dew_point_c with
  | Some temp_c, Some dew_point_c =>
      es ← vapor_pressure temp_c;
      e ← vapor_pressure dew_point_c;
      if decide (es <= 0)%R then Ok None
      else
        let rh := rnd (rnd (e / es) * 100)%R in
        Ok (Some (Rmin (Rmax rh 0) 100))
  | _, _ => Ok None
  end.

Definition predictIndoorRH (indoor_ref_temp_f dew_point_f : option R)
  : result (option R) :=
  calculate_rh (ftoc indoor_ref_temp_f) (ftoc dew_point_f).

End Operations.

(** What is assumed of the arithmetic: rounding keeps the order, rounding
    and [math.exp] are accurate to a relative error (12 and 9 digits; IEEE
    binary64 gives 15) or, for a result near zero, to an absolute one. *)
Record accurate (rnd fexp : R → R) : Prop := {
  rnd_monotone : ∀ x y : R, (x <= y)%R → (rnd x <= rnd y)%R;
  rnd_error : ∀ x : R, (Rabs (rnd x - x) <= Rabs x * 1e-12 + 1e-100)%R;
  fexp_error : ∀ x : R, (Rabs (fexp x - exp x) <= exp x * 1e-9 + 1e-100)%R }.

End Rounded.

(** ** Dates and times

    A naive [datetime] is its wall-clock reading, in seconds since
    1970-01-01T00:00:00 on the same clock.  An aware one also carries the
    UTC offset of the [tzinfo] attached to it.  *)

Record aware : Set := { wall : Z; utcoffset : Z }.

(** What [pytz] knows of a zone: the offset it attaches to a wall-clock
    reading ([tz.localize]) and the offset in force at a UTC instant
    ([tz.fromutc]). *)
Record tzinfo : Type := {
  utcoffset_of_wall : Z → Z;
  utcoffset_of_utc : Z → Z }.

Definition pytz_utc : tzinfo :=
  {| utcoffset_of_wall := λ _, 0%Z; utcoffset_of_utc := λ _, 0%Z |}.

(** The library and host functions that [find_optimal_periods] calls.
    - [fromisoformat s] is the wall-clock reading of the naive datetime that
      [datetime.fromisoformat(s)] returns; [None] when the call raises
      [ValueError] or returns an aware datetime, which [tz.localize] on the
      next line refuses with a [ValueError] as well.
    - [pytz_timezone s] is [None] for [pytz.UnknownTimeZoneError].
    - [system_utcoffset n] is the offset of the host's local zone at the
      wall-clock reading [n]: what [astimezone] assumes of a naive value.
    - [strftime fmt dt] is [dt.strftime(fmt)]. *)
Class Platform : Type := {
  fromisoformat : string → option Z;
  pytz_timezone : string → option tzinfo;
  system_utcoffset : Z → Z;
  strftime : string → aware → string }.

(** [tz.localize(dt)] for a naive [dt]. *)
Definition localize (tz : tzinfo) (n : Z) : aware :=
  {| wall := n; utcoffset := utcoffset_of_wall tz n |}.

(** [dt.astimezone(tz)] for a naive [dt]: read on the host's clock, taken
    to UTC and from there to [tz]. *)
Definition astimezone `{Platform} (n : Z) (tz : tzinfo) : aware :=
  let u := (n - system_utcoffset n)%Z in
  {| wall := u + utcoffset_of_utc tz u; utcoffset := utcoffset_of_utc tz u |}.

(** [dt + timedelta(hours=h)]: wall-clock arithmetic, the [tzinfo] is kept. *)
Definition add_hours (dt : aware) (h : Z) : aware :=
  {| wall := wall dt + 3600 * h; utcoffset := utcoffset dt |}.

(** [dt.date()], as the number of the day. *)
Definition date (dt : aware) : Z := (wall dt / 86400)%Z.

(** The instant an aware datetime denotes, in seconds of UTC: aware
    datetimes are ordered by it. *)
Definition instant (dt : aware) : Z := (wall dt - utcoffset dt)%Z.

(** ** Data classes and payloads *)

Record WeatherInputs : Type := {
  location : string;
  min_temp : Z;
  max_temp : Z;
  min_rh : Z;
  max_rh : Z;
  latitude : option R;
  longitude : option R;
  indoor_ref_temp : Z;
  max_aqi : Z;
  max_precip_prob : Z }.

(** One element of [hourly_data_list]:
    [(dt_local, is_good, temp_f, rh_in, precip, aqi, precip_prob)]. *)
Record hourly_row : Type := {
  row_dt : aware;
  row_is_good : bool;
  row_temp_f : option R;
  row_rh_in : option R;
  row_precip : option R;
  row_aqi : option R;
  row_precip_prob : option R }.

Record ForecastResult : Type := {
  periods : list (string * string);
  daily_chart_data : gmap string (list hourly_row);
  daily_good_intervals : gmap string (list (aware * aware));
  daily_good_periods_text : gmap string (list string) }.

(** The JSON objects of the two providers.  A field is [None] when its key
    is missing; an array element is [None] for JSON [null].  A JSON [null]
    in the place of an object or of an array ([hourly], [time], ...) is
    not a value of these types: Python raises a [TypeError] where it
    subscripts or measures it (lines 176-184 and 188-192), except for
    [us_aqi], whose [null] is read like a missing key (line 191). *)
Record WeatherHourly : Type := {
  hourly_time : option (list string);
  temperature_2m : option (list (option R));
  dew_point_2m : option (list (option R));
  precipitation : option (list (option R));
  precipitation_probability : option (list (option R)) }.

Record WeatherData : Type := {
  hourly : option WeatherHourly;
  timezone : option string }.

Record AqiHourly : Type := {
  aq_time : option (list string);
  us_aqi : option (list (option R)) }.

Record AqiData : Type := { aq_hourly : option AqiHourly }.

(** ** The per-hour admissibility test (lines 229-243) *)

Record hour_checks : Type := {
  primary_data_ok : bool;
  predicted_rh_in : option R;
  temp_ok : bool;
  rh_ok : bool;
  precip_ok : bool;
  precip_prob_ok : bool;
  aqi_ok : bool;
  is_good : bool }.

Definition evaluate_hour (inputs : WeatherInputs) (aq_available : bool)
    (indoor_ref_temp_c : option R)
    (temp_out_f dew_point_out_f precip precip_probability aqi : option R)
  : result hour_checks :=
  match temp_out_f, dew_point_out_f, precip with
  | Some t, Some d, Some p =>
      let dew_point_out_c := Humidity.ftoc (Some d) in
      predicted_rh_in ← Humidity.calculate_rh indoor_ref_temp_c dew_point_out_c;
      let temp_ok :=
        bool_decide (IZR (min_temp inputs) <= t)%R
        && bool_decide (t <= IZR (max_temp inputs))%R in
      let rh_ok :=
        match predicted_rh_in with
        | Some rh => bool_decide (IZR (min_rh inputs) <= rh)%R
                     && bool_decide (rh <= IZR (max_rh inputs))%R
        | None => false
        end in
      let precip_ok := bool_decide (p < 0.1)%R in
      precip_prob_ok ←
        match precip_probability with
        | Some pp => Ok (bool_decide (pp <= IZR (max_precip_prob inputs))%R)
        | None => Raise TypeError
        end;
      let aqi_ok :=
        if aq_available then
          match aqi with
          | Some v => bool_decide (v <= IZR (max_aqi inputs))%R
          | None => false
          end
        else true in
      Ok {| primary_data_ok := true;
            predicted_rh_in := predicted_rh_in;
            temp_ok := temp_ok; rh_ok := rh_ok; precip_ok := precip_ok;
            precip_prob_ok := precip_prob_ok; aqi_ok := aqi_ok;
            is_good := temp_ok && rh_ok && precip_ok && precip_prob_ok
                       && aqi_ok |}
  | _, _, _ =>
      Ok {| primary_data_ok := false;
            predicted_rh_in := None;
            temp_ok := false; rh_ok := false; precip_ok := false;
            precip_prob_ok := false; aqi_ok := false;
            is_good := false |}
  end.

(** ** The AQI table (lines 186-199) *)

(** [for i, time_str in enumerate(aq_times): d[time_str] = aqi_vals[i]],
    run when both arrays have the same length. *)
Fixpoint fill_aqi (aq_times : list string) (aqi_vals : list (option R))
    (d : gmap string (option R)) : gmap string (option R) :=
  match aq_times, aqi_vals with
  | time_str :: aq_times, v :: aqi_vals =>
      fill_aqi aq_times aqi_vals (<[time_str := v]> d)
  | _, _ => d
  end.

(** The pair [(aq_available, aqi_values_dict)]. *)
Definition aqi_table (aqi_data : option AqiData)
  : bool * gmap string (option R) :=
  match aqi_data with
  | Some aqi_data =>
      match aq_hourly aqi_data with
      | Some aq_hourly =>
          match aq_time aq_hourly with
          | Some aq_times =>
              match us_aqi aq_hourly with
              | Some aqi_vals =>
                  if decide (length aq_times = length aqi_vals)
                  then (true, fill_aqi aq_times aqi_vals ∅)
                  else (false, ∅)
              | None => (false, ∅)
              end
          | None => (false, ∅)
          end
      | None => (false, ∅)
      end
  | None => (false, ∅)
  end.

(** [aqi_values_dict.get(time_str)]: [None] for a missing key and for a
    key bound to [null]. *)
Definition dict_get (d : gmap string (option R)) (k : string) : option R :=
  match d !! k with Some v => v | None => None end.

(** [d[k].append(x)]. *)
Definition dict_append {A} (d : gmap string (list A)) (k : string) (x : A)
  : result (gmap string (list A)) :=
  match d !! k with
  | Some l => Ok (<[k := l ++ [x]]> d)
  | None => Raise KeyError
  end.

Section Reducer.
Context {host : Platform}.

(** [pytz.timezone(weather_data.get('timezone', 'UTC'))], with [pytz.utc]
    for an unknown name (lines 201-206). *)
Definition resolve_timezone (weather_data : WeatherData) : tzinfo :=
  match pytz_timezone (default "UTC" (timezone weather_data)) with
  | Some tz => tz
  | None => pytz_utc
  end.

(** The text of an overall period (lines 263-265 and 271-273). *)
Definition format_period (start_time end_time : aware) : string * string :=
  let start_fmt := strftime "%a %I:%M %p" start_time in
  let end_fmt :=
    if decide (date start_time = date end_time)
    then strftime "%I:%M %p" end_time
    else strftime "%a %I:%M %p" end_time in
  (start_fmt, end_fmt).

(** The text of a per-day period. *)
Definition format_daily (start_dt end_dt : aware) : string :=
  strftime "%I:%M %p" start_dt +:+ " - " +:+ strftime "%I:%M %p" end_dt.

(** *** The loop over the hours (lines 216-265) *)

Record hour_state : Type := {
  overall_good_periods_text : list (string * string);
  overall_start_time : option aware;
  hourly_data_list : list hourly_row }.

Section HourLoop.
Variable inputs : WeatherInputs.
Variables temps_f dew_points_f precip_mm precip_prob : list (option R).
Variable aq_available : bool.
Variable aqi_values_dict : gmap string (option R).
Variable tz : tzinfo.
Variable indoor_ref_temp_c : option R.

(** Lines 221-254: the row appended for hour [i]. *)
Definition hour_row (i : nat) (time_str : string) : result hourly_row :=
  temp_out_f ← getitem temps_f i;
  dew_point_out_f ← getitem dew_points_f i;
  precip ← getitem precip_mm i;
  let precip_probability :=
    match precip_prob !! i with Some v => v | None => Some 0%R end in
  let aqi := dict_get aqi_values_dict time_str in
  dt_utc ← match fromisoformat time_str with
           | Some n => Ok n
           | None => Raise ValueError
           end;
  let dt_local := localize tz dt_utc in
  c ← evaluate_hour inputs aq_available indoor_ref_temp_c
        temp_out_f dew_point_out_f precip precip_probability aqi;
  Ok {| row_dt := dt_local; row_is_good := is_good c;
        row_temp_f := temp_out_f; row_rh_in := predicted_rh_in c;
        row_precip := precip; row_aqi := aqi;
        row_precip_prob := precip_probability |}.

(** Lines 256-265: the overall aggregation after hour [row]. *)
Definition overall_step (st : hour_state) (row : hourly_row) : hour_state :=
  let dt_local := row_dt row in
  let hourly_data_list := hourly_data_list st ++ [row] in
  match row_is_good row, overall_start_time st with
  | true, None =>
      {| overall_good_periods_text := overall_good_periods_text st;
         overall_start_time := Some dt_local;
         hourly_data_list := hourly_data_list |}
  | false, Some start_time =>
      {| overall_good_periods_text :=
           overall_good_periods_text st ++ [format_period start_time dt_local];
         overall_start_time := None;
         hourly_data_list := hourly_data_list |}
  | _, _ =>
      {| overall_good_periods_text := overall_good_periods_text st;
         overall_start_time := overall_start_time st;
         hourly_data_list := hourly_data_list |}
  end.

(** [for i, time_str in enumerate(times)], from position [i] on. *)
Fixpoint hour_loop (i : nat) (times : list string) (st : hour_state)
  : result hour_state :=
  match times with
  | [] => Ok st
  | time_str :: times =>
      row ← hour_row i time_str;
      hour_loop (S i) times (overall_step st row)
  end.

End HourLoop.

(** Lines 266-273: an interval still open when the scan ends.  [times[-1]]
    raises [IndexError] on an empty list. *)
Definition close_overall (times : list string) (tz : tzinfo)
    (st : hour_state) : result (list (string * string)) :=
  match overall_start_time st with
  | Some start_time =>
      last_str ← match last times with
                 | Some s => Ok s
                 | None => Raise IndexError
                 end;
      n ← match fromisoformat last_str with
          | Some n => Ok n
          | None => Raise ValueError
          end;
      let end_time := add_hours (astimezone n tz) 1 in
      Ok (overall_good_periods_text st ++ [format_period start_time end_time])
  | None => Ok (overall_good_periods_text st)
  end.

(** *** The loop over the rows, by day (lines 276-304) *)

Record daily_state : Type := {
  daily_chart_data_map : gmap string (list hourly_row);
  daily_good_intervals_map : gmap string (list (aware * aware));
  daily_good_periods_text_map : gmap string (list string);
  current_day_str : string;
  daily_start_dt : option aware;
  last_dt_local : option aware }.

(** Lines 289-294: a day that has no bucket yet closes the open interval
    into the outgoing bucket and starts its own. *)
Definition day_switch (st : daily_state) (dt_local : aware)
    (day_str : string) : result daily_state :=
  match daily_chart_data_map st !! day_str with
  | Some _ => Ok st
  | None =>
      st ← match daily_start_dt st with
           | Some start_dt =>
               let end_dt := dt_local in
               ivs ← dict_append (daily_good_intervals_map st)
                       (current_day_str st) (start_dt, end_dt);
               let prev_day_last_hour := add_hours dt_local (-1) in
               txt ← dict_append (daily_good_periods_text_map st)
                       (current_day_str st)
                       (format_daily start_dt (add_hours prev_day_last_hour 1));
               Ok {| daily_chart_data_map := daily_chart_data_map st;
                     daily_good_intervals_map := ivs;
                     daily_good_periods_text_map := txt;
                     current_day_str := current_day_str st;
                     daily_start_dt := None;
                     last_dt_local := last_dt_local st |}
           | None => Ok st
           end;
      Ok {| daily_chart_data_map := <[day_str := []]> (daily_chart_data_map st);
            daily_good_intervals_map :=
              <[day_str := []]> (daily_good_intervals_map st);
            daily_good_periods_text_map :=
              <[day_str := []]> (daily_good_periods_text_map st);
            current_day_str := day_str;
            daily_start_dt := daily_start_dt st;
            last_dt_local := last_dt_local st |}
  end.

(** Lines 295-300: the row joins the current bucket, then the same
    transitions as in the overall scan. *)
Definition day_record (st : daily_state) (row : hourly_row)
  : result daily_state :=
  let dt_local := row_dt row in
  chart ← dict_append (daily_chart_data_map st) (current_day_str st) row;
  match row_is_good row, daily_start_dt st with
  | true, None =>
      Ok {| daily_chart_data_map := chart;
            daily_good_intervals_map := daily_good_intervals_map st;
            daily_good_periods_text_map := daily_good_periods_text_map st;
            current_day_str := current_day_str st;
            daily_start_dt := Some dt_local;
            last_dt_local := last_dt_local st |}
  | false, Some start_dt =>
      let end_dt := dt_local in
      ivs ← dict_append (daily_good_intervals_map st)
              (current_day_str st) (start_dt, end_dt);
      txt ← dict_append (daily_good_periods_text_map st)
              (current_day_str st) (format_daily start_dt end_dt);
      Ok {| daily_chart_data_map := chart;
            daily_good_intervals_map := ivs;
            daily_good_periods_text_map := txt;
            current_day_str := current_day_str st;
            daily_start_dt := None;
            last_dt_local := last_dt_local st |}
  | _, _ =>
      Ok {| daily_chart_data_map := chart;
            daily_good_intervals_map := daily_good_intervals_map st;
            daily_good_periods_text_map := daily_good_periods_text_map st;
            current_day_str := current_day_str st;
            daily_start_dt := daily_start_dt st;
            last_dt_local := last_dt_local st |}
  end.

(** One iteration of the loop of line 286. *)
Definition daily_step (st : daily_state) (row : hourly_row)
  : result daily_state :=
  let dt_local := row_dt row in
  let day_str := strftime "%a %Y-%m-%d" dt_local in
  let st := {| daily_chart_data_map := daily_chart_data_map st;
               daily_good_intervals_map := daily_good_intervals_map st;
               daily_good_periods_text_map := daily_good_periods_text_map st;
               current_day_str := current_day_str st;
               daily_start_dt := daily_start_dt st;
               last_dt_local := Some dt_local |} in
  st ← day_switch st dt_local day_str;
  day_record st row.

Fixpoint daily_loop (rows : list hourly_row) (st : daily_state)
  : result daily_state :=
  match rows with
  | [] => Ok st
  | row :: rows => st ← daily_step st row; daily_loop rows st
  end.

(** Lines 301-304: the interval still open after the last row. *)
Definition close_daily (st : daily_state) : result daily_state :=
  match daily_start_dt st, last_dt_local st with
  | Some start_dt, Some last_dt =>
      let end_dt := add_hours last_dt 1 in
      ivs ← dict_append (daily_good_intervals_map st)
              (current_day_str st) (start_dt, end_dt);
      txt ← dict_append (daily_good_periods_text_map st)
              (current_day_str st) (format_daily start_dt end_dt);
      Ok {| daily_chart_data_map := daily_chart_data_map st;
            daily_good_intervals_map := ivs;
            daily_good_periods_text_map := txt;
            current_day_str := current_day_str st;
            daily_start_dt := daily_start_dt st;
            last_dt_local := last_dt_local st |}
  | _, _ => Ok st
  end.

(** Lines 276-304. *)
Definition daily_init (first : hourly_row) : daily_state :=
  let current_day_str := strftime "%a %Y-%m-%d" (row_dt first) in
  {| daily_chart_data_map := {[ current_day_str := [] ]};
     daily_good_intervals_map := {[ current_day_str := [] ]};
     daily_good_periods_text_map := {[ current_day_str := [] ]};
     current_day_str := current_day_str;
     daily_start_dt := None;
     last_dt_local := None |}.

Definition empty_daily : daily_state :=
  {| daily_chart_data_map := ∅;
     daily_good_intervals_map := ∅;
     daily_good_periods_text_map := ∅;
     current_day_str := "";
     daily_start_dt := None;
     last_dt_local := None |}.

Definition group_by_day (hourly_data_list : list hourly_row)
  : result daily_state :=
  match hourly_data_list with
  | [] => Ok empty_daily
  | first :: _ =>
      st ← daily_loop hourly_data_list (daily_init first);
      close_daily st
  end.

(** *** [find_optimal_periods] *)

(** Lines 176-265: the checks of the payload, the AQI table, the zone and
    the loop over the hours.  The result is what the rest of the function
    reads: [times], [tz] and the state the loop ends in.

    The two early exits (lines 177 and 209) are written
    [return ForecastResult(periods=[], info=..., ...)]; the data class has no
    field [info], so the constructor call raises [TypeError] and nothing is
    returned.  A missing required array is a [KeyError] of the subscript. *)
Definition scan_hours (weather_data : option WeatherData)
    (aqi_data : option AqiData) (inputs : WeatherInputs)
  : result (list string * tzinfo * hour_state) :=
  match weather_data with
  | None => Raise TypeError
  | Some weather_data =>
  match hourly weather_data with
  | None => Raise TypeError
  | Some weather_hourly =>
  match hourly_time weather_hourly with
  | None => Raise TypeError
  | Some times =>
      temps_f ← match temperature_2m weather_hourly with
                | Some l => Ok l
                | None => Raise KeyError
                end;
      dew_points_f ← match dew_point_2m weather_hourly with
                     | Some l => Ok l
                     | None => Raise KeyError
                     end;
      let precip_mm :=
        default (replicate (length times) (Some 0%R))
                (precipitation weather_hourly) in
      let precip_prob :=
        default (replicate (length times) (Some 0%R))
                (precipitation_probability weather_hourly) in
      let aq_available := (aqi_table aqi_data).1 in
      let aqi_values_dict := (aqi_table aqi_data).2 in
      let tz := resolve_timezone weather_data in
      let indoor_ref_temp_c :=
        Humidity.ftoc (Some (IZR (indoor_ref_temp inputs))) in
      match indoor_ref_temp_c with
      | None => Raise TypeError
      | Some _ =>
          st ← hour_loop inputs temps_f dew_points_f precip_mm precip_prob
                 aq_available aqi_values_dict tz indoor_ref_temp_c
                 0 times
                 {| overall_good_periods_text := [];
                    overall_start_time := None;
                    hourly_data_list := [] |};
          Ok (times, tz, st)
      end
  end end end.

(** Lines 266-311. *)
Definition find_optimal_periods (weather_data : option WeatherData)
    (aqi_data : option AqiData) (inputs : WeatherInputs)
  : result ForecastResult :=
  '(times, tz, st) ← scan_hours weather_data aqi_data inputs;
  overall ← close_overall times tz st;
  d ← group_by_day (hourly_data_list st);
  Ok {| periods := overall;
        daily_chart_data := daily_chart_data_map d;
        daily_good_intervals := daily_good_intervals_map d;
        daily_good_periods_text := daily_good_periods_text_map d |}.

(** The hours that [find_optimal_periods] evaluates, in order: the
    [hourly_data_list] that its loop builds. *)
Definition hourly_samples (weather_data : option WeatherData)
    (aqi_data : option AqiData) (inputs : WeatherInputs) : list hourly_row :=
  match scan_hours weather_data aqi_data inputs with
  | Ok (_, _, st) => hourly_data_list st
  | Raise _ => []
  end.

End Reducer.

(** ** Runs of admissible hours

    The vocabulary of the claims about intervals, over the list of hours
    that the loop evaluated.  Hours are named by their position. *)

Section Runs.
Context {host : Platform}.
Variable rows : list hourly_row.

(** The admissibility flag and the localized timestamp of hour [k]. *)
Definition good_at (k : nat) : option bool := row_is_good <$> rows !! k.
Definition stamp_at (k : nat) : option aware := row_dt <$> rows !! k.

(** The label of the local calendar date of an hour: the key of its day
    bucket. *)
Definition day_label (row : hourly_row) : string :=
  strftime "%a %Y-%m-%d" (row_dt row).

(** Hour [k] is the first hour of its local date: no earlier hour carries
    its label. *)
Definition opens_day (k : nat) : Prop :=
  ∃ row, rows !! k = Some row ∧ day_label row ∉ (day_label <$> take k rows).

(** Hours [i .. j-1] are all admissible. *)
Definition all_good (i j : nat) : Prop :=
  (i < j ≤ length rows)%nat
  ∧ ∀ k, (i ≤ k < j)%nat → good_at k = Some true.

(** A maximal run: not extensible to the left nor to the right. *)
Definition maximal_run (i j : nat) : Prop :=
  all_good i j
  ∧ (∀ i', S i' = i → good_at i' = Some false)
  ∧ ((j < length rows)%nat → good_at j = Some false).

(** A run inside one day bucket, maximal there: it stops at a hour that is
    not admissible or at the first hour of a new local date, on both
    sides, and no new date starts inside it. *)
Definition day_run (i j : nat) : Prop :=
  all_good i j
  ∧ (∀ i', S i' = i → good_at i' = Some false ∨ opens_day i)
  ∧ ((j < length rows)%nat → good_at j = Some false ∨ opens_day j)
  ∧ (∀ k, (i < k < j)%nat → ¬ opens_day k).

(** An interval of the overall output spans hours [i .. j-1]: it starts at
    the stamp of the first hour of a maximal run and, when a hour follows
    the run, ends at the stamp of that hour. *)
Definition overall_span (iv : aware * aware) (i j : nat) : Prop :=
  maximal_run i j
  ∧ stamp_at i = Some iv.1
  ∧ ((j < length rows)%nat → stamp_at j = Some iv.2).

Definition overall_interval (iv : aware * aware) : Prop :=
  ∃ i j, overall_span iv i j.

(** An interval of a day bucket: as above for a run of the day, and ending
    one hour after the last stamp when the run reaches the last hour. *)
Definition daily_span (iv : aware * aware) (i j : nat) : Prop :=
  day_run i j
  ∧ stamp_at i = Some iv.1
  ∧ ((j < length rows)%nat → stamp_at j = Some iv.2)
  ∧ (j = length rows →
     ∃ last_dt, stamp_at (pred j) = Some last_dt
                ∧ iv.2 = add_hours last_dt 1).

Definition daily_interval (iv : aware * aware) : Prop :=
  ∃ i j, daily_span iv i j.

(** The hours come in the order of their instants. *)
Definition chronological : Prop :=
  ∀ i j ri rj, (i < j)%nat → rows !! i = Some ri → rows !! j = Some rj →
               (instant (row_dt ri) < instant (row_dt rj))%Z.

(** Every hour whose timestamp lies in the half-open range of [iv] is
    admissible. *)
Definition good_inside (iv : aware * aware) : Prop :=
  ∀ k row, rows !! k = Some row →
           (instant iv.1 ≤ instant (row_dt row) < instant iv.2)%Z →
           row_is_good row = true.

(** The hours of each local date are consecutive: a label does not come
    back once another one has followed it. *)
Definition contiguous_days : Prop :=
  ∀ i j k ri rj rk, (i < j < k)%nat →
    rows !! i = Some ri → rows !! j = Some rj → rows !! k = Some rk →
    day_label ri = day_label rk → day_label rj = day_label ri.

End Runs.

(** ** Day buckets *)

(** [x] is listed under key [k]. *)
Definition in_bucket {A} (d : gmap string (list A)) (k : string) (x : A)
  : Prop :=
  ∃ l, d !! k = Some l ∧ x ∈ l.

(** The three dicts have the same keys and the current day is one of them:
    what keeps the subscripts of the loop from raising [KeyError]. *)
Definition daily_wf (st : daily_state) : Prop :=
  current_day_str st ∈ dom (daily_chart_data_map st)
  ∧ dom (daily_good_intervals_map st) = dom (daily_chart_data_map st)
  ∧ dom (daily_good_periods_text_map st) = dom (daily_chart_data_map st).

(** ** Payloads that are incomplete *)

(** The AQI payload is missing, lacks the hourly timestamps, lacks the
    value array, or has a value array whose length differs from the length
    of its own timestamp array. *)
Definition aqi_unavailable (aqi_data : option AqiData) : Prop :=
  match aqi_data with
  | None => True
  | Some aqi_data =>
      match aq_hourly aqi_data with
      | None => True
      | Some aq_hourly =>
          match aq_time aq_hourly, us_aqi aq_hourly with
          | Some aq_times, Some aqi_vals => length aq_times ≠ length aqi_vals
          | _, _ => True
          end
      end
  end.

(** The same thresholds with another ceiling on the AQI. *)
Definition with_max_aqi (inputs : WeatherInputs) (v : Z) : WeatherInputs :=
  {| location := location inputs;
     min_temp := min_temp inputs; max_temp := max_temp inputs;
     min_rh := min_rh inputs; max_rh := max_rh inputs;
     latitude := latitude inputs; longitude := longitude inputs;
     indoor_ref_temp := indoor_ref_temp inputs;
     max_aqi := v;
     max_precip_prob := max_precip_prob inputs |}.

(** The weather payload has no timestamp axis: no payload, no hourly
    object, or no [time] in it. *)
Definition lacks_time_axis (weather_data : option WeatherData) : Prop :=
  match weather_data with
  | None => True
  | Some weather_data =>
      match hourly weather_data with
      | None => True
      | Some weather_hourly => hourly_time weather_hourly = None
      end
  end.

(** The weather payload has no temperature array or no dew-point array. *)
Definition lacks_required_array (weather_data : option WeatherData) : Prop :=
  ∃ wd wh, weather_data = Some wd ∧ hourly wd = Some wh
           ∧ (temperature_2m wh = None ∨ dew_point_2m wh = None).

(** ** Payloads that can be reduced *)

(** The weather payload has its timestamp axis and the two required arrays,
    the arrays that are read by position cover the axis, every timestamp is
    an ISO date and, at every hour whose temperature, dew point and
    precipitation are present, neither the reference temperature nor the
    dew point is at the pole of the Magnus formula (-405.616 F) and the
    precipitation probability is not [null]. *)
Definition well_formed_forecast `{Platform} (weather_data : WeatherData)
    (inputs : WeatherInputs) : Prop :=
  ∃ wh times temps_f dew_points_f,
    hourly weather_data = Some wh ∧ hourly_time wh = Some times
    ∧ temperature_2m wh = Some temps_f
    ∧ dew_point_2m wh = Some dew_points_f
    ∧ (length times ≤ length temps_f)%nat
    ∧ (length times ≤ length dew_points_f)%nat
    ∧ (∀ precip_mm, precipitation wh = Some precip_mm →
         (length times ≤ length precip_mm)%nat)
    ∧ (∀ s, s ∈ times → is_Some (fromisoformat s))
    ∧ (∀ k t d p, (k < length times)%nat →
         temps_f !! k = Some (Some t) → dew_points_f !! k = Some (Some d) →
         default (replicate (length times) (Some 0%R)) (precipitation wh) !! k
         = Some (Some p) →
         IZR (indoor_ref_temp inputs) ≠ (-405.616)%R ∧ d ≠ (-405.616)%R
         ∧ ∀ pps, precipitation_probability wh = Some pps →
                  pps !! k ≠ Some None).

(** The thresholds [inputs2] allow everything that [inputs1] allows, for
    the same indoor reference temperature. *)
Definition wider (inputs1 inputs2 : WeatherInputs) : Prop :=
  indoor_ref_temp inputs1 = indoor_ref_temp inputs2
  ∧ (min_temp inputs2 ≤ min_temp inputs1)%Z
  ∧ (max_temp inputs1 ≤ max_temp inputs2)%Z
  ∧ (min_rh inputs2 ≤ min_rh inputs1)%Z
  ∧ (max_rh inputs1 ≤ max_rh inputs2)%Z
  ∧ (max_aqi inputs1 ≤ max_aqi inputs2)%Z
  ∧ (max_precip_prob inputs1 ≤ max_precip_prob inputs2)%Z.

(** ** Visualisation helpers and the route (lines 315-420, 520-526) *)

(** [s.replace(a, b)] for strings [a] and [b] of one character. *)
Fixpoint replace_char (a b : ascii) (s : string) : string :=
  match s with
  | EmptyString => EmptyString
  | String c s =>
      String (if Ascii.eqb c a then b else c) (replace_char a b s)
  end.

(** [f"{prefix}{day_str.replace(' ', '-').replace('/', '-')}"]: the id of
    the chart of a day, with the prefixes ["chart-div-"],
    ["precip-chart-div-"] and ["aqi-chart-div-"] (lines 319, 360, 383,
    573 and 574). *)
Definition chart_id (prefix day_str : string) : string :=
  prefix +:+ replace_char "/" "-" (replace_char " " "-" day_str).

(** [any(a is not None for a in aqi)] over the AQI column of the rows of a
    day (lines 385-387 of [create_aqi_chart_script]): the flag on which the
    script plots the AQI trace or reports that there is no AQI data. *)
Definition has_aqi_data (hourly_data : list hourly_row) : bool :=
  existsb (λ a, match a with Some _ => true | None => false end)
          (row_aqi <$> hourly_data).

(** The validation of the thresholds in the route [get] (lines 523-525),
    run when the geocoding has not failed: the message shown instead of a
    forecast, [None] when the thresholds pass. *)
Definition validation_error (inputs : WeatherInputs) : option string :=
  if bool_decide (min_temp inputs >= max_temp inputs)%Z
  then Some "Min temp >= max temp."
  else if bool_decide (min_rh inputs >= max_rh inputs)%Z
  then Some "Min RH >= max RH."
  else if bool_decide (max_aqi inputs < 0)%Z
  then Some "Max AQI cannot be negative."
  else None.

(** ** A host to run the reducer on

    An instance of [Platform] for evaluating [find_optimal_periods] on
    concrete payloads: a container whose clock is on UTC, the timestamps of
    the forecast provider (["YYYY-MM-DDTHH:MM"]), the [strftime] directives
    that [app.py] uses, and two zones. *)

Module Host.

Local Open Scope Z_scope.

(** The proleptic Gregorian calendar, days counted from 1970-01-01. *)
Definition days_from_civil (y m d : Z) : Z :=
  let y := if m <=? 2 then y - 1 else y in
  let era := y / 400 in
  let yoe := y - era * 400 in
  let mp := if 2 <? m then m - 3 else m + 9 in
  let doy := (153 * mp + 2) / 5 + d - 1 in
  let doe := yoe * 365 + yoe / 4 - yoe / 100 + doy in
  era * 146097 + doe - 719468.

Definition civil_from_days (z : Z) : Z * Z * Z :=
  let z := z + 719468 in
  let era := z / 146097 in
  let doe := z - era * 146097 in
  let yoe := (doe - doe / 1460 + doe / 36524 - doe / 146096) / 365 in
  let doy := doe - (365 * yoe + yoe / 4 - yoe / 100) in
  let mp := (5 * doy + 2) / 153 in
  let d := doy - (153 * mp + 2) / 5 + 1 in
  let m := if mp <? 10 then mp + 3 else mp - 9 in
  let y := yoe + era * 400 in
  (if m <=? 2 then y + 1 else y, m, d).

Definition digit_of (c : ascii) : option Z :=
  let n := Z.of_nat (nat_of_ascii c) - 48 in
  if (0 <=? n) && (n <=? 9) then Some n else None.

Fixpoint number_of (cs : list ascii) (acc : Z) : option Z :=
  match cs with
  | [] => Some acc
  | c :: cs =>
      match digit_of c with
      | Some d => number_of cs (10 * acc + d)
      | None => None
      end
  end.

(** ["YYYY-MM-DDTHH:MM"] to seconds of wall clock. *)
Definition parse_iso_minute (s : string) : option Z :=
  match list_ascii_of_string s with
  | [y1; y2; y3; y4; s1; m1; m2; s2; d1; d2; s3; h1; h2; s4; n1; n2] =>
      if Ascii.eqb s1 "-" && Ascii.eqb s2 "-" && Ascii.eqb s3 "T"
         && Ascii.eqb s4 ":"
      then
        y ← number_of [y1; y2; y3; y4] 0;
        m ← number_of [m1; m2] 0;
        d ← number_of [d1; d2] 0;
        h ← number_of [h1; h2] 0;
        n ← number_of [n1; n2] 0;
        let days := days_from_civil y m d in
        if decide (civil_from_days days = (y, m, d) ∧ h < 24 ∧ n < 60)
        then Some (days * 86400 + h * 3600 + n * 60)
        else None
      else None
  | _ => None
  end.

Definition digit_char (d : Z) : string :=
  String (ascii_of_nat (48 + Z.to_nat d)) "".

Definition pad2 (n : Z) : string :=
  digit_char ((n / 10) `mod` 10) +:+ digit_char (n `mod` 10).

Definition pad4 (n : Z) : string := pad2 (n / 100) +:+ pad2 (n `mod` 100).

Definition weekday_name (days : Z) : string :=
  default "" (["Mon"; "Tue"; "Wed"; "Thu"; "Fri"; "Sat"; "Sun"]
                !! Z.to_nat ((days + 3) `mod` 7)).

(** One [strftime] directive, on the wall clock of [dt]. *)
Definition directive (c : ascii) (dt : aware) : string :=
  let days := wall dt / 86400 in
  let '(y, m, d) := civil_from_days days in
  let hour := (wall dt `mod` 86400) / 3600 in
  let minute := (wall dt `mod` 3600) / 60 in
  if Ascii.eqb c "a" then weekday_name days
  else if Ascii.eqb c "Y" then pad4 y
  else if Ascii.eqb c "m" then pad2 m
  else if Ascii.eqb c "d" then pad2 d
  else if Ascii.eqb c "I" then
    pad2 (if hour `mod` 12 =? 0 then 12 else hour `mod` 12)
  else if Ascii.eqb c "M" then pad2 minute
  else if Ascii.eqb c "p" then (if hour <? 12 then "AM" else "PM")
  else String "%" (String c "").

Fixpoint format (fmt : string) (dt : aware) : string :=
  match fmt with
  | EmptyString => ""
  | String c rest =>
      match rest with
      | String c' rest' =>
          if Ascii.eqb c "%" then directive c' dt +:+ format rest' dt
          else String c (format rest dt)
      | EmptyString => String c ""
      end
  end.

(** Eastern Standard Time: the offset New York keeps in January, the month
    of the payloads below.  Daylight saving is not tabulated. *)
Definition eastern_standard : tzinfo :=
  {| utcoffset_of_wall := λ _, -18000; utcoffset_of_utc := λ _, -18000 |}.

Definition zone_table (name : string) : option tzinfo :=
  if decide (name = "UTC") then Some pytz_utc
  else if decide (name = "America/New_York") then Some eastern_standard
  else None.

Definition utc_host : Platform :=
  {| fromisoformat := parse_iso_minute;
     pytz_timezone := zone_table;
     system_utcoffset := λ _, 0;
     strftime := format |}.

End Host.

(** ** Payloads to run the reducer on *)

Module Examples.

Local Open Scope R_scope.

(** The defaults of the data class [WeatherInputs]. *)
Definition default_inputs : WeatherInputs :=
  {| location := "New York, NY";
     min_temp := 67; max_temp := 79; min_rh := 30; max_rh := 60;
     latitude := None; longitude := None;
     indoor_ref_temp := 69; max_aqi := 50; max_precip_prob := 10 |}.

Definition midnight_times : list string :=
  ["2024-01-01T23:00"; "2024-01-02T00:00"].

(** Two mild, dry hours on both sides of a midnight in New York.  The
    provider sent no precipitation probabilities: the array is empty. *)
Definition midnight_weather : WeatherData :=
  {| hourly :=
       Some {| hourly_time := Some midnight_times;
               temperature_2m := Some [Some 70; Some 70];
               dew_point_2m := Some [Some 50; Some 50];
               precipitation := Some [Some 0; Some 0];
               precipitation_probability := Some [] |};
     timezone := Some "America/New_York" |}.

(** An air-quality payload for the same hours, far above [max_aqi]. *)
Definition smog : AqiData :=
  {| aq_hourly := Some {| aq_time := Some midnight_times;
                          us_aqi := Some [Some 180; Some 180] |} |}.

(** The indoor humidity predicted for a dew point of 50 F at 69 F. *)
Definition mild_rh : R :=
  Rmin (Rmax (6.112 * exp (Humidity.a * ((50 - 32) * 5 / 9)
                           / (Humidity.b + (50 - 32) * 5 / 9))
              / (6.112 * exp (Humidity.a * ((69 - 32) * 5 / 9)
                              / (Humidity.b + (69 - 32) * 5 / 9)))
              * 100) 0) 100.

(** The row of a mild hour read at wall-clock second [n] of New York. *)
Definition mild_row (n : Z) (good : bool) (aqi : option R) : hourly_row :=
  {| row_dt := {| wall := n; utcoffset := -18000 |};
     row_is_good := good;
     row_temp_f := Some 70; row_rh_in := Some mild_rh;
     row_precip := Some 0; row_aqi := aqi; row_precip_prob := Some 0 |}.

(** Monday 2024-01-01 23:00 and the two hours after it. *)
Definition mon_23 : aware := {| wall := 1704150000; utcoffset := -18000 |}.
Definition tue_00 : aware := {| wall := 1704153600; utcoffset := -18000 |}.
Definition tue_01 : aware := {| wall := 1704157200; utcoffset := -18000 |}.

(** The payload of [midnight_weather] without its temperature array. *)
Definition no_temperatures : WeatherData :=
  {| hourly :=
       Some {| hourly_time := Some midnight_times;
               temperature_2m := None;
               dew_point_2m := Some [Some 50; Some 50];
               precipitation := Some [Some 0; Some 0];
               precipitation_probability := Some [] |};
     timezone := Some "America/New_York" |}.

(** The hourly object of [midnight_weather] with other timestamps and
    probabilities. *)
Definition mild_hours (times : list string)
    (probabilities : list (option R)) : WeatherHourly :=
  {| hourly_time := Some times;
     temperature_2m := Some [Some 70; Some 70];
     dew_point_2m := Some [Some 50; Some 50];
     precipitation := Some [Some 0; Some 0];
     precipitation_probability := Some probabilities |}.

(** A second timestamp that is no ISO date. *)
Definition garbled_weather : WeatherData :=
  {| hourly := Some (mild_hours ["2024-01-01T23:00"; "tomorrow"] []);
     timezone := Some "America/New_York" |}.

(** A [null] probability for the first hour. *)
Definition null_probability_weather : WeatherData :=
  {| hourly := Some (mild_hours midnight_times [None; Some 0]);
     timezone := Some "America/New_York" |}.

(** A zone that [pytz] does not know, and the zone of the host. *)
Definition unknown_zone_weather : WeatherData :=
  {| hourly := Some (mild_hours midnight_times []);
     timezone := Some "Mars/Olympus_Mons" |}.

Definition utc_weather : WeatherData :=
  {| hourly := Some (mild_hours midnight_times []);
     timezone := Some "UTC" |}.

(** A forecast without hours. *)
Definition empty_forecast : WeatherData :=
  {| hourly := Some {| hourly_time := Some [];
                       temperature_2m := Some [];
                       dew_point_2m := Some [];
                       precipitation := None;
                       precipitation_probability := None |};
     timezone := Some "America/New_York" |}.

(** Thresholds whose temperature band is empty. *)
Definition inverted_inputs : WeatherInputs :=
  {| location := "New York, NY";
     min_temp := 80; max_temp := 60; min_rh := 30; max_rh := 60;
     latitude := None; longitude := None;
     indoor_ref_temp := 69; max_aqi := 50; max_precip_prob := 10 |}.

(** What the loop over the hours appends, without and with [smog]. *)
Definition midnight_rows : list hourly_row :=
  [mild_row 1704150000 true None; mild_row 1704153600 true None].

Definition smog_rows : list hourly_row :=
  [mild_row 1704150000 false (Some 180);
   mild_row 1704153600 false (Some 180)].

(** What [find_optimal_periods] returns for [midnight_weather] without an
    air-quality payload. *)
Definition midnight_result : ForecastResult :=
  {| periods := [("Mon 11:00 PM", "08:00 PM")]%string;
     daily_chart_data :=
       {[ "Mon 2024-01-01"%string := [mild_row 1704150000 true None];
          "Tue 2024-01-02"%string := [mild_row 1704153600 true None] ]};
     daily_good_intervals :=
       {[ "Mon 2024-01-01"%string := [(mon_23, tue_00)];
          "Tue 2024-01-02"%string := [(tue_00, tue_01)] ]};
     daily_good_periods_text :=
       {[ "Mon 2024-01-01"%string := ["11:00 PM - 12:00 AM"%string];
          "Tue 2024-01-02"%string := ["12:00 AM - 01:00 AM"%string] ]} |}.

End Examples.

(** * Properties *)

(** ** The error monad *)

Lemma bind_Ok {A B} (c : result A) (f : A → result B) (y : B) :
  c ≫= f = Ok y ↔ ∃ x, c = Ok x ∧ f x = Ok y.
Proof.
  destruct c as [x|e]; simpl; split.
  - intros Hf. exists x. auto.
  - intros (x' & Hx & Hf). injection Hx as ->. exact Hf.
  - discriminate.
  - intros (x' & Hx & _). discriminate.
Qed.

Lemma bind_Raise {A B} (c : result A) (f : A → result B) (e : exn) :
  c ≫= f = Raise e ↔ c = Raise e ∨ ∃ x, c = Ok x ∧ f x = Raise e.
Proof.
  destruct c as [x|e']; simpl; split.
  - intros Hf. right. exists x. auto.
  - intros [Hx|(x' & Hx & Hf)]; [discriminate|]. injection Hx as ->. exact Hf.
  - intros [= ->]. by left.
  - intros [[= ->]|(x' & Hx & _)]; [done|discriminate].
Qed.

Lemma getitem_Ok {A} (l : list A) (i : nat) (x : A) :
  getitem l i = Ok x ↔ l !! i = Some x.
Proof.
  unfold getitem. destruct (l !! i); split; intros Hx;
    try discriminate; congruence.
Qed.

Lemma getitem_Raise {A} (l : list A) (i : nat) (e : exn) :
  getitem l i = Raise e ↔ (length l ≤ i)%nat ∧ e = IndexError.
Proof.
  unfold getitem. destruct (l !! i) as [x|] eqn:Hl; split.
  - discriminate.
  - intros [Hlen _]. apply lookup_ge_None_2 in Hlen. congruence.
  - intros [= <-]. split; [by apply lookup_ge_None_1|done].
  - by intros [_ ->].
Qed.

(** ** The humidity model *)

Module HumidityFacts.
Import Humidity.
Local Open Scope R_scope.

Lemma vapor_pressure_Ok (t : R) :
  b + t ≠ 0 → vapor_pressure t = Ok (6.112 * exp (a * t / (b + t))).
Proof. intros Ht. unfold vapor_pressure. by rewrite decide_False. Qed.

Lemma vapor_pressure_pole (t : R) :
  b + t = 0 → vapor_pressure t = Raise ZeroDivisionError.
Proof. intros Ht. unfold vapor_pressure. by rewrite decide_True. Qed.

Lemma vapor_pressure_pos (t es : R) : vapor_pressure t = Ok es → 0 < es.
Proof.
  unfold vapor_pressure. case_decide; [discriminate|].
  intros [= <-]. pose proof (exp_pos (a * t / (b + t))). lra.
Qed.

(** Away from the two poles the function returns a number: the guard
    [es <= 0] cannot fire on a positive [es]. *)
Lemma calculate_rh_Some (t d : R) :
  b + t ≠ 0 → b + d ≠ 0 →
  calculate_rh (Some t) (Some d)
  = Ok (Some (Rmin (Rmax (6.112 * exp (a * d / (b + d))
                          / (6.112 * exp (a * t / (b + t))) * 100) 0) 100)).
Proof.
  intros Ht Hd. unfold calculate_rh.
  rewrite (vapor_pressure_Ok t Ht), (vapor_pressure_Ok d Hd). simpl.
  rewrite decide_False; [done|].
  pose proof (exp_pos (a * t / (b + t))). lra.
Qed.

Lemma clamp_range (x : R) : 0 <= Rmin (Rmax x 0) 100 <= 100.
Proof.
  split; [|apply Rmin_r].
  apply Rmin_glb; [apply Rmax_r|lra].
Qed.

Lemma clamp_mono (x y : R) :
  x <= y → Rmin (Rmax x 0) 100 <= Rmin (Rmax y 0) 100.
Proof. intros Hxy. by apply Rle_min_compat_r, Rle_max_compat_r. Qed.

(** Every number that [calculate_rh] returns lies in [[0, 100]]. *)
Lemma calculate_rh_range (temp_c dew_point_c : option R) (rh : R) :
  calculate_rh temp_c dew_point_c = Ok (Some rh) → 0 <= rh <= 100.
Proof.
  destruct temp_c as [t|], dew_point_c as [d|]; simpl; try discriminate.
  destruct (vapor_pressure t) as [es|]; simpl; [|discriminate].
  destruct (vapor_pressure d) as [e|]; simpl; [|discriminate].
  case_decide; [discriminate|]. intros [= <-]. apply clamp_range.
Qed.

(** The exponent of the Magnus formula grows with the temperature on the
    right of its pole. *)
Lemma magnus_exponent_mono (d1 d2 : R) :
  0 < b + d1 → d1 <= d2 → a * d1 / (b + d1) <= a * d2 / (b + d2).
Proof.
  intros H1 H12. assert (H2 : 0 < b + d2) by lra.
  apply Rmult_le_reg_r with (r := (b + d1) * (b + d2)); [nra|].
  replace (a * d1 / (b + d1) * ((b + d1) * (b + d2)))
    with (a * d1 * (b + d2)) by (field; lra).
  replace (a * d2 / (b + d2) * ((b + d1) * (b + d2)))
    with (a * d2 * (b + d1)) by (field; lra).
  unfold a, b in *. nra.
Qed.

Lemma exp_le (x y : R) : x <= y → exp x <= exp y.
Proof.
  intros [Hlt| ->]; [|lra]. left. by apply exp_increasing.
Qed.

Lemma ftoc_pole (f : R) : b + (f - 32) * 5 / 9 = 0 ↔ f = -405.616.
Proof. unfold b. split; intros Hf; lra. Qed.

End HumidityFacts.

(** ** The humidity formula in rounded arithmetic *)

Module RoundedFacts.
Import HumidityFacts.
Local Open Scope R_scope.

(** Without rounding the model is the exact one. *)
Lemma exact_accurate : Rounded.accurate (λ x, x) exp.
Proof.
  split.
  - done.
  - intros x. replace (x - x) with 0 by lra. rewrite Rabs_R0.
    pose proof (Rabs_pos x). lra.
  - intros x. replace (exp x - exp x) with 0 by lra. rewrite Rabs_R0.
    pose proof (exp_pos x). lra.
Qed.

Lemma exact_calculate_rh (temp_c dew_point_c : option R) :
  Rounded.calculate_rh (λ x, x) exp temp_c dew_point_c
  = Humidity.calculate_rh temp_c dew_point_c.
Proof. reflexivity. Qed.

Lemma exact_predictIndoorRH (ref_f dew_point_f : option R) :
  Rounded.predictIndoorRH (λ x, x) exp ref_f dew_point_f
  = Humidity.predictIndoorRH ref_f dew_point_f.
Proof. destruct ref_f, dew_point_f; reflexivity. Qed.

Lemma exp_nat_le (n : nat) : exp (INR n) <= 3 ^ n.
Proof.
  induction n as [|n IH].
  - simpl. rewrite exp_0. lra.
  - rewrite S_INR, exp_plus. simpl.
    pose proof exp_le_3. pose proof (exp_pos (INR n)). pose proof (exp_pos 1).
    nra.
Qed.

(** The exponential on the range of the exponents met below. *)
Lemma exp_bounds (x : R) : -13 <= x <= 6 → 6e-7 <= exp x <= 729.
Proof.
  intros [Hlo Hhi]. split.
  - apply Rle_trans with (exp (-13)); [|by apply exp_le].
    replace (-13) with (Ropp 13) by lra. rewrite exp_Ropp.
    pose proof (exp_nat_le 13) as H13. pose proof (exp_pos 13) as Hpos.
    replace (INR 13) with 13 in H13 by (simpl; lra).
    apply Rmult_le_reg_r with (r := exp 13); [done|].
    rewrite Rinv_l by lra. simpl in H13. lra.
  - apply Rle_trans with (exp 6); [by apply exp_le|].
    pose proof (exp_nat_le 6) as H6.
    replace (INR 6) with 6 in H6 by (simpl; lra).
    simpl in H6. lra.
Qed.

Section Accuracy.
Variables rnd fexp : R → R.
Hypothesis arith : Rounded.accurate rnd fexp.

Lemma rnd_within (x : R) :
  x - (Rabs x * 1e-12 + 1e-100) <= rnd x <= x + (Rabs x * 1e-12 + 1e-100).
Proof.
  pose proof (Rounded.rnd_error _ _ arith x) as H. revert H.
  generalize (Rabs x * 1e-12 + 1e-100). intros r.
  unfold Rabs at 1. destruct (Rcase_abs (rnd x - x)); lra.
Qed.

(** Rounding a number of magnitude at most [M]. *)
Lemma rnd_near (x M : R) :
  Rabs x <= M →
  x - (M * 1e-12 + 1e-100) <= rnd x <= x + (M * 1e-12 + 1e-100).
Proof. intros HM. pose proof (rnd_within x). lra. Qed.

Lemma Rabs_bound (x lo hi M : R) :
  lo <= x <= hi → - M <= lo → hi <= M → Rabs x <= M.
Proof. intros. unfold Rabs. destruct (Rcase_abs x); lra. Qed.

(** Rounding a positive number. *)
Lemma rnd_pos (x : R) :
  0 <= x → x * (1 - 1e-12) - 1e-100 <= rnd x <= x * (1 + 1e-12) + 1e-100.
Proof.
  intros Hx. pose proof (rnd_within x) as H.
  rewrite Rabs_pos_eq in H by done. lra.
Qed.

Lemma fexp_within (x : R) :
  exp x * (1 - 1e-9) - 1e-100 <= fexp x <= exp x * (1 + 1e-9) + 1e-100.
Proof.
  pose proof (Rounded.fexp_error _ _ arith x) as H.
  unfold Rabs in H. destruct (Rcase_abs (fexp x - exp x)) in H; lra.
Qed.

Local Notation "'exponent' t" :=
  (rnd (rnd (Rounded.a rnd * t) / rnd (Rounded.b rnd + t)))
  (at level 10, t at level 9).
Local Notation "'pressure' t" :=
  (rnd (rnd 6.112 * fexp (exponent t))) (at level 10, t at level 9).

(** The conversion to Celsius is accurate to nine digits. *)
Lemma ftoc_near (f : R) :
  -148 <= f <= 212 →
  ∃ t, Rounded.ftoc rnd (Some f) = Some t
       ∧ (f - 32) * 5 / 9 - 1e-9 <= t <= (f - 32) * 5 / 9 + 1e-9.
Proof.
  intros Hf. eexists. split; [reflexivity|].
  pose proof (rnd_near (f - 32) 180) as H1.
  set (y1 := rnd (f - 32)) in *.
  specialize (H1 ltac:(apply (Rabs_bound _ (-180) 180); lra)).
  pose proof (rnd_near (y1 * 5) 901) as H2.
  set (y2 := rnd (y1 * 5)) in *.
  specialize (H2 ltac:(apply (Rabs_bound _ (-901) 901); lra)).
  pose proof (rnd_near (y2 / 9) 101) as H3.
  set (y3 := rnd (y2 / 9)) in *.
  specialize (H3 ltac:(apply (Rabs_bound _ (-101) 101); lra)).
  lra.
Qed.

(** The divisor and the exponent of the formula between -100 C and 100 C:
    the divisor is far from zero and the exponent is the exact one to nine
    digits. *)
Lemma exponent_near (t : R) :
  -100.001 <= t <= 100.001 →
  143 <= rnd (Rounded.b rnd + t)
  ∧ 17.62 * t / (243.12 + t) - 1e-9 <= exponent t
    <= 17.62 * t / (243.12 + t) + 1e-9
  ∧ -13 <= exponent t <= 6.
Proof.
  intros Ht. unfold Rounded.a, Rounded.b.
  pose proof (rnd_near 17.62 18) as Ha. set (a := rnd 17.62) in *.
  specialize (Ha ltac:(apply (Rabs_bound _ 0 18); lra)).
  pose proof (rnd_near 243.12 244) as Hb. set (b := rnd 243.12) in *.
  specialize (Hb ltac:(apply (Rabs_bound _ 0 244); lra)).
  assert (Hat : 17.62 * t - 2.1e-9 <= a * t <= 17.62 * t + 2.1e-9) by nra.
  pose proof (rnd_near (a * t) 1763) as Hn. set (num := rnd (a * t)) in *.
  specialize (Hn ltac:(apply (Rabs_bound _ (-1763) 1763); lra)).
  pose proof (rnd_near (b + t) 344) as Hd. set (den := rnd (b + t)) in *.
  specialize (Hd ltac:(apply (Rabs_bound _ 0 344); lra)).
  set (N := 17.62 * t) in *. set (D := 243.12 + t).
  assert (HD : 143.119 <= D <= 343.121) by (unfold D; lra).
  assert (Hnum : N - 4e-9 <= num <= N + 4e-9) by lra.
  assert (Hden : D - 6e-10 <= den <= D + 6e-10) by (unfold D; lra).
  assert (HN : -1762.1 <= N <= 1762.1) by (unfold N; lra).
  split; [lra|].
  assert (HG : -12.32 <= N / D <= 5.14).
  { split.
    - apply Rmult_le_reg_r with (r := D); [lra|].
      replace (N / D * D) with N by (field; lra). unfold N, D. lra.
    - apply Rmult_le_reg_r with (r := D); [lra|].
      replace (N / D * D) with N by (field; lra). unfold N, D. lra. }
  assert (Hq : N / D - 2e-10 <= num / den <= N / D + 2e-10).
  { assert (H1 : -1.4e-6 <= (num - N) * D <= 1.4e-6) by nra.
    assert (H2 : -1.1e-6 <= N * (den - D) <= 1.1e-6) by nra.
    assert (H3 : 20449 <= den * D) by nra.
    split.
    - apply Rmult_le_reg_r with (r := den * D); [lra|].
      replace ((N / D - 2e-10) * (den * D))
        with (N * den - 2e-10 * (den * D)) by (field; lra).
      replace (num / den * (den * D)) with (num * D) by (field; lra).
      lra.
    - apply Rmult_le_reg_r with (r := den * D); [lra|].
      replace ((N / D + 2e-10) * (den * D))
        with (N * den + 2e-10 * (den * D)) by (field; lra).
      replace (num / den * (den * D)) with (num * D) by (field; lra).
      lra. }
  pose proof (rnd_near (num / den) 13) as Hx.
  specialize (Hx ltac:(apply (Rabs_bound _ (-13) 13); lra)).
  lra.
Qed.

(** Half a thousandth of a degree moves the exact exponent by more than
    the rounding does. *)
Lemma exponent_gap (t1 t2 : R) :
  -100.001 <= t1 → t1 + 5e-4 <= t2 → t2 <= 100.001 →
  17.62 * t1 / (243.12 + t1) + 1.8e-5 <= 17.62 * t2 / (243.12 + t2).
Proof.
  intros H1 H12 H2.
  set (D1 := 243.12 + t1). set (D2 := 243.12 + t2).
  assert (HD1 : 143.119 <= D1 <= 343.121) by (unfold D1; lra).
  assert (HD2 : 143.119 <= D2 <= 343.121) by (unfold D2; lra).
  assert (HDD : 0 < D1 * D2 <= 117733) by nra.
  apply Rmult_le_reg_r with (r := D1 * D2); [lra|].
  replace ((17.62 * t1 / D1 + 1.8e-5) * (D1 * D2))
    with (17.62 * t1 * D2 + 1.8e-5 * (D1 * D2)) by (field; lra).
  replace (17.62 * t2 / D2 * (D1 * D2)) with (17.62 * t2 * D1)
    by (field; lra).
  unfold D1, D2 in *. nra.
Qed.

Lemma exponent_order (t1 t2 : R) :
  -100.001 <= t1 → t1 + 5e-4 <= t2 → t2 <= 100.001 →
  exponent t1 + 1e-5 <= exponent t2.
Proof.
  intros H1 H12 H2.
  destruct (exponent_near t1) as (_ & Hx1 & _); [lra|].
  destruct (exponent_near t2) as (_ & Hx2 & _); [lra|].
  pose proof (exponent_gap t1 t2 H1 H12 H2). lra.
Qed.

(** [math.exp] on two exponents that far apart. *)
Lemma fexp_order (x1 x2 : R) :
  -13 <= x1 → x1 + 1e-5 <= x2 → x2 <= 6 →
  5e-7 <= fexp x1 ∧ fexp x1 * (1 + 5e-6) <= fexp x2 ∧ fexp x2 <= 730.
Proof.
  intros H1 H12 H2.
  pose proof (exp_bounds x1 ltac:(lra)) as He1.
  pose proof (exp_bounds x2 ltac:(lra)) as He2.
  assert (He : exp x1 * (1 + 1e-5) <= exp x2).
  { replace x2 with (x1 + (x2 - x1)) by lra. rewrite exp_plus.
    pose proof (exp_ineq1_le (x2 - x1)). nra. }
  pose proof (fexp_within x1). pose proof (fexp_within x2). lra.
Qed.

Lemma fexp_range (x : R) : -13 <= x <= 6 → 5e-7 <= fexp x <= 730.
Proof.
  intros Hx. pose proof (exp_bounds x Hx). pose proof (fexp_within x). lra.
Qed.

Lemma six_near : 6.111 <= rnd 6.112 <= 6.113.
Proof.
  pose proof (rnd_near 6.112 7) as H.
  specialize (H ltac:(apply (Rabs_bound _ 0 7); lra)). lra.
Qed.

(** The vapour pressure between -100 C and 100 C is a positive number. *)
Lemma vapor_pressure_rounded (t : R) :
  -100.001 <= t <= 100.001 →
  Rounded.vapor_pressure rnd fexp t = Ok (pressure t)
  ∧ 3e-6 <= pressure t <= 4500.
Proof.
  intros Ht. destruct (exponent_near t Ht) as (Hden & _ & Hx).
  split.
  - unfold Rounded.vapor_pressure. cbv zeta.
    rewrite decide_False by lra. reflexivity.
  - pose proof (fexp_range _ Hx) as Hf. pose proof six_near as H6.
    set (f := fexp _) in *. set (c := rnd 6.112) in *.
    assert (Hp : 3.05e-6 <= c * f <= 4463) by nra.
    pose proof (rnd_pos (c * f) ltac:(lra)). nra.
Qed.

(** Two vapour pressures half a thousandth of a degree apart. *)
Lemma pressure_order (t1 t2 : R) :
  -100.001 <= t1 → t1 + 5e-4 <= t2 → t2 <= 100.001 →
  pressure t1 * (1 + 4e-6) <= pressure t2.
Proof.
  intros H1 H12 H2.
  destruct (exponent_near t1) as (_ & _ & Hx1); [lra|].
  destruct (exponent_near t2) as (_ & _ & Hx2); [lra|].
  pose proof (exponent_order t1 t2 H1 H12 H2) as Hx.
  destruct (fexp_order _ _ (proj1 Hx1) Hx (proj2 Hx2)) as (Hf1 & Hf & Hf2).
  pose proof six_near as H6.
  set (f1 := fexp (exponent t1)) in *. set (f2 := fexp (exponent t2)) in *.
  set (c := rnd 6.112) in *.
  assert (Hp1 : 3.05e-6 <= c * f1) by nra.
  assert (Hp : c * f1 * (1 + 5e-6) <= c * f2).
  { replace (c * f1 * (1 + 5e-6)) with (c * (f1 * (1 + 5e-6))) by ring.
    apply Rmult_le_compat_l; lra. }
  pose proof (rnd_pos (c * f1) ltac:(lra)).
  pose proof (rnd_pos (c * f2) ltac:(nra)).
  lra.
Qed.

(** What [calculate_rh] returns between -100 C and 100 C. *)
Lemma calculate_rh_rounded (t d : R) :
  -100.001 <= t <= 100.001 → -100.001 <= d <= 100.001 →
  Rounded.calculate_rh rnd fexp (Some t) (Some d)
  = Ok (Some (Rmin (Rmax (rnd (rnd (pressure d / pressure t) * 100)) 0)
                100)).
Proof.
  intros Ht Hd.
  destruct (vapor_pressure_rounded t Ht) as [Hes Hpos].
  destruct (vapor_pressure_rounded d Hd) as [He _].
  unfold Rounded.calculate_rh. rewrite Hes, He. simpl.
  rewrite decide_False by lra. reflexivity.
Qed.

(** The prediction grows with the dew point. *)
Lemma calculate_rh_rounded_mono (t d1 d2 : R) :
  -100.001 <= t <= 100.001 →
  -100.001 <= d1 → d1 + 5e-4 <= d2 → d2 <= 100.001 →
  ∃ r1 r2,
    Rounded.calculate_rh rnd fexp (Some t) (Some d1) = Ok (Some r1)
    ∧ Rounded.calculate_rh rnd fexp (Some t) (Some d2) = Ok (Some r2)
    ∧ r1 <= r2.
Proof.
  intros Ht H1 H12 H2.
  rewrite !calculate_rh_rounded by lra.
  eexists _, _. split; [reflexivity|]. split; [reflexivity|].
  apply clamp_mono, (Rounded.rnd_monotone _ _ arith).
  apply Rmult_le_compat_r; [lra|].
  apply (Rounded.rnd_monotone _ _ arith).
  destruct (vapor_pressure_rounded t Ht) as [_ Hes].
  destruct (vapor_pressure_rounded d1) as [_ He1]; [lra|].
  pose proof (pressure_order d1 d2 H1 H12 H2) as He.
  apply Rmult_le_compat_r; [left; apply Rinv_0_lt_compat; lra|]. lra.
Qed.

(** A dew point above the temperature saturates the clamp; one below it
    does not. *)
Lemma calculate_rh_rounded_above (t d : R) :
  -100.001 <= t → t + 5e-4 <= d → d <= 100.001 →
  Rounded.calculate_rh rnd fexp (Some t) (Some d) = Ok (Some 100).
Proof.
  intros H1 H12 H2. rewrite calculate_rh_rounded by lra.
  destruct (vapor_pressure_rounded t) as [_ Hes]; [lra|].
  pose proof (pressure_order t d H1 H12 H2) as He.
  set (es := pressure t) in *. set (e := pressure d) in *.
  assert (Hq : 1 + 4e-6 <= e / es).
  { apply Rmult_le_reg_r with (r := es); [lra|].
    replace (e / es * es) with e by (field; lra). lra. }
  pose proof (rnd_pos (e / es) ltac:(lra)) as Hr.
  set (q := rnd (e / es)) in *.
  assert (Hq' : 1 + 3e-6 <= q) by nra.
  pose proof (rnd_pos (q * 100) ltac:(lra)) as Hw.
  set (w := rnd (q * 100)) in *.
  assert (Hw' : 100 <= w) by nra.
  rewrite (Rmax_left w 0) by lra. rewrite (Rmin_right w 100) by lra.
  reflexivity.
Qed.

Lemma calculate_rh_rounded_below (t d : R) :
  -100.001 <= d → d + 5e-4 <= t → t <= 100.001 →
  ∃ rh,
    Rounded.calculate_rh rnd fexp (Some t) (Some d) = Ok (Some rh)
    ∧ 0 < rh < 100.
Proof.
  intros H1 H12 H2. rewrite calculate_rh_rounded by lra.
  eexists. split; [reflexivity|].
  destruct (vapor_pressure_rounded t) as [_ Hes]; [lra|].
  destruct (vapor_pressure_rounded d) as [_ Hed]; [lra|].
  pose proof (pressure_order d t H1 H12 H2) as He.
  set (es := pressure t) in *. set (e := pressure d) in *.
  assert (Hq : 6e-10 <= e / es <= 1 - 3e-6).
  { split.
    - apply Rmult_le_reg_r with (r := es); [lra|].
      replace (e / es * es) with e by (field; lra). nra.
    - apply Rmult_le_reg_r with (r := es); [lra|].
      replace (e / es * es) with e by (field; lra). nra. }
  pose proof (rnd_pos (e / es) ltac:(lra)) as Hr.
  set (q := rnd (e / es)) in *.
  assert (Hq' : 5e-10 <= q <= 1 - 2e-6) by nra.
  pose proof (rnd_pos (q * 100) ltac:(lra)) as Hw.
  set (w := rnd (q * 100)) in *.
  assert (Hw' : 0 < w < 100) by nra.
  rewrite (Rmax_left w 0) by lra. rewrite (Rmin_left w 100) by lra.
  done.
Qed.

End Accuracy.
End RoundedFacts.

Section HumidityClaims.
Import Humidity HumidityFacts.
Local Open Scope R_scope.

(** C5 (humidity bounds and absence): the claim lets [calculate_rh] end in
    absent or in a number of [[0, 100]] on every input and never in a
    numeric error.  At the pole of the Magnus formula, a temperature of
    -243.12 C (a dew point of -405.616 F), the divisor [b + t] is zero and
    the call raises [ZeroDivisionError]. *)
Theorem calculate_rh_raises_at_pole :
  calculate_rh (Some (-243.12)) (Some 0) = Raise ZeroDivisionError
  ∧ calculate_rh (Some 20) (Some (-243.12)) = Raise ZeroDivisionError
  ∧ predictIndoorRH (Some 69) (Some (-405.616)) = Raise ZeroDivisionError.
Proof.
  split; [|split].
  - unfold calculate_rh.
    rewrite (vapor_pressure_pole (-243.12)); [reflexivity|]. unfold b. lra.
  - unfold calculate_rh.
    rewrite (vapor_pressure_Ok 20) by (unfold b; lra).
    rewrite (vapor_pressure_pole (-243.12)); [reflexivity|]. unfold b. lra.
  - unfold predictIndoorRH, ftoc, calculate_rh.
    rewrite (vapor_pressure_Ok ((69 - 32) * 5 / 9)) by (unfold b; lra).
    rewrite (vapor_pressure_pole ((-405.616 - 32) * 5 / 9));
      [reflexivity|]. unfold b. lra.
Qed.

(** C6, as stated, fails: with the indoor reference at 69 F, a dew point of
    -418 F (left of the pole) predicts 100 percent, a dew point of 32 F
    predicts less. *)
Lemma predictIndoorRH_not_monotone :
  ∃ r1 r2 : R,
    -418 <= 32
    ∧ predictIndoorRH (Some 69) (Some (-418)) = Ok (Some r1)
    ∧ predictIndoorRH (Some 69) (Some 32) = Ok (Some r2)
    ∧ r2 < r1.
Proof.
  unfold predictIndoorRH, ftoc.
  rewrite !calculate_rh_Some by (unfold b; lra).
  eexists _, _. split; [lra|]. split; [reflexivity|]. split; [reflexivity|].
  set (t := (69 - 32) * 5 / 9).
  pose proof (exp_pos (a * t / (b + t))) as Hes.
  assert (Ht : 1 < exp (a * t / (b + t))).
  { rewrite <- exp_0. apply exp_increasing. unfold a, b, t. lra. }
  assert (H1 : exp (a * t / (b + t))
               <= exp (a * ((-418 - 32) * 5 / 9) / (b + (-418 - 32) * 5 / 9))).
  { apply exp_le. unfold a, b, t. clear. lra. }
  assert (H2 : exp (a * ((32 - 32) * 5 / 9) / (b + (32 - 32) * 5 / 9)) = 1).
  { rewrite <- exp_0. f_equal. unfold a, b. lra. }
  rewrite H2.
  set (e1 := exp (a * ((-418 - 32) * 5 / 9) / _)) in *.
  set (es := exp (a * t / (b + t))) in *.
  assert (Hr1 : 100 <= 6.112 * e1 / (6.112 * es) * 100).
  { apply Rmult_le_reg_r with (r := es); [lra|].
    replace (6.112 * e1 / (6.112 * es) * 100 * es) with (100 * e1)
      by (field; lra). lra. }
  assert (Hr2 : 0 < 6.112 * 1 / (6.112 * es) * 100 < 100).
  { replace (6.112 * 1 / (6.112 * es) * 100) with (100 / es) by (field; lra).
    split.
    - apply Rdiv_lt_0_compat; lra.
    - apply Rmult_lt_reg_r with (r := es); [lra|].
      replace (100 / es * es) with 100 by (field; lra). lra. }
  rewrite (Rmax_left _ 0) by lra. rewrite (Rmin_left _ 100) by lra.
  rewrite (Rmax_left _ 0) by lra. rewrite (Rmin_right _ 100) by lra.
  lra.
Qed.

(** In exact arithmetic the prediction is monotone on the whole right of
    the pole: for a reference temperature off the pole and dew points
    above -405.616 F. *)
Lemma predictIndoorRH_exact_monotone (ref_f d1 d2 : R) :
  ref_f ≠ -405.616 → -405.616 < d1 → d1 <= d2 →
  ∃ r1 r2 : R,
    predictIndoorRH (Some ref_f) (Some d1) = Ok (Some r1)
    ∧ predictIndoorRH (Some ref_f) (Some d2) = Ok (Some r2)
    ∧ r1 <= r2.
Proof.
  intros Href H1 H12. unfold predictIndoorRH, ftoc.
  assert (Hb := proj1 (ftoc_pole ref_f)).
  assert (Hc1 : 0 < b + (d1 - 32) * 5 / 9) by (unfold b; lra).
  assert (Hc2 : 0 < b + (d2 - 32) * 5 / 9) by (unfold b; lra).
  rewrite !calculate_rh_Some by (auto; lra).
  eexists _, _. split; [reflexivity|]. split; [reflexivity|].
  apply clamp_mono.
  pose proof (exp_pos (a * ((ref_f - 32) * 5 / 9) / (b + (ref_f - 32) * 5 / 9)))
    as Hes.
  set (es := exp _) in *.
  assert (He : exp (a * ((d1 - 32) * 5 / 9) / (b + (d1 - 32) * 5 / 9))
               <= exp (a * ((d2 - 32) * 5 / 9) / (b + (d2 - 32) * 5 / 9))).
  { apply exp_le, magnus_exponent_mono; lra. }
  apply Rmult_le_compat_r; [lra|].
  apply Rmult_le_compat_r; [left; apply Rinv_0_lt_compat; lra|].
  lra.
Qed.

(** C6, amended: in rounded arithmetic (every operation of [ftoc] and
    [calculate_rh] rounded, [math.exp] accurate to nine digits), for an
    indoor reference temperature between -148 F and 212 F (-100 C and
    100 C) and two dew points in that range, the second at least a
    thousandth of a degree above the first, both predictions are numbers
    and the first is at most the second. *)
Theorem predictIndoorRH_monotone (rnd fexp : R → R) (ref_f d1 d2 : R) :
  Rounded.accurate rnd fexp →
  -148 <= ref_f <= 212 → -148 <= d1 → d1 + 0.001 <= d2 → d2 <= 212 →
  ∃ r1 r2 : R,
    Rounded.predictIndoorRH rnd fexp (Some ref_f) (Some d1) = Ok (Some r1)
    ∧ Rounded.predictIndoorRH rnd fexp (Some ref_f) (Some d2) = Ok (Some r2)
    ∧ r1 <= r2.
Proof.
  intros arith Href H1 H12 H2. unfold Rounded.predictIndoorRH.
  destruct (RoundedFacts.ftoc_near rnd fexp arith ref_f Href) as (t & -> & Ht).
  destruct (RoundedFacts.ftoc_near rnd fexp arith d1) as (c1 & -> & Hc1); [lra|].
  destruct (RoundedFacts.ftoc_near rnd fexp arith d2) as (c2 & -> & Hc2); [lra|].
  apply (RoundedFacts.calculate_rh_rounded_mono rnd fexp arith); lra.
Qed.

(** The amended claim at an indoor reference of 69 F and dew points of
    50 F and 60 F, in the arithmetic that rounds nothing. *)
Lemma predictIndoorRH_monotone_witness :
  Rounded.accurate (λ x, x) exp
  ∧ ∃ r1 r2 : R,
      Rounded.predictIndoorRH (λ x, x) exp (Some 69) (Some 50) = Ok (Some r1)
      ∧ Rounded.predictIndoorRH (λ x, x) exp (Some 69) (Some 60)
        = Ok (Some r2)
      ∧ r1 <= r2.
Proof.
  split; [exact RoundedFacts.exact_accurate|].
  apply (predictIndoorRH_monotone (λ x, x) exp 69 50 60
           RoundedFacts.exact_accurate); lra.
Defined.

End HumidityClaims.

(** ** The admissibility test *)

Section HourFacts.
Import Humidity HumidityFacts.
Local Open Scope R_scope.

Variable inputs : WeatherInputs.

(** What [evaluate_hour] returns when the primary data is present. *)
Lemma evaluate_hour_primary (aq_available : bool) (ref_c : option R)
    (t d p : R) (pp aqi : option R) (c : hour_checks) :
  evaluate_hour inputs aq_available ref_c (Some t) (Some d) (Some p) pp aqi
  = Ok c →
  ∃ q : R,
    pp = Some q
    ∧ calculate_rh ref_c (ftoc (Some d)) = Ok (predicted_rh_in c)
    ∧ primary_data_ok c = true
    ∧ temp_ok c = bool_decide (IZR (min_temp inputs) <= t)
                  && bool_decide (t <= IZR (max_temp inputs))
    ∧ rh_ok c = match predicted_rh_in c with
                | Some rh => bool_decide (IZR (min_rh inputs) <= rh)
                             && bool_decide (rh <= IZR (max_rh inputs))
                | None => false
                end
    ∧ precip_ok c = bool_decide (p < 0.1)
    ∧ precip_prob_ok c = bool_decide (q <= IZR (max_precip_prob inputs))
    ∧ aqi_ok c = (if aq_available then
                    match aqi with
                    | Some v => bool_decide (v <= IZR (max_aqi inputs))
                    | None => false
                    end
                  else true)
    ∧ is_good c = temp_ok c && rh_ok c && precip_ok c && precip_prob_ok c
                  && aqi_ok c.
Proof.
  unfold evaluate_hour.
  destruct (calculate_rh ref_c (ftoc (Some d))) as [rh|e]; [|discriminate].
  simpl. destruct pp as [q|]; [|discriminate]. simpl.
  intros [= <-]. exists q. simpl. repeat split; reflexivity.
Qed.

(** What it returns when one of the three is missing. *)
Lemma evaluate_hour_no_primary (aq_available : bool) (ref_c : option R)
    (t d p pp aqi : option R) :
  t = None ∨ d = None ∨ p = None →
  evaluate_hour inputs aq_available ref_c t d p pp aqi
  = Ok {| primary_data_ok := false; predicted_rh_in := None;
          temp_ok := false; rh_ok := false; precip_ok := false;
          precip_prob_ok := false; aqi_ok := false; is_good := false |}.
Proof.
  unfold evaluate_hour.
  intros Hn. destruct t, d, p; try reflexivity.
  destruct Hn as [?|[?|?]]; discriminate.
Qed.

Lemma evaluate_hour_cases (aq_available : bool) (ref_c : option R)
    (t d p pp aqi : option R) (c : hour_checks) :
  evaluate_hour inputs aq_available ref_c t d p pp aqi = Ok c →
  (∃ t' d' p', t = Some t' ∧ d = Some d' ∧ p = Some p'
               ∧ primary_data_ok c = true)
  ∨ ((t = None ∨ d = None ∨ p = None)
     ∧ c = {| primary_data_ok := false; predicted_rh_in := None;
              temp_ok := false; rh_ok := false; precip_ok := false;
              precip_prob_ok := false; aqi_ok := false; is_good := false |}).
Proof.
  intros Hc.
  destruct t as [t'|]; [destruct d as [d'|]; [destruct p as [p'|]|]|].
  - left. exists t', d', p'.
    destruct (evaluate_hour_primary _ _ _ _ _ _ _ _ Hc) as (q & _ & _ & Hp & _).
    auto.
  - right. rewrite evaluate_hour_no_primary in Hc by auto.
    injection Hc as <-. auto.
  - right. rewrite evaluate_hour_no_primary in Hc by auto.
    injection Hc as <-. auto.
  - right. rewrite evaluate_hour_no_primary in Hc by auto.
    injection Hc as <-. auto.
Qed.

End HourFacts.

(** ** The AQI table *)

(** The payloads for which the AQI is counted as unavailable: no payload,
    no hourly object, no timestamps, no values, or values and timestamps of
    different lengths. *)
Lemma aqi_table_unavailable (aqi_data : option AqiData) :
  (aqi_table aqi_data).1 = false → aqi_table aqi_data = (false, ∅).
Proof.
  unfold aqi_table.
  destruct aqi_data as [[[[[ts|] [vs|]]|]]|]; simpl; try done.
  case_decide; simpl; done.
Qed.

Lemma fill_aqi_lookup (ts : list string) (vs : list (option R))
    (d : gmap string (option R)) (k : string) (v : option R) :
  fill_aqi ts vs d !! k = Some v →
  d !! k = Some v ∨ ∃ i, ts !! i = Some k ∧ vs !! i = Some v.
Proof.
  revert vs d. induction ts as [|t ts IH]; intros [|w vs] d; simpl; auto.
  intros Hk. destruct (IH _ _ Hk) as [Hd|(i & Ht & Hv)].
  - destruct (decide (t = k)) as [->|Hne].
    + rewrite lookup_insert_eq in Hd. injection Hd as ->.
      right. exists 0%nat. auto.
    + rewrite lookup_insert_ne in Hd by done. auto.
  - right. exists (S i). auto.
Qed.

(** A value read from the table comes from an available payload whose
    value array holds it. *)
Lemma dict_get_aqi_table (aqi_data : option AqiData) (k : string) (v : R) :
  dict_get (aqi_table aqi_data).2 k = Some v →
  (aqi_table aqi_data).1 = true
  ∧ ∃ ad ah ts vs i,
      aqi_data = Some ad ∧ aq_hourly ad = Some ah ∧ aq_time ah = Some ts
      ∧ us_aqi ah = Some vs ∧ ts !! i = Some k ∧ vs !! i = Some (Some v).
Proof.
  unfold dict_get, aqi_table.
  destruct aqi_data as [[[[[ts|] [vs|]]|]]|]; simpl;
    try (rewrite lookup_empty; discriminate).
  case_decide; simpl; [|rewrite lookup_empty; discriminate].
  destruct (fill_aqi ts vs ∅ !! k) as [o|] eqn:Hk; [|discriminate].
  intros ->. split; [done|].
  apply fill_aqi_lookup in Hk as [Hk|(i & Ht & Hv)].
  - rewrite lookup_empty in Hk. discriminate.
  - eexists _, _, ts, vs, i. eauto 10.
Qed.

(** ** The loop over the hours *)

Section HourLoopFacts.
Import Humidity HumidityFacts.
Context {host : Platform}.
Variable inputs : WeatherInputs.
Variables temps_f dew_points_f precip_mm precip_prob : list (option R).
Variable aq_available : bool.
Variable aqi_values_dict : gmap string (option R).
Variable tz : tzinfo.
Variable indoor_ref_temp_c : option R.

Local Notation "'hour_row''" :=
  (hour_row inputs temps_f dew_points_f precip_mm precip_prob aq_available
     aqi_values_dict tz indoor_ref_temp_c).
Local Notation "'hour_loop''" :=
  (hour_loop inputs temps_f dew_points_f precip_mm precip_prob aq_available
     aqi_values_dict tz indoor_ref_temp_c).

Lemma hour_row_Ok (i : nat) (time_str : string) (row : hourly_row) :
  hour_row' i time_str = Ok row ↔
  ∃ t d p n c,
    temps_f !! i = Some t ∧ dew_points_f !! i = Some d
    ∧ precip_mm !! i = Some p ∧ fromisoformat time_str = Some n
    ∧ evaluate_hour inputs aq_available indoor_ref_temp_c t d p
        (match precip_prob !! i with Some v => v | None => Some 0%R end)
        (dict_get aqi_values_dict time_str) = Ok c
    ∧ row = {| row_dt := localize tz n; row_is_good := is_good c;
               row_temp_f := t; row_rh_in := predicted_rh_in c;
               row_precip := p;
               row_aqi := dict_get aqi_values_dict time_str;
               row_precip_prob :=
                 match precip_prob !! i with
                 | Some v => v
                 | None => Some 0%R
                 end |}.
Proof.
  unfold hour_row, getitem. split.
  - destruct (temps_f !! i) as [t|]; [|discriminate].
    destruct (dew_points_f !! i) as [d|]; [|discriminate].
    destruct (precip_mm !! i) as [p|]; [|discriminate].
    destruct (fromisoformat time_str) as [n|]; [|discriminate]. simpl.
    destruct (evaluate_hour _ _ _ _ _ _ _ _) as [c|] eqn:Hc; [|discriminate].
    simpl. intros [= <-]. exists t, d, p, n, c. auto 10.
  - intros (t & d & p & n & c & -> & -> & -> & -> & Hc & ->). simpl.
    rewrite Hc. reflexivity.
Qed.

Lemma evaluate_hour_no_IndexError (av : bool) (ref_c t d p pp aqi : option R) :
  evaluate_hour inputs av ref_c t d p pp aqi ≠ Raise IndexError.
Proof.
  unfold evaluate_hour. destruct t as [t|], d as [d|], p as [p|]; try done.
  unfold calculate_rh. destruct ref_c as [r|]; simpl.
  - unfold vapor_pressure.
    repeat (case_decide; simpl; try done); destruct pp; done.
  - destruct pp; done.
Qed.

Lemma hour_row_IndexError (i : nat) (time_str : string) :
  hour_row' i time_str = Raise IndexError →
  (length temps_f ≤ i ∨ length dew_points_f ≤ i ∨ length precip_mm ≤ i)%nat.
Proof.
  unfold hour_row, getitem.
  destruct (temps_f !! i) as [t|] eqn:Ht;
    [|intros _; left; by apply lookup_ge_None_1].
  destruct (dew_points_f !! i) as [d|] eqn:Hd;
    [|intros _; right; left; by apply lookup_ge_None_1].
  destruct (precip_mm !! i) as [p|] eqn:Hp;
    [|intros _; right; right; by apply lookup_ge_None_1].
  simpl. destruct (fromisoformat time_str) as [n|]; [|discriminate]. simpl.
  destruct (evaluate_hour _ _ _ _ _ _ _ _) as [c|e] eqn:Hc; [discriminate|].
  simpl. intros [= ->]. by apply evaluate_hour_no_IndexError in Hc.
Qed.

Lemma hour_loop_Ok (i : nat) (times : list string) (st st' : hour_state) :
  hour_loop' i times st = Ok st' ↔
  ∃ rows : list hourly_row,
    length rows = length times
    ∧ (∀ k s, times !! k = Some s →
         ∃ row, rows !! k = Some row ∧ hour_row' (i + k) s = Ok row)
    ∧ st' = fold_left (overall_step) rows st.
Proof.
  revert i st. induction times as [|s times IH]; intros i st; simpl.
  - split.
    + intros [= <-]. exists []. split; [done|]. split; [|done].
      intros k s Hk. rewrite lookup_nil in Hk. discriminate.
    + intros (rows & Hlen & _ & ->). destruct rows; [done|discriminate].
  - rewrite bind_Ok. split.
    + intros (row & Hrow & Hloop). apply IH in Hloop as (rows & Hlen & Hk & ->).
      exists (row :: rows). split; [simpl; congruence|]. split; [|done].
      intros [|k] s' Hs; simpl in *.
      * injection Hs as <-. exists row. by rewrite Nat.add_0_r.
      * destruct (Hk k s' Hs) as (row' & Hr & Hrow').
        exists row'. split; [done|]. by rewrite Nat.add_succ_r.
    + intros (rows & Hlen & Hk & ->). destruct rows as [|row rows]; [done|].
      destruct (Hk 0%nat s eq_refl) as (row0 & [= <-] & Hrow).
      rewrite Nat.add_0_r in Hrow. exists row. split; [done|].
      apply IH. exists rows. split; [simpl in Hlen; congruence|].
      split; [|done]. intros k s' Hs.
      destruct (Hk (S k) s' Hs) as (row' & Hr & Hrow').
      exists row'. split; [done|]. by rewrite Nat.add_succ_r in Hrow'.
Qed.

Lemma hour_loop_Raise (i : nat) (times : list string) (st : hour_state)
    (e : exn) :
  hour_loop' i times st = Raise e →
  ∃ k s, times !! k = Some s ∧ hour_row' (i + k) s = Raise e.
Proof.
  revert i st. induction times as [|s times IH]; intros i st; simpl.
  - discriminate.
  - rewrite bind_Raise. intros [Hrow|(row & Hrow & Hloop)].
    + exists 0%nat, s. by rewrite Nat.add_0_r.
    + apply IH in Hloop as (k & s' & Hs & Hr).
      exists (S k), s'. by rewrite Nat.add_succ_r.
Qed.

End HourLoopFacts.

(** ** Positions in a growing list of hours *)

Section Positions.
Context {host : Platform}.
Implicit Types (rows : list hourly_row) (r : hourly_row).

Lemma good_at_lt rows k (g : bool) :
  good_at rows k = Some g → (k < length rows)%nat.
Proof.
  unfold good_at. destruct (rows !! k) eqn:Hk; [|discriminate].
  intros _. by eapply lookup_lt_Some.
Qed.

Lemma good_at_snoc_l rows r k :
  (k < length rows)%nat → good_at (rows ++ [r]) k = good_at rows k.
Proof. intros Hk. unfold good_at. by rewrite lookup_app_l. Qed.

Lemma good_at_snoc_r rows r :
  good_at (rows ++ [r]) (length rows) = Some (row_is_good r).
Proof. unfold good_at. by rewrite list_lookup_middle. Qed.

Lemma stamp_at_snoc_l rows r k :
  (k < length rows)%nat → stamp_at (rows ++ [r]) k = stamp_at rows k.
Proof. intros Hk. unfold stamp_at. by rewrite lookup_app_l. Qed.

Lemma stamp_at_snoc_r rows r :
  stamp_at (rows ++ [r]) (length rows) = Some (row_dt r).
Proof. unfold stamp_at. by rewrite list_lookup_middle. Qed.

Lemma good_at_snoc_inv rows r m :
  good_at (rows ++ [r]) m = Some true →
  good_at rows m = Some true ∨ (m = length rows ∧ row_is_good r = true).
Proof.
  intros Hm. pose proof (good_at_lt _ _ _ Hm) as Hlt.
  rewrite length_app in Hlt. simpl in Hlt.
  destruct (decide (m = length rows)) as [->|Hne].
  - rewrite good_at_snoc_r in Hm. injection Hm as Hm. auto.
  - rewrite good_at_snoc_l in Hm by lia. auto.
Qed.

Lemma all_good_snoc rows r i j :
  all_good rows i j → all_good (rows ++ [r]) i j.
Proof.
  intros [Hij Hk]. split.
  - rewrite length_app. simpl. lia.
  - intros k Hik. rewrite good_at_snoc_l by lia. auto.
Qed.

Lemma all_good_extend rows r i :
  all_good rows i (length rows) → row_is_good r = true →
  all_good (rows ++ [r]) i (length (rows ++ [r])).
Proof.
  intros [Hij Hk] Hr. unfold all_good. rewrite length_app. simpl.
  split; [lia|].
  intros k Hik. destruct (decide (k = length rows)) as [->|Hne].
  - by rewrite good_at_snoc_r, Hr.
  - rewrite good_at_snoc_l by lia. apply Hk. lia.
Qed.

Lemma all_good_last rows r :
  row_is_good r = true →
  all_good (rows ++ [r]) (length rows) (length (rows ++ [r])).
Proof.
  intros Hr. unfold all_good. rewrite length_app. simpl. split; [lia|].
  intros k Hk. replace k with (length rows) by lia.
  by rewrite good_at_snoc_r, Hr.
Qed.

Lemma overall_span_snoc rows r iv i j :
  overall_span rows iv i j → (j < length rows)%nat →
  overall_span (rows ++ [r]) iv i j ∧ (j < length (rows ++ [r]))%nat.
Proof.
  intros ((Hgood & Hleft & Hright) & Hs & He) Hj.
  assert (Hi : (i < j)%nat) by (destruct Hgood; lia).
  rewrite length_app. simpl. split; [|lia].
  split; [split; [|split]|split].
  - by apply all_good_snoc.
  - intros i' Hi'. rewrite good_at_snoc_l by lia. auto.
  - intros _. rewrite good_at_snoc_l by lia. auto.
  - rewrite stamp_at_snoc_l by lia. auto.
  - intros _. rewrite stamp_at_snoc_l by lia. auto.
Qed.

End Positions.

(** ** The overall scan *)

Section OverallScan.
Context {host : Platform}.

Local Notation "'start_state'" :=
  {| overall_good_periods_text := []; overall_start_time := None;
     hourly_data_list := [] |}.

(** The invariant of the loop, after the hours [rows]: the periods written
    so far are the closed maximal runs, the open interval is the run that
    reaches the last hour, and every admissible hour lies in one of them. *)
Lemma overall_scan (rows : list hourly_row) :
  let st := fold_left overall_step rows start_state in
  hourly_data_list st = rows
  ∧ ∃ ivs : list (aware * aware),
      overall_good_periods_text st = (λ iv, format_period iv.1 iv.2) <$> ivs
      ∧ (∀ iv, iv ∈ ivs →
           ∃ i j, overall_span rows iv i j ∧ (j < length rows)%nat)
      ∧ (∀ s, overall_start_time st = Some s →
           ∃ i, all_good rows i (length rows)
                ∧ (∀ i', S i' = i → good_at rows i' = Some false)
                ∧ stamp_at rows i = Some s)
      ∧ (overall_start_time st = None →
           ∀ n, S n = length rows → good_at rows n = Some false)
      ∧ (∀ m, good_at rows m = Some true →
           (∃ iv i j, iv ∈ ivs ∧ overall_span rows iv i j
                      ∧ (j < length rows)%nat ∧ (i ≤ m < j)%nat)
           ∨ (∃ s i, overall_start_time st = Some s
                     ∧ all_good rows i (length rows)
                     ∧ (∀ i', S i' = i → good_at rows i' = Some false)
                     ∧ stamp_at rows i = Some s ∧ (i ≤ m)%nat)).
Proof.
  induction rows as [|r rows IH] using rev_ind; simpl.
  - split; [done|]. exists []. split; [done|]. repeat split.
    + intros iv Hiv. by apply elem_of_nil in Hiv.
    + discriminate.
    + intros _ n Hn. discriminate.
    + intros m Hm. discriminate.
  - rewrite fold_left_app. simpl.
    set (st := fold_left overall_step rows start_state) in *.
    destruct IH as (Hl & ivs & Htext & Hclosed & Hopen & Hnone & Hcov).
    assert (Hclosed' : ∀ iv, iv ∈ ivs →
              ∃ i j, overall_span (rows ++ [r]) iv i j
                     ∧ (j < length (rows ++ [r]))%nat).
    { intros iv Hiv. destruct (Hclosed iv Hiv) as (i & j & Hspan & Hj).
      exists i, j. by apply overall_span_snoc. }
    unfold overall_step.
    destruct (row_is_good r) eqn:Hg, (overall_start_time st) as [s|] eqn:Hs;
      simpl; (split; [by rewrite Hl|]).
    + (* the open run grows *)
      destruct (Hopen s eq_refl) as (i & Hgood & Hleft & Hstamp).
      assert (Hi : (i < length rows)%nat) by (destruct Hgood; lia).
      assert (Hopen' : all_good (rows ++ [r]) i (length (rows ++ [r]))
                ∧ (∀ i', S i' = i → good_at (rows ++ [r]) i' = Some false)
                ∧ stamp_at (rows ++ [r]) i = Some s).
      { split; [by apply all_good_extend|]. split.
        - intros i' Hi'. rewrite good_at_snoc_l by lia. auto.
        - by rewrite stamp_at_snoc_l. }
      exists ivs. split; [done|]. split; [done|]. split; [|split].
      * intros s' [= <-]. exists i. done.
      * discriminate.
      * intros m Hm. apply good_at_snoc_inv in Hm as [Hm|[-> _]].
        -- destruct (Hcov m Hm) as [(iv & i0 & j0 & Hiv & Hspan & Hj & Hm0)
                                   |(s0 & i0 & Hs0 & Hg0 & Hl0 & Hst0 & Hm0)].
           ++ left. exists iv, i0, j0. split; [done|].
              destruct (overall_span_snoc rows r iv i0 j0 Hspan Hj). auto.
           ++ right. exists s, i. split; [done|].
              assert (i0 = i) as <-.
              { destruct (decide (i0 = i)) as [|Hne]; [done|exfalso].
                destruct Hg0 as [Hi0 Hg0], Hgood as [_ Hgood].
                destruct (decide (i0 < i)%nat).
                - destruct i as [|i']; [lia|].
                  specialize (Hleft i' eq_refl).
                  rewrite (Hg0 i') in Hleft by lia. discriminate.
                - destruct i0 as [|i0']; [lia|].
                  specialize (Hl0 i0' eq_refl).
                  rewrite (Hgood i0') in Hl0 by lia. discriminate. }
              destruct Hopen' as (? & ? & ?). auto.
        -- right. exists s, i. destruct Hopen' as (? & ? & ?).
           do 4 (split; [done|]). lia.
    + (* a run opens at this hour *)
      assert (Hopen' : all_good (rows ++ [r]) (length rows)
                         (length (rows ++ [r]))
                ∧ (∀ i', S i' = length rows →
                     good_at (rows ++ [r]) i' = Some false)
                ∧ stamp_at (rows ++ [r]) (length rows) = Some (row_dt r)).
      { split; [by apply all_good_last|]. split.
        - intros i' Hi'. rewrite good_at_snoc_l by lia. auto.
        - apply stamp_at_snoc_r. }
      exists ivs. split; [done|]. split; [done|]. split; [|split].
      * intros s' [= <-]. exists (length rows). done.
      * discriminate.
      * intros m Hm. apply good_at_snoc_inv in Hm as [Hm|[-> _]].
        -- destruct (Hcov m Hm) as [(iv & i0 & j0 & Hiv & Hspan & Hj & Hm0)
                                   |(s0 & i0 & Hs0 & _)]; [|discriminate].
           left. exists iv, i0, j0. split; [done|].
           destruct (overall_span_snoc rows r iv i0 j0 Hspan Hj). auto.
        -- right. exists (row_dt r), (length rows).
           destruct Hopen' as (? & ? & ?). do 4 (split; [done|]). lia.
    + (* the open run is closed by this hour *)
      destruct (Hopen s eq_refl) as (i & Hgood & Hleft & Hstamp).
      assert (Hi : (i < length rows)%nat) by (destruct Hgood; lia).
      assert (Hnew : overall_span (rows ++ [r]) (s, row_dt r) i (length rows)
                     ∧ (length rows < length (rows ++ [r]))%nat).
      { rewrite length_app. simpl. split; [|lia].
        split; [split; [|split]|split]; simpl.
        - by apply all_good_snoc.
        - intros i' Hi'. rewrite good_at_snoc_l by lia. auto.
        - intros _. by rewrite good_at_snoc_r, Hg.
        - by rewrite stamp_at_snoc_l.
        - intros _. apply stamp_at_snoc_r. }
      exists (ivs ++ [(s, row_dt r)]). split; [|split; [|split; [|split]]].
      * by rewrite fmap_app, Htext.
      * intros iv [Hiv|Hiv%list_elem_of_singleton]%elem_of_app; [auto|].
        subst iv. exists i, (length rows). done.
      * discriminate.
      * intros _ n Hn. rewrite length_app in Hn. simpl in Hn.
        replace n with (length rows) by lia. by rewrite good_at_snoc_r, Hg.
      * intros m Hm. apply good_at_snoc_inv in Hm as [Hm|[_ Hr]];
          [|congruence].
        left.
        destruct (Hcov m Hm) as [(iv & i0 & j0 & Hiv & Hspan & Hj & Hm0)
                                |(s0 & i0 & Hs0 & Hg0 & Hl0 & Hst0 & Hm0)].
        -- exists iv, i0, j0. split; [apply elem_of_app; auto|].
           destruct (overall_span_snoc rows r iv i0 j0 Hspan Hj). auto.
        -- assert (i0 = i) as ->.
           { destruct (decide (i0 = i)) as [|Hne]; [done|exfalso].
             destruct Hg0 as [Hi0 Hg0], Hgood as [_ Hgood].
             destruct (decide (i0 < i)%nat).
             - destruct i as [|i']; [lia|].
               specialize (Hleft i' eq_refl).
               rewrite (Hg0 i') in Hleft by lia. discriminate.
             - destruct i0 as [|i0']; [lia|].
               specialize (Hl0 i0' eq_refl).
               rewrite (Hgood i0') in Hl0 by lia. discriminate. }
           exists (s, row_dt r), i, (length rows).
           split; [apply elem_of_app; right; by apply list_elem_of_singleton|].
           destruct Hnew as [? ?]. split; [done|]. split; [done|].
           apply good_at_lt in Hm. lia.
    + (* nothing is open and nothing opens *)
      exists ivs. split; [done|]. split; [done|]. split; [|split].
      * discriminate.
      * intros _ n Hn. rewrite length_app in Hn. simpl in Hn.
        replace n with (length rows) by lia. by rewrite good_at_snoc_r, Hg.
      * intros m Hm. apply good_at_snoc_inv in Hm as [Hm|[_ Hr]];
          [|congruence].
        destruct (Hcov m Hm) as [(iv & i0 & j0 & Hiv & Hspan & Hj & Hm0)
                                |(s0 & i0 & Hs0 & _)]; [|discriminate].
        left. exists iv, i0, j0. split; [done|].
        destruct (overall_span_snoc rows r iv i0 j0 Hspan Hj). auto.
Qed.

End OverallScan.

(** ** Dicts of lists *)

Section Buckets.
Context {A : Type}.
Implicit Types (d : gmap string (list A)) (k : string) (x y : A).

Lemma dict_append_Ok d k x d' :
  dict_append d k x = Ok d' ↔ ∃ l, d !! k = Some l ∧ d' = <[k := l ++ [x]]> d.
Proof.
  unfold dict_append. destruct (d !! k) as [l|]; split.
  - intros [= <-]. eauto.
  - intros (l' & [= <-] & ->). done.
  - discriminate.
  - intros (l' & Hl & _). discriminate.
Qed.

Lemma dict_append_total d k x :
  k ∈ dom d → ∃ d', dict_append d k x = Ok d'.
Proof.
  intros [l Hl]%elem_of_dom. unfold dict_append. rewrite Hl. eauto.
Qed.

Lemma dict_append_Raise d k x e :
  dict_append d k x = Raise e → e = KeyError.
Proof. unfold dict_append. destruct (d !! k); [discriminate|]. congruence. Qed.

Lemma dict_append_dom d k x d' :
  dict_append d k x = Ok d' → dom d' = dom d ∧ k ∈ dom d.
Proof.
  intros (l & Hl & ->)%dict_append_Ok.
  assert (k ∈ dom d) by (apply elem_of_dom; eauto).
  split; [|done]. apply dom_insert_lookup_L. eauto.
Qed.

Lemma in_bucket_append d k x d' k' y :
  dict_append d k x = Ok d' →
  in_bucket d' k' y ↔ in_bucket d k' y ∨ (k' = k ∧ y = x).
Proof.
  intros (l & Hl & ->)%dict_append_Ok. unfold in_bucket.
  destruct (decide (k' = k)) as [->|Hne].
  - rewrite lookup_insert_eq. split.
    + intros (l' & [= <-] & [Hy|Hy%list_elem_of_singleton]%elem_of_app);
        eauto.
    + intros [(l' & Hl' & Hy)|[_ ->]]; eexists; (split; [done|]).
      * apply elem_of_app. left. congruence.
      * apply elem_of_app. right. by apply list_elem_of_singleton.
  - rewrite lookup_insert_ne by done. split; [auto|].
    intros [?|[? _]]; done.
Qed.

Lemma in_bucket_insert_nil d k k' y :
  d !! k = None → in_bucket (<[k := []]> d) k' y ↔ in_bucket d k' y.
Proof.
  intros Hk. unfold in_bucket. destruct (decide (k' = k)) as [->|Hne].
  - rewrite lookup_insert_eq, Hk. split.
    + intros (l & [= <-] & Hy). by apply elem_of_nil in Hy.
    + intros (l & Hl & _). discriminate.
  - by rewrite lookup_insert_ne.
Qed.

Lemma in_bucket_dom d k y : in_bucket d k y → k ∈ dom d.
Proof. intros (l & Hl & _). apply elem_of_dom. eauto. Qed.

End Buckets.

(** ** One iteration of the loop by day *)

Section DailyStep.
Context {host : Platform}.
Implicit Types (st : daily_state) (r : hourly_row).

(** Lines 289-294. *)
Lemma day_switch_keep st dt lab :
  lab ∈ dom (daily_chart_data_map st) → day_switch st dt lab = Ok st.
Proof.
  intros [l Hl]%elem_of_dom. unfold day_switch. by rewrite Hl.
Qed.

Lemma day_switch_new st dt lab st2 :
  daily_wf st → lab ∉ dom (daily_chart_data_map st) →
  day_switch st dt lab = Ok st2 →
  current_day_str st2 = lab
  ∧ last_dt_local st2 = last_dt_local st
  ∧ daily_start_dt st2 = None
  ∧ daily_chart_data_map st2 = <[lab := []]> (daily_chart_data_map st)
  ∧ daily_wf st2
  ∧ (∀ k iv, in_bucket (daily_good_intervals_map st2) k iv ↔
             in_bucket (daily_good_intervals_map st) k iv
             ∨ (∃ s, daily_start_dt st = Some s ∧ k = current_day_str st
                     ∧ iv = (s, dt))).
Proof.
  intros (Hcur & Hivs & Htxt) Hlab. unfold day_switch.
  assert (Hnone : daily_chart_data_map st !! lab = None)
    by by apply not_elem_of_dom.
  assert (Hnone_i : daily_good_intervals_map st !! lab = None)
    by (apply not_elem_of_dom; by rewrite Hivs).
  rewrite Hnone. destruct (daily_start_dt st) as [s|] eqn:Hs; simpl.
  - destruct (dict_append (daily_good_intervals_map st) _ _) as [ivs|]
      eqn:Hi; [|discriminate]. simpl.
    destruct (dict_append (daily_good_periods_text_map st) _ _) as [txt|]
      eqn:Ht; [|discriminate]. simpl.
    intros [= <-]. simpl.
    destruct (dict_append_dom _ _ _ _ Hi) as [Hdi _].
    destruct (dict_append_dom _ _ _ _ Ht) as [Hdt _].
    do 4 (split; [done|]). split.
    + unfold daily_wf. simpl. rewrite !dom_insert_L, Hdi, Hdt, Hivs, Htxt.
      split; [apply elem_of_union; left; by apply elem_of_singleton|done].
    + intros k iv. rewrite in_bucket_insert_nil.
      * rewrite (in_bucket_append _ _ _ _ _ _ Hi). split.
        -- intros [?|[-> ->]]; eauto.
        -- intros [?|(s' & [= <-] & -> & ->)]; auto.
      * apply not_elem_of_dom. by rewrite Hdi, Hivs.
  - intros [= <-]. simpl. do 4 (split; [done|]). split.
    + unfold daily_wf. simpl. rewrite !dom_insert_L, Hivs, Htxt.
      split; [apply elem_of_union; left; by apply elem_of_singleton|done].
    + intros k iv. rewrite in_bucket_insert_nil by done. split; [auto|].
      intros [?|(s' & Hs' & _)]; [done|discriminate].
Qed.

Lemma day_switch_total st dt lab :
  daily_wf st → ∃ st2, day_switch st dt lab = Ok st2.
Proof.
  intros (Hcur & Hivs & Htxt). unfold day_switch.
  destruct (daily_chart_data_map st !! lab); [eauto|].
  destruct (daily_start_dt st) as [s|]; simpl; [|eauto].
  destruct (dict_append_total (daily_good_intervals_map st)
              (current_day_str st) (s, dt)) as [ivs ->]; [by rewrite Hivs|].
  simpl.
  edestruct (dict_append_total (daily_good_periods_text_map st)
               (current_day_str st)) as [txt ->]; [by rewrite Htxt|].
  simpl. eauto.
Qed.

(** Lines 295-300. *)
Lemma day_record_spec st r st' :
  daily_wf st → day_record st r = Ok st' →
  current_day_str st' = current_day_str st
  ∧ last_dt_local st' = last_dt_local st
  ∧ daily_wf st'
  ∧ dom (daily_chart_data_map st') = dom (daily_chart_data_map st)
  ∧ (∀ k y, in_bucket (daily_chart_data_map st') k y ↔
            in_bucket (daily_chart_data_map st) k y
            ∨ (k = current_day_str st ∧ y = r))
  ∧ daily_start_dt st'
    = (if row_is_good r
       then Some (default (row_dt r) (daily_start_dt st)) else None)
  ∧ (∀ k iv, in_bucket (daily_good_intervals_map st') k iv ↔
             in_bucket (daily_good_intervals_map st) k iv
             ∨ (∃ s, daily_start_dt st = Some s ∧ row_is_good r = false
                     ∧ k = current_day_str st ∧ iv = (s, row_dt r))).
Proof.
  intros (Hcur & Hivs & Htxt). unfold day_record.
  destruct (dict_append (daily_chart_data_map st) _ _) as [chart|] eqn:Hc;
    [|discriminate]. simpl.
  destruct (dict_append_dom _ _ _ _ Hc) as [Hdc _].
  pose proof (λ k y, in_bucket_append _ _ _ _ k y Hc) as Hchart.
  destruct (row_is_good r) eqn:Hg, (daily_start_dt st) as [s|] eqn:Hs; simpl.
  - intros [= <-]. simpl. do 2 (split; [done|]).
    split; [unfold daily_wf; simpl; by rewrite Hdc|].
    do 3 (split; [done|]). intros k iv. split; [auto|].
    intros [?|(s' & _ & ? & _)]; [done|discriminate].
  - intros [= <-]. simpl. do 2 (split; [done|]).
    split; [unfold daily_wf; simpl; by rewrite Hdc|].
    do 3 (split; [done|]). intros k iv. split; [auto|].
    intros [?|(s' & ? & _)]; [done|discriminate].
  - destruct (dict_append (daily_good_intervals_map st) _ _) as [ivs|]
      eqn:Hi; [|discriminate]. simpl.
    destruct (dict_append (daily_good_periods_text_map st) _ _) as [txt|]
      eqn:Ht; [|discriminate]. simpl.
    intros [= <-]. simpl.
    destruct (dict_append_dom _ _ _ _ Hi) as [Hdi _].
    destruct (dict_append_dom _ _ _ _ Ht) as [Hdt _].
    do 2 (split; [done|]).
    split; [unfold daily_wf; simpl; by rewrite Hdc, Hdi, Hdt|].
    do 3 (split; [done|]). intros k iv.
    rewrite (in_bucket_append _ _ _ _ _ _ Hi). split.
    + intros [?|[-> ->]]; [by left|right; by exists s].
    + intros [?|(s' & [= <-] & _ & -> & ->)]; auto.
  - intros [= <-]. simpl. do 2 (split; [done|]).
    split; [unfold daily_wf; simpl; by rewrite Hdc|].
    do 3 (split; [done|]). intros k iv. split; [auto|].
    intros [?|(s' & ? & _)]; [done|discriminate].
Qed.

Lemma day_record_total st r :
  daily_wf st → ∃ st', day_record st r = Ok st'.
Proof.
  intros (Hcur & Hivs & Htxt). unfold day_record.
  destruct (dict_append_total (daily_chart_data_map st)
              (current_day_str st) r) as [chart ->]; [done|]. simpl.
  destruct (row_is_good r), (daily_start_dt st) as [s|]; simpl; eauto.
  edestruct (dict_append_total (daily_good_intervals_map st)
               (current_day_str st)) as [ivs ->]; [by rewrite Hivs|]. simpl.
  edestruct (dict_append_total (daily_good_periods_text_map st)
               (current_day_str st)) as [txt ->]; [by rewrite Htxt|].
  simpl. eauto.
Qed.

End DailyStep.

Section DailyScan.
Context {host : Platform}.
Implicit Types (st : daily_state) (r : hourly_row) (rows pre : list hourly_row).

(** One iteration, as a whole. *)
Lemma daily_step_spec st r st' :
  daily_wf st → daily_step st r = Ok st' →
  daily_wf st'
  ∧ last_dt_local st' = Some (row_dt r)
  ∧ current_day_str st'
    = (if decide (day_label r ∈ dom (daily_chart_data_map st))
       then current_day_str st else day_label r)
  ∧ dom (daily_chart_data_map st')
    = dom (daily_chart_data_map st) ∪ {[day_label r]}
  ∧ (∀ k y, in_bucket (daily_chart_data_map st') k y ↔
            in_bucket (daily_chart_data_map st) k y
            ∨ (k = current_day_str st' ∧ y = r))
  ∧ daily_start_dt st'
    = (if row_is_good r
       then Some (if decide (day_label r ∈ dom (daily_chart_data_map st))
                  then default (row_dt r) (daily_start_dt st)
                  else row_dt r)
       else None)
  ∧ (∀ k iv, in_bucket (daily_good_intervals_map st') k iv ↔
             in_bucket (daily_good_intervals_map st) k iv
             ∨ (∃ s, daily_start_dt st = Some s
                     ∧ (day_label r ∉ dom (daily_chart_data_map st)
                        ∨ row_is_good r = false)
                     ∧ k = current_day_str st ∧ iv = (s, row_dt r))).
Proof.
  intros Hwf. unfold daily_step. rewrite bind_Ok.
  set (st1 := {| daily_chart_data_map := daily_chart_data_map st;
                 last_dt_local := Some (row_dt r) |}).
  assert (Hwf1 : daily_wf st1) by exact Hwf.
  fold (day_label r). intros (st2 & Hsw & Hrec).
  destruct (decide (day_label r ∈ dom (daily_chart_data_map st))) as [Hin|Hnew].
  - rewrite day_switch_keep in Hsw by done. injection Hsw as <-.
    destruct (day_record_spec st1 r st' Hwf1 Hrec)
      as (Hcur & Hlast & Hwf' & Hdom & Hchart & Hstart & Hivs).
    simpl in *. split; [done|]. split; [done|]. split; [done|].
    split.
    { rewrite Hdom, (comm_L (∪)). symmetry. apply subseteq_union_1_L.
      by apply singleton_subseteq_l. }
    split; [intros k y; rewrite Hchart, Hcur; done|].
    split; [done|]. intros k iv. rewrite Hivs. split.
    + intros [?|(s & ? & ? & ? & ?)]; eauto 10.
    + intros [?|(s & ? & [?|?] & ? & ?)]; [auto|done|eauto 10].
  - destruct (day_switch_new st1 (row_dt r) (day_label r) st2 Hwf1 Hnew Hsw)
      as (Hcur2 & Hlast2 & Hstart2 & Hchart2 & Hwf2 & Hivs2).
    destruct (day_record_spec st2 r st' Hwf2 Hrec)
      as (Hcur & Hlast & Hwf' & Hdom & Hchart & Hstart & Hivs).
    simpl in *. split; [done|]. split; [congruence|]. split; [congruence|].
    split; [rewrite Hdom, Hchart2, dom_insert_L; apply (comm_L (∪))|].
    split.
    { intros k y. rewrite Hchart, Hchart2, Hcur, Hcur2.
      rewrite in_bucket_insert_nil by (by apply not_elem_of_dom). done. }
    split; [by rewrite Hstart, Hstart2|].
    intros k iv. rewrite Hivs, Hivs2, Hstart2. split.
    + intros [[?|(s & ? & ? & ?)]|(s & ? & _)]; [auto|eauto 10|discriminate].
    + intros [?|(s & ? & _ & ? & ?)]; [auto|]. left. right. eauto.
Qed.

Lemma daily_step_total st r :
  daily_wf st → ∃ st', daily_step st r = Ok st'.
Proof.
  intros Hwf. unfold daily_step.
  set (st1 := {| daily_chart_data_map := daily_chart_data_map st;
                 last_dt_local := Some (row_dt r) |}).
  assert (Hwf1 : daily_wf st1) by exact Hwf.
  destruct (day_switch_total st1 (row_dt r)
              (strftime "%a %Y-%m-%d" (row_dt r)) Hwf1) as [st2 Hsw].
  rewrite Hsw. simpl.
  assert (Hwf2 : daily_wf st2).
  { destruct (decide (day_label r ∈ dom (daily_chart_data_map st1))).
    - rewrite day_switch_keep in Hsw by done. by injection Hsw as <-.
    - by destruct (day_switch_new st1 _ _ st2 Hwf1 n Hsw) as (_&_&_&_&?&_). }
  by apply day_record_total.
Qed.

Lemma daily_loop_app rows1 rows2 st :
  daily_loop (rows1 ++ rows2) st
  = daily_loop rows1 st ≫= daily_loop rows2.
Proof.
  revert st. induction rows1 as [|r rows1 IH]; intros st; simpl; [done|].
  destruct (daily_step st r) as [st'|e]; simpl; [apply IH|done].
Qed.

Lemma daily_init_wf first : daily_wf (daily_init first).
Proof.
  unfold daily_wf, daily_init. simpl. rewrite !dom_singleton_L.
  split; [by apply elem_of_singleton|done].
Qed.

(** ** Positions and day labels *)

Lemma opens_day_snoc_l pre r k :
  (k < length pre)%nat → opens_day (pre ++ [r]) k ↔ opens_day pre k.
Proof.
  intros Hk. unfold opens_day.
  rewrite lookup_app_l by done. rewrite take_app_le by lia. done.
Qed.

Lemma opens_day_snoc_r pre r :
  opens_day (pre ++ [r]) (length pre) ↔ day_label r ∉ (day_label <$> pre).
Proof.
  unfold opens_day. rewrite list_lookup_middle by done.
  rewrite take_app_length. split.
  - intros (r' & [= <-] & Hn). done.
  - intros Hn. eauto.
Qed.

Lemma daily_span_snoc pre r iv i j :
  daily_span pre iv i j → (j < length pre)%nat →
  daily_span (pre ++ [r]) iv i j ∧ (j < length (pre ++ [r]))%nat.
Proof.
  intros ((Hgood & Hleft & Hright & Hin) & Hs & He & _) Hj.
  assert (Hi : (i < j)%nat) by (destruct Hgood; lia).
  rewrite length_app. simpl. split; [|lia].
  split; [split; [|split; [|split]]|split; [|split]].
  - by apply all_good_snoc.
  - intros i' Hi'. rewrite good_at_snoc_l, opens_day_snoc_l by lia. auto.
  - intros _. rewrite good_at_snoc_l, opens_day_snoc_l by lia. auto.
  - intros k Hk. rewrite opens_day_snoc_l by lia. auto.
  - rewrite stamp_at_snoc_l by lia. auto.
  - intros _. rewrite stamp_at_snoc_l by lia. auto.
  - intros Hj'. rewrite length_app in Hj'. simpl in Hj'. lia.
Qed.

End DailyScan.

Section DailyInvariant.
Context {host : Platform}.
Implicit Types (st : daily_state) (r : hourly_row) (rows pre : list hourly_row).

(** The invariant of the loop by day, after the hours [pre] of a list
    whose first hour is [first]: the buckets are those of the labels seen,
    every interval written is a closed run of its day, and the open
    interval is the run of the current day that reaches the last hour. *)
Lemma daily_scan first pre st :
  pre = [] ∨ head pre = Some first →
  daily_loop pre (daily_init first) = Ok st →
  daily_wf st
  ∧ dom (daily_chart_data_map st)
    = {[day_label first]} ∪ list_to_set (day_label <$> pre)
  ∧ (∀ r, last pre = Some r →
       last_dt_local st = Some (row_dt r)
       ∧ in_bucket (daily_chart_data_map st) (current_day_str st) r)
  ∧ (∀ k iv, in_bucket (daily_good_intervals_map st) k iv →
       ∃ i j, daily_span pre iv i j ∧ (j < length pre)%nat)
  ∧ (∀ s, daily_start_dt st = Some s →
       ∃ i, all_good pre i (length pre)
            ∧ (∀ i', S i' = i → good_at pre i' = Some false ∨ opens_day pre i)
            ∧ (∀ k, (i < k < length pre)%nat → ¬ opens_day pre k)
            ∧ stamp_at pre i = Some s)
  ∧ (daily_start_dt st = None →
       ∀ n, S n = length pre → good_at pre n = Some false).
Proof.
  revert st. induction pre as [|r pre IH] using rev_ind; intros st Hhead.
  - simpl. intros [= <-]. split; [apply daily_init_wf|]. simpl.
    split; [by rewrite dom_singleton_L, (right_id_L ∅ (∪))|].
    split; [discriminate|]. split; [|split; [discriminate|]].
    + intros k iv (l & Hl & Hiv).
      apply lookup_singleton_Some in Hl as [_ <-]. by apply elem_of_nil in Hiv.
    + intros _ n Hn. discriminate.
  - rewrite daily_loop_app, bind_Ok. intros (st0 & Hloop & Hstep).
    simpl in Hstep. apply bind_Ok in Hstep as (st1 & Hstep & [= ->]).
    assert (Hhead0 : pre = [] ∨ head pre = Some first).
    { destruct pre as [|r0 pre]; [by left|right].
      destruct Hhead as [?|Hh]; [discriminate|exact Hh]. }
    destruct (IH st0 Hhead0 Hloop)
      as (Hwf0 & Hdom0 & Hlast0 & Hclosed0 & Hopen0 & Hnone0).
    destruct (daily_step_spec st0 r st Hwf0 Hstep)
      as (Hwf & Hlast & Hcur & Hdom & Hchart & Hstart & Hivs).
    set (n := length pre).
    assert (Hlabels : ∀ lab, lab ∈ dom (daily_chart_data_map st0) ↔
              lab = day_label first ∨ lab ∈ (day_label <$> pre)).
    { intros lab.
      by rewrite Hdom0, elem_of_union, elem_of_singleton,
        elem_of_list_to_set. }
    assert (Hfirst : pre ≠ [] → day_label first ∈ (day_label <$> pre)).
    { intros Hne. destruct Hhead0 as [?|Hh]; [done|].
      apply list_elem_of_fmap. exists first. split; [done|].
      destruct pre as [|r0 pre']; [done|]. injection Hh as ->.
      apply list_elem_of_here. }
    assert (F1 : day_label r ∉ dom (daily_chart_data_map st0) →
                 opens_day (pre ++ [r]) n).
    { intros Hnew. apply opens_day_snoc_r. intros Hin. apply Hnew.
      apply Hlabels. by right. }
    assert (F2 : day_label r ∈ dom (daily_chart_data_map st0) → pre ≠ [] →
                 ¬ opens_day (pre ++ [r]) n).
    { intros Hin Hne Hopens%opens_day_snoc_r. apply Hopens.
      apply Hlabels in Hin as [->|Hin]; auto. }
    split; [done|]. split; [|split; [|split; [|split]]].
    + rewrite Hdom, Hdom0, fmap_app, list_to_set_app_L. simpl.
      by rewrite (right_id_L ∅ (∪)), (assoc_L (∪)).
    + intros r'. rewrite last_snoc. intros [= <-]. split; [done|].
      apply Hchart. by right.
    + intros k iv [Hold|(s & Hs & Hwhy & -> & ->)]%Hivs.
      * destruct (Hclosed0 k iv Hold) as (i & j & Hspan & Hj).
        exists i, j. by apply daily_span_snoc.
      * destruct (Hopen0 s Hs) as (i & Hgood & Hleft & Hin & Hstamp).
        assert (Hi : (i < n)%nat) by (destruct Hgood; unfold n; lia).
        exists i, n. rewrite length_app. simpl. split; [|unfold n; lia].
        split; [split; [|split; [|split]]|split; [|split]]; simpl.
        -- by apply all_good_snoc.
        -- intros i' Hi'.
           rewrite good_at_snoc_l, opens_day_snoc_l by (unfold n in *; lia).
           auto.
        -- intros _. destruct Hwhy as [Hnew|Hbad]; [right; auto|left].
           unfold n. by rewrite good_at_snoc_r, Hbad.
        -- intros k Hk. rewrite opens_day_snoc_l by (unfold n in *; lia).
           apply Hin. unfold n in *. lia.
        -- by rewrite stamp_at_snoc_l by (unfold n in *; lia).
        -- intros _. apply stamp_at_snoc_r.
        -- rewrite length_app. simpl. unfold n. lia.
    + intros s'. rewrite Hstart.
      destruct (row_is_good r) eqn:Hg; [|discriminate].
      destruct (decide (day_label r ∈ dom (daily_chart_data_map st0)))
        as [Hin|Hnew]; [destruct (daily_start_dt st0) as [s|] eqn:Hs|];
        simpl; intros [= <-].
      * destruct (Hopen0 s eq_refl) as (i & Hgood & Hleft & Hinside & Hstamp).
        assert (Hi : (i < n)%nat) by (destruct Hgood; unfold n; lia).
        exists i. split; [by apply all_good_extend|]. split; [|split].
        -- intros i' Hi'.
           rewrite good_at_snoc_l, opens_day_snoc_l by (unfold n in *; lia).
           auto.
        -- intros k. rewrite length_app. simpl. intros Hk.
           destruct (decide (k = n)) as [->|Hne].
           ++ apply F2; [done|]. intros ->. simpl in *. unfold n in Hi.
              simpl in Hi. lia.
           ++ rewrite opens_day_snoc_l by (unfold n in *; lia).
              apply Hinside. unfold n in *. lia.
        -- by rewrite stamp_at_snoc_l by (unfold n in *; lia).
      * exists n. split; [by apply all_good_last|]. split; [|split].
        -- intros i' Hi'. left. rewrite good_at_snoc_l by (unfold n in *; lia).
           by apply Hnone0.
        -- intros k. rewrite length_app. simpl. unfold n. lia.
        -- apply stamp_at_snoc_r.
      * exists n. split; [by apply all_good_last|]. split; [|split].
        -- intros i' Hi'. right. auto.
        -- intros k. rewrite length_app. simpl. unfold n. lia.
        -- apply stamp_at_snoc_r.
    + rewrite Hstart. destruct (row_is_good r) eqn:Hg; [discriminate|].
      intros _ n' Hn'. rewrite length_app in Hn'. simpl in Hn'.
      replace n' with (length pre) by lia. by rewrite good_at_snoc_r, Hg.
Qed.

End DailyInvariant.

(** ** The parts of [find_optimal_periods] *)

Section Parts.
Context {host : Platform}.
Implicit Types (st : daily_state) (r : hourly_row) (rows : list hourly_row).

Local Notation "'start_state'" :=
  {| overall_good_periods_text := []; overall_start_time := None;
     hourly_data_list := [] |}.

Lemma scan_hours_Ok weather_data aqi_data inputs times tz hs :
  scan_hours weather_data aqi_data inputs = Ok (times, tz, hs) ↔
  ∃ wd wh temps_f dew_points_f,
    weather_data = Some wd ∧ hourly wd = Some wh
    ∧ hourly_time wh = Some times
    ∧ temperature_2m wh = Some temps_f
    ∧ dew_point_2m wh = Some dew_points_f
    ∧ tz = resolve_timezone wd
    ∧ hour_loop inputs temps_f dew_points_f
        (default (replicate (length times) (Some 0%R)) (precipitation wh))
        (default (replicate (length times) (Some 0%R))
                 (precipitation_probability wh))
        (aqi_table aqi_data).1 (aqi_table aqi_data).2 tz
        (Humidity.ftoc (Some (IZR (indoor_ref_temp inputs)))) 0 times
        start_state = Ok hs.
Proof.
  unfold scan_hours. split.
  - destruct weather_data as [wd|]; [|discriminate].
    destruct (hourly wd) as [wh|] eqn:Hwh; [|discriminate].
    destruct (hourly_time wh) as [times'|] eqn:Ht; [|discriminate].
    destruct (temperature_2m wh) as [temps|] eqn:Htemp; [|discriminate].
    destruct (dew_point_2m wh) as [dews|] eqn:Hdew; [|discriminate].
    simpl. destruct (hour_loop _ _ _ _ _ _ _ _ _ _ _ _) as [hs'|] eqn:Hloop;
      [|discriminate].
    simpl. intros [= <- <- <-]. exists wd, wh, temps, dews. auto 10.
  - intros (wd & wh & temps & dews & -> & -> & -> & -> & -> & -> & Hloop).
    simpl in *. rewrite Hloop. done.
Qed.

(** The state the loop ends in is the overall scan of the hours. *)
Lemma scan_hours_samples weather_data aqi_data inputs times tz hs :
  scan_hours weather_data aqi_data inputs = Ok (times, tz, hs) →
  let rows := hourly_samples weather_data aqi_data inputs in
  hourly_data_list hs = rows
  ∧ hs = fold_left overall_step rows start_state
  ∧ length rows = length times
  ∧ ∀ k s, times !! k = Some s →
      ∃ row n, rows !! k = Some row ∧ fromisoformat s = Some n
               ∧ row_dt row = localize tz n.
Proof.
  intros Hscan. unfold hourly_samples. rewrite Hscan. simpl.
  apply scan_hours_Ok in Hscan
    as (wd & wh & temps & dews & _ & _ & _ & _ & _ & _ & Hloop).
  apply hour_loop_Ok in Hloop as (rows & Hlen & Hrows & ->).
  destruct (overall_scan rows) as [Hl _]. simpl in Hl.
  rewrite Hl. split; [done|]. split; [done|]. split; [done|].
  intros k s Hk. destruct (Hrows k s Hk) as (row & Hr & Hrow).
  apply hour_row_Ok in Hrow as (t & d & p & n & c & _ & _ & _ & Hn & _ & ->).
  eexists _, n. done.
Qed.

Lemma find_optimal_periods_Ok weather_data aqi_data inputs res :
  find_optimal_periods weather_data aqi_data inputs = Ok res ↔
  ∃ times tz hs overall d,
    scan_hours weather_data aqi_data inputs = Ok (times, tz, hs)
    ∧ close_overall times tz hs = Ok overall
    ∧ group_by_day (hourly_data_list hs) = Ok d
    ∧ res = {| periods := overall;
               daily_chart_data := daily_chart_data_map d;
               daily_good_intervals := daily_good_intervals_map d;
               daily_good_periods_text := daily_good_periods_text_map d |}.
Proof.
  unfold find_optimal_periods. split.
  - destruct (scan_hours _ _ _) as [[[times tz] hs]|]; [|discriminate]. simpl.
    destruct (close_overall times tz hs) as [overall|] eqn:Hc; [|discriminate].
    simpl.
    destruct (group_by_day _) as [d|] eqn:Hg; [|discriminate]. simpl.
    intros [= <-]. exists times, tz, hs, overall, d. auto.
  - intros (times & tz & hs & overall & d & -> & Hc & Hg & ->). simpl.
    rewrite Hc. simpl. rewrite Hg. done.
Qed.

(** *** The end of the overall scan *)

Lemma close_overall_Ok times tz hs overall :
  close_overall times tz hs = Ok overall →
  (overall_start_time hs = None ∧ overall = overall_good_periods_text hs)
  ∨ (∃ s last_str n,
       overall_start_time hs = Some s ∧ last times = Some last_str
       ∧ fromisoformat last_str = Some n
       ∧ overall = overall_good_periods_text hs
                   ++ [format_period s (add_hours (astimezone n tz) 1)]).
Proof.
  unfold close_overall. destruct (overall_start_time hs) as [s|].
  - destruct (last times) as [last_str|] eqn:Hl; [|discriminate]. simpl.
    destruct (fromisoformat last_str) as [n|] eqn:Hn; [|discriminate]. simpl.
    intros [= <-]. right. eauto 10.
  - intros [= <-]. by left.
Qed.

Lemma close_overall_open times tz hs s last_str n :
  overall_start_time hs = Some s → last times = Some last_str →
  fromisoformat last_str = Some n →
  close_overall times tz hs
  = Ok (overall_good_periods_text hs
        ++ [format_period s (add_hours (astimezone n tz) 1)]).
Proof.
  unfold close_overall. intros -> -> Hn. simpl. rewrite Hn. done.
Qed.

(** *** The end of the scan by day *)

Lemma close_daily_spec st d :
  daily_wf st → close_daily st = Ok d →
  daily_chart_data_map d = daily_chart_data_map st
  ∧ (∀ k iv, in_bucket (daily_good_intervals_map d) k iv ↔
       in_bucket (daily_good_intervals_map st) k iv
       ∨ (∃ s l, daily_start_dt st = Some s ∧ last_dt_local st = Some l
                 ∧ k = current_day_str st ∧ iv = (s, add_hours l 1))).
Proof.
  intros _. unfold close_daily.
  destruct (daily_start_dt st) as [s|], (last_dt_local st) as [l|];
    try (intros [= <-]; split; [done|]; intros k iv; split; [auto|];
         intros [?|(s' & l' & ? & ? & _)]; [done|discriminate]).
  destruct (dict_append (daily_good_intervals_map st) _ _) as [ivs|] eqn:Hi;
    [|discriminate]. simpl.
  destruct (dict_append (daily_good_periods_text_map st) _ _) as [txt|];
    [|discriminate]. simpl.
  intros [= <-]. simpl. split; [done|]. intros k iv.
  rewrite (in_bucket_append _ _ _ _ _ _ Hi). split.
  - intros [?|[-> ->]]; eauto 10.
  - intros [?|(s' & l' & [= <-] & [= <-] & -> & ->)]; auto.
Qed.

Lemma close_daily_total st : daily_wf st → ∃ d, close_daily st = Ok d.
Proof.
  intros (Hcur & Hivs & Htxt). unfold close_daily.
  destruct (daily_start_dt st) as [s|], (last_dt_local st) as [l|]; eauto.
  edestruct (dict_append_total (daily_good_intervals_map st)
               (current_day_str st)) as [ivs ->]; [by rewrite Hivs|]. simpl.
  edestruct (dict_append_total (daily_good_periods_text_map st)
               (current_day_str st)) as [txt ->]; [by rewrite Htxt|].
  simpl. eauto.
Qed.

Lemma daily_loop_total rows st :
  daily_wf st → ∃ st', daily_loop rows st = Ok st' ∧ daily_wf st'.
Proof.
  revert st. induction rows as [|r rows IH]; intros st Hwf; simpl; [eauto|].
  destruct (daily_step_total st r Hwf) as [st1 Hstep]. rewrite Hstep. simpl.
  apply IH. by destruct (daily_step_spec st r st1 Hwf Hstep).
Qed.

(** The grouping by day never raises: the subscripts of its dicts always
    find their key. *)
Lemma group_by_day_total rows : ∃ d, group_by_day rows = Ok d.
Proof.
  unfold group_by_day. destruct rows as [|first rows]; [eauto|].
  destruct (daily_loop_total (first :: rows) (daily_init first)
              (daily_init_wf first)) as (st & -> & Hwf).
  simpl. by apply close_daily_total.
Qed.

(** What is listed in a bucket stays there. *)
Lemma daily_loop_persist rows st st' :
  daily_wf st → daily_loop rows st = Ok st' →
  daily_wf st'
  ∧ (∀ k y, in_bucket (daily_chart_data_map st) k y →
            in_bucket (daily_chart_data_map st') k y)
  ∧ (∀ k iv, in_bucket (daily_good_intervals_map st) k iv →
             in_bucket (daily_good_intervals_map st') k iv).
Proof.
  revert st. induction rows as [|r rows IH]; intros st Hwf; simpl.
  - intros [= <-]. auto.
  - rewrite bind_Ok. intros (st1 & Hstep & Hloop).
    destruct (daily_step_spec st r st1 Hwf Hstep)
      as (Hwf1 & _ & _ & _ & Hchart & _ & Hivs).
    destruct (IH st1 Hwf1 Hloop) as (Hwf' & Hc' & Hi').
    split; [done|]. split.
    + intros k y Hy. apply Hc', Hchart. auto.
    + intros k iv Hiv. apply Hi', Hivs. auto.
Qed.

(** An interval that is open is written, sooner or later, into the bucket
    that is current when it is open. *)
Lemma open_interval_closed rows st st1 d s :
  daily_wf st → daily_start_dt st = Some s → is_Some (last_dt_local st) →
  daily_loop rows st = Ok st1 → close_daily st1 = Ok d →
  ∃ e, in_bucket (daily_good_intervals_map d) (current_day_str st) (s, e).
Proof.
  revert st. induction rows as [|r rows IH]; intros st Hwf Hs [l Hl]; simpl.
  - intros [= <-] Hclose.
    destruct (close_daily_spec st d Hwf Hclose) as [_ Hivs].
    exists (add_hours l 1). apply Hivs. right. eauto 10.
  - rewrite bind_Ok. intros (st2 & Hstep & Hloop) Hclose.
    destruct (daily_step_spec st r st2 Hwf Hstep)
      as (Hwf2 & Hlast2 & Hcur2 & _ & _ & Hstart2 & Hivs2).
    destruct (daily_loop_persist rows st2 st1 Hwf2 Hloop) as (Hwf1 & _ & Hp).
    destruct (close_daily_spec st1 d Hwf1 Hclose) as [_ Hivs].
    destruct (decide (day_label r ∈ dom (daily_chart_data_map st)))
      as [Hin|Hnew]; [destruct (row_is_good r) eqn:Hg|].
    + rewrite Hs in Hstart2. simpl in Hstart2.
      destruct (IH st2 Hwf2 Hstart2 ltac:(by rewrite Hlast2) Hloop Hclose)
        as [e He].
      exists e. by rewrite <- Hcur2.
    + exists (row_dt r). apply Hivs. left. apply Hp, Hivs2. right.
      exists s. auto.
    + exists (row_dt r). apply Hivs. left. apply Hp, Hivs2. right.
      exists s. auto.
Qed.

End Parts.

(** ** The intervals of the output *)

Section Intervals.
Context {host : Platform}.
Implicit Types (r : hourly_row) (rows : list hourly_row).

Lemma stamp_at_last rows r :
  last rows = Some r → stamp_at rows (pred (length rows)) = Some (row_dt r).
Proof. unfold stamp_at. rewrite last_lookup. by intros ->. Qed.

(** The periods of the overall output are the formatted intervals of the
    overall scan, one per maximal run, and every admissible hour lies in
    one of them. *)
Lemma overall_output weather_data aqi_data inputs times tz hs overall :
  scan_hours weather_data aqi_data inputs = Ok (times, tz, hs) →
  close_overall times tz hs = Ok overall →
  let rows := hourly_samples weather_data aqi_data inputs in
  ∃ ivs : list (aware * aware),
    overall = (λ iv, format_period iv.1 iv.2) <$> ivs
    ∧ (∀ iv, iv ∈ ivs → overall_interval rows iv)
    ∧ (∀ m, good_at rows m = Some true →
         ∃ iv i j, iv ∈ ivs ∧ overall_span rows iv i j ∧ (i ≤ m < j)%nat).
Proof.
  intros Hscan Hclose rows.
  destruct (scan_hours_samples _ _ _ _ _ _ Hscan) as (_ & Hhs & _ & _).
  fold rows in Hhs.
  destruct (overall_scan rows)
    as (_ & ivs & Htext & Hclosed & Hopen & _ & Hcov).
  simpl in *. rewrite <- Hhs in *.
  apply close_overall_Ok in Hclose
    as [[Hnone ->]|(s & last_str & n & Hs & _ & _ & ->)].
  - exists ivs. split; [done|]. split.
    + intros iv Hiv. destruct (Hclosed iv Hiv) as (i & j & Hspan & _).
      by exists i, j.
    + intros m Hm.
      destruct (Hcov m Hm) as [(iv & i & j & Hiv & Hspan & _ & Hij)
                              |(s & i & Hs & _)]; [|congruence].
      by exists iv, i, j.
  - destruct (Hopen s Hs) as (i & Hgood & Hleft & Hstamp).
    set (end_time := add_hours (astimezone n tz) 1).
    assert (Hlast : overall_span rows (s, end_time) i (length rows)).
    { split; [split; [done|split; [done|lia]]|]. split; [done|]. simpl. lia. }
    exists (ivs ++ [(s, end_time)]). split; [|split].
    + by rewrite fmap_app, Htext.
    + intros iv [Hiv|Hiv%list_elem_of_singleton]%elem_of_app.
      * destruct (Hclosed iv Hiv) as (i0 & j0 & Hspan & _). by exists i0, j0.
      * subst iv. by exists i, (length rows).
    + intros m Hm.
      destruct (Hcov m Hm) as [(iv & i0 & j0 & Hiv & Hspan & _ & Hij)
                              |(s0 & i0 & Hs0 & Hg0 & Hl0 & Hst0 & Hi0)].
      * exists iv, i0, j0. split; [apply elem_of_app; by left|done].
      * exists (s, end_time), i0, (length rows).
        split; [apply elem_of_app; right; by apply list_elem_of_singleton|].
        split.
        -- split; [split; [done|split; [done|lia]]|].
           split; [simpl; congruence|]. simpl. lia.
        -- apply good_at_lt in Hm. lia.
Qed.

(** The intervals of the day buckets are runs of their day. *)
Lemma daily_output rows d day iv :
  group_by_day rows = Ok d →
  in_bucket (daily_good_intervals_map d) day iv → daily_interval rows iv.
Proof.
  unfold group_by_day. destruct rows as [|first rows'] eqn:Hrows.
  - intros [= <-] (l & Hl & _). simpl in Hl. by rewrite lookup_empty in Hl.
  - rewrite <- Hrows. rewrite bind_Ok. intros (st & Hloop & Hclose).
    destruct (daily_scan first rows st) as
      (Hwf & _ & Hlast & Hclosed & Hopen & _);
      [right; by rewrite Hrows|done|].
    destruct (close_daily_spec st d Hwf Hclose) as [_ Hivs].
    intros [Hold|(s & l & Hs & Hl & -> & ->)]%Hivs.
    + destruct (Hclosed day iv Hold) as (i & j & Hspan & _). by exists i, j.
    + destruct (Hopen s Hs) as (i & Hgood & Hleft & Hinside & Hstamp).
      exists i, (length rows). split; [|split; [done|split; [lia|]]].
      * split; [done|]. split; [done|]. split; [lia|done].
      * intros _. exists l. split; [|done].
        destruct (last rows) as [r|] eqn:Hr.
        -- destruct (Hlast r eq_refl) as [Hl' _].
           rewrite (stamp_at_last rows r Hr). congruence.
        -- rewrite Hrows in Hr. by apply last_None in Hr.
Qed.

(** For hours in chronological order, the hours stamped inside an interval
    are the hours of its run. *)
Lemma run_good_inside rows (iv : aware * aware) (i j : nat) :
  chronological rows → all_good rows i j →
  stamp_at rows i = Some iv.1 →
  ((j < length rows)%nat → stamp_at rows j = Some iv.2) →
  good_inside rows iv.
Proof.
  intros Hchron [Hij Hgood] Hs He k row Hrow [Hlo Hhi].
  pose proof (lookup_lt_Some _ _ _ Hrow) as Hk.
  unfold stamp_at in Hs, He.
  destruct (rows !! i) as [ri|] eqn:Hri; [|discriminate].
  injection Hs as Hs.
  assert (Hik : (i ≤ k)%nat).
  { destruct (decide (i ≤ k)%nat); [done|exfalso].
    pose proof (Hchron k i row ri ltac:(lia) Hrow Hri). rewrite Hs in *. lia. }
  assert (Hkj : (k < j)%nat).
  { destruct (decide (k < j)%nat); [done|exfalso].
    specialize (He ltac:(lia)).
    destruct (rows !! j) as [rj|] eqn:Hrj; [|discriminate].
    injection He as He.
    destruct (decide (k = j)) as [->|].
    - rewrite Hrow in Hrj. injection Hrj as <-. rewrite He in Hhi. lia.
    - pose proof (Hchron j k rj row ltac:(lia) Hrj Hrow).
      rewrite He in *. lia. }
  specialize (Hgood k ltac:(lia)). unfold good_at in Hgood.
  rewrite Hrow in Hgood. by injection Hgood.
Qed.

Lemma overall_interval_good_inside rows iv :
  chronological rows → overall_interval rows iv → good_inside rows iv.
Proof.
  intros Hchron (i & j & (Hgood & _) & Hs & He).
  by eapply run_good_inside.
Qed.

Lemma daily_interval_good_inside rows iv :
  chronological rows → daily_interval rows iv → good_inside rows iv.
Proof.
  intros Hchron (i & j & (Hgood & _) & Hs & He & _).
  by eapply run_good_inside.
Qed.

End Intervals.

(** ** The run around midnight *)

Section MidnightRun.
Import Humidity HumidityFacts Host Examples.
#[local] Existing Instance utc_host.
Local Open Scope R_scope.

(** A dew point of 50 F at 69 F indoors predicts between 30 and 60 percent
    (about 51 percent). *)
Lemma mild_rh_range : 30 <= mild_rh <= 60.
Proof.
  unfold mild_rh.
  set (fd := a * ((50 - 32) * 5 / 9) / (b + (50 - 32) * 5 / 9)).
  set (ft := a * ((69 - 32) * 5 / 9) / (b + (69 - 32) * 5 / 9)).
  assert (Hgap : 2 / 3 <= ft - fd <= 0.7) by (unfold ft, fd, a, b; lra).
  pose proof (exp_pos fd) as Hd. pose proof (exp_pos ft) as Ht.
  assert (Hup : (1 + (ft - fd)) * exp fd <= exp ft).
  { replace ft with (fd + (ft - fd)) at 2 by lra. rewrite exp_plus.
    pose proof (exp_ineq1_le (ft - fd)). nra. }
  assert (Hdown : (1 + (fd - ft)) * exp ft <= exp fd).
  { replace fd with (ft + (fd - ft)) at 2 by lra. rewrite exp_plus.
    pose proof (exp_ineq1_le (fd - ft)). nra. }
  set (x := 6.112 * exp fd / (6.112 * exp ft) * 100).
  assert (Hx : x = 100 * exp fd / exp ft) by (unfold x; field; lra).
  assert (Hrange : 30 <= x <= 60).
  { rewrite Hx. split.
    - apply Rmult_le_reg_r with (r := exp ft); [done|].
      replace (100 * exp fd / exp ft * exp ft) with (100 * exp fd)
        by (field; lra). nra.
    - apply Rmult_le_reg_r with (r := exp ft); [done|].
      replace (100 * exp fd / exp ft * exp ft) with (100 * exp fd)
        by (field; lra). nra. }
  rewrite (Rmax_left x 0) by lra. rewrite (Rmin_left x 100) by lra. done.
Qed.

Lemma mild_rh_predicted :
  calculate_rh (ftoc (Some 69)) (ftoc (Some 50)) = Ok (Some mild_rh).
Proof. unfold ftoc. rewrite calculate_rh_Some by (unfold b; lra). done. Qed.

(** The checks of a mild hour under the default thresholds: only the AQI
    check is left to decide. *)
Lemma mild_hour (aq_available : bool) (aqi : option R) :
  let aqi_flag := if aq_available
                  then match aqi with
                       | Some v => bool_decide (v <= 50)
                       | None => false
                       end
                  else true in
  evaluate_hour default_inputs aq_available (ftoc (Some 69))
    (Some 70) (Some 50) (Some 0) (Some 0) aqi
  = Ok {| primary_data_ok := true; predicted_rh_in := Some mild_rh;
          temp_ok := true; rh_ok := true; precip_ok := true;
          precip_prob_ok := true; aqi_ok := aqi_flag;
          is_good := aqi_flag |}.
Proof.
  pose proof mild_rh_range as Hrh.
  unfold evaluate_hour. rewrite mild_rh_predicted. simpl.
  rewrite !bool_decide_eq_true_2 by lra. done.
Qed.

Lemma parse_mon_23 : parse_iso_minute "2024-01-01T23:00" = Some 1704150000%Z.
Proof. vm_compute. reflexivity. Qed.

Lemma parse_tue_00 : parse_iso_minute "2024-01-02T00:00" = Some 1704153600%Z.
Proof. vm_compute. reflexivity. Qed.

Local Notation "'start_state'" :=
  {| overall_good_periods_text := []; overall_start_time := None;
     hourly_data_list := [] |}.

(** The loop over the two hours, for an AQI table that is unavailable or
    that binds both hours to [aqi]. *)
Lemma midnight_scan (aqi_data : option AqiData) (aqi : option R) :
  (∀ s, s ∈ midnight_times → dict_get (aqi_table aqi_data).2 s = aqi) →
  let flag := if (aqi_table aqi_data).1
              then match aqi with
                   | Some v => bool_decide (v <= 50)
                   | None => false
                   end
              else true in
  let rows := [mild_row 1704150000 flag aqi; mild_row 1704153600 flag aqi] in
  scan_hours (Some midnight_weather) aqi_data default_inputs
  = Ok (midnight_times, eastern_standard,
        fold_left overall_step rows start_state).
Proof.
  intros Haqi flag rows. apply scan_hours_Ok.
  eexists midnight_weather, _, _, _.
  do 5 (split; [reflexivity|]). split; [reflexivity|].
  apply hour_loop_Ok. exists rows. split; [reflexivity|].
  split; [|reflexivity].
  intros k s Hk.
  assert (Hs : s ∈ midnight_times) by (apply list_elem_of_lookup; eauto).
  destruct k as [|[|k]]; simpl in Hk; [| |discriminate];
    injection Hk as <-; (eexists; split; [reflexivity|]);
    apply hour_row_Ok.
  - eexists (Some 70), (Some 50), (Some 0), _, _.
    do 3 (split; [reflexivity|]). split; [exact parse_mon_23|].
    split; [simpl; rewrite (Haqi _ Hs); apply mild_hour|].
    rewrite (Haqi _ Hs). reflexivity.
  - eexists (Some 70), (Some 50), (Some 0), _, _.
    do 3 (split; [reflexivity|]). split; [exact parse_tue_00|].
    split; [simpl; rewrite (Haqi _ Hs); apply mild_hour|].
    rewrite (Haqi _ Hs). reflexivity.
Qed.

Lemma midnight_samples :
  hourly_samples (Some midnight_weather) None default_inputs = midnight_rows.
Proof.
  unfold hourly_samples. rewrite (midnight_scan None None); [reflexivity|].
  intros s _. reflexivity.
Qed.

Lemma smog_samples :
  hourly_samples (Some midnight_weather) (Some smog) default_inputs
  = smog_rows.
Proof.
  unfold hourly_samples. rewrite (midnight_scan (Some smog) (Some 180)).
  - simpl. rewrite bool_decide_eq_false_2 by lra. reflexivity.
  - intros s Hs. unfold midnight_times in Hs.
    apply elem_of_cons in Hs as [->|Hs]; [reflexivity|].
    apply list_elem_of_singleton in Hs as ->. reflexivity.
Qed.

(** The end of the overall scan on the run: the last timestamp is read on
    the host's clock, which is on UTC, and taken to New York. *)
Lemma midnight_close :
  close_overall midnight_times eastern_standard
    (fold_left overall_step midnight_rows start_state)
  = Ok [("Mon 11:00 PM", "08:00 PM")]%string.
Proof.
  rewrite (close_overall_open midnight_times eastern_standard _ mon_23
             "2024-01-02T00:00" 1704153600);
    [reflexivity|reflexivity|reflexivity|exact parse_tue_00].
Qed.

(** The whole function on the run around midnight. *)
Lemma midnight_run :
  find_optimal_periods (Some midnight_weather) None default_inputs
  = Ok midnight_result.
Proof.
  apply find_optimal_periods_Ok.
  exists midnight_times, eastern_standard,
    (fold_left overall_step midnight_rows start_state),
    [("Mon 11:00 PM", "08:00 PM")]%string,
    {| daily_chart_data_map := daily_chart_data midnight_result;
       daily_good_intervals_map := daily_good_intervals midnight_result;
       daily_good_periods_text_map := daily_good_periods_text midnight_result;
       current_day_str := "Tue 2024-01-02";
       daily_start_dt := Some tue_00;
       last_dt_local := Some tue_00 |}.
  split; [apply (midnight_scan None None); intros s _; reflexivity|].
  split; [exact midnight_close|]. split; reflexivity.
Qed.

End MidnightRun.

(** ** The hours of a run and their checks *)

Section Samples.
Context {host : Platform}.
Import Humidity HumidityFacts.
Local Open Scope R_scope.

(** Every hour of the run is a row that [evaluate_hour] judged, from the
    entries of the payload at its position. *)
Lemma sample_evaluated weather_data aqi_data inputs (k : nat) row :
  hourly_samples weather_data aqi_data inputs !! k = Some row →
  ∃ wd wh times temps_f dew_points_f time_str t d p n c,
    weather_data = Some wd ∧ hourly wd = Some wh
    ∧ hourly_time wh = Some times
    ∧ temperature_2m wh = Some temps_f
    ∧ dew_point_2m wh = Some dew_points_f
    ∧ times !! k = Some time_str
    ∧ temps_f !! k = Some t ∧ dew_points_f !! k = Some d
    ∧ default (replicate (length times) (Some 0)) (precipitation wh) !! k
      = Some p
    ∧ fromisoformat time_str = Some n
    ∧ row_precip_prob row
      = match default (replicate (length times) (Some 0))
                (precipitation_probability wh) !! k with
        | Some v => v
        | None => Some 0
        end
    ∧ row_aqi row = dict_get (aqi_table aqi_data).2 time_str
    ∧ evaluate_hour inputs (aqi_table aqi_data).1
        (ftoc (Some (IZR (indoor_ref_temp inputs))))
        t d p (row_precip_prob row) (row_aqi row) = Ok c
    ∧ row_dt row = localize (resolve_timezone wd) n
    ∧ row_is_good row = is_good c
    ∧ row_temp_f row = t
    ∧ row_rh_in row = predicted_rh_in c
    ∧ row_precip row = p.
Proof.
  unfold hourly_samples.
  destruct (scan_hours weather_data aqi_data inputs) as [[[times tz] hs]|]
    eqn:Hscan; [|by rewrite lookup_nil].
  pose proof (scan_hours_samples _ _ _ _ _ _ Hscan) as (Hrows & _ & Hlen & _).
  unfold hourly_samples in Hrows, Hlen. rewrite Hscan in Hrows, Hlen.
  apply scan_hours_Ok in Hscan
    as (wd & wh & temps & dews & -> & Hwh & Ht & Htemps & Hdews & -> & Hloop).
  apply hour_loop_Ok in Hloop as (rows & _ & Hk & ->).
  destruct (overall_scan rows) as [Hl _]. simpl in Hl. rewrite Hl.
  intros Hrow.
  assert (is_Some (times !! k)) as [s Hs].
  { apply lookup_lt_is_Some. rewrite <- Hlen, Hl.
    by eapply lookup_lt_Some. }
  destruct (Hk k s Hs) as (row' & Hrow' & Hr). rewrite Hrow in Hrow'.
  injection Hrow' as <-. simpl in Hr.
  apply hour_row_Ok in Hr as (t & d & p & n & c & ? & ? & ? & ? & Hc & ->).
  exists wd, wh, times, temps, dews, s, t, d, p, n, c. simpl.
  repeat (split; [done|]). done.
Qed.

End Samples.

Section Verdict.
Context {host : Platform}.
Import Humidity HumidityFacts.
Local Open Scope R_scope.

(** The verdict of [evaluate_hour] is the conjunction of its checks, and a
    value outside its bound fails the hour. *)
Lemma evaluate_hour_verdict inputs (aq_available : bool) (ref_c : option R)
    (t d p pp aqi : option R) (c : hour_checks) :
  evaluate_hour inputs aq_available ref_c t d p pp aqi = Ok c →
  (primary_data_ok c = true ↔ is_Some t ∧ is_Some d ∧ is_Some p)
  ∧ (is_good c = true ↔
       primary_data_ok c = true ∧ temp_ok c = true ∧ rh_ok c = true
       ∧ precip_ok c = true ∧ precip_prob_ok c = true ∧ aqi_ok c = true)
  ∧ (primary_data_ok c = false →
       is_good c = false ∧ predicted_rh_in c = None ∧ temp_ok c = false
       ∧ rh_ok c = false ∧ precip_ok c = false ∧ precip_prob_ok c = false
       ∧ aqi_ok c = false)
  ∧ (∀ v, t = Some v →
       ¬ (IZR (min_temp inputs) <= v <= IZR (max_temp inputs)) →
       is_good c = false)
  ∧ (∀ rh, predicted_rh_in c = Some rh →
       ¬ (IZR (min_rh inputs) <= rh <= IZR (max_rh inputs)) →
       is_good c = false)
  ∧ (∀ v, p = Some v → ¬ v < 0.1 → is_good c = false)
  ∧ (∀ v, pp = Some v → ¬ v <= IZR (max_precip_prob inputs) →
       is_good c = false)
  ∧ (aq_available = true →
     ∀ v, aqi = Some v → ¬ v <= IZR (max_aqi inputs) → is_good c = false).
Proof.
  intros Hc.
  destruct (evaluate_hour_cases _ _ _ _ _ _ _ _ _ Hc)
    as [(t' & d' & p' & -> & -> & -> & Hprim)|[Hnone ->]].
  - destruct (evaluate_hour_primary _ _ _ _ _ _ _ _ _ Hc)
      as (q & -> & Hrh & _ & Ht & Hr & Hp & Hq & Ha & Hg).
    split; [split; [eauto|done]|].
    split; [rewrite Hg, !andb_true_iff; tauto|].
    split; [congruence|].
    split; [|split; [|split; [|split]]].
    + intros v [= <-] Hv. rewrite Hg, Ht.
      destruct (bool_decide_reflect (IZR (min_temp inputs) <= t'));
        destruct (bool_decide_reflect (t' <= IZR (max_temp inputs)));
        simpl; try done. exfalso. auto.
    + intros rh Hrh' Hv. rewrite Hg, Hr, Hrh'.
      destruct (bool_decide_reflect (IZR (min_rh inputs) <= rh));
        destruct (bool_decide_reflect (rh <= IZR (max_rh inputs)));
        simpl; rewrite ?andb_false_r; try done. exfalso. auto.
    + intros v [= <-] Hv. rewrite Hg, Hp.
      rewrite bool_decide_eq_false_2 by done.
      by rewrite !andb_false_r.
    + intros v [= <-] Hv. rewrite Hg, Hq.
      rewrite bool_decide_eq_false_2 by done.
      by rewrite !andb_false_r.
    + intros -> v -> Hv. rewrite Hg, Ha.
      rewrite bool_decide_eq_false_2 by done.
      by rewrite !andb_false_r.
  - simpl. split.
    { split; [discriminate|].
      intros ([? ->] & [? ->] & [? ->]).
      destruct Hnone as [?|[?|?]]; discriminate. }
    split; [split; [discriminate|tauto]|].
    repeat split; done.
Qed.

(** Each check of an hour with its primary data, read on the values. *)
Lemma evaluate_hour_by_value inputs (aq_available : bool) (ref_c : option R)
    (t d p : R) (pp aqi : option R) (c : hour_checks) :
  evaluate_hour inputs aq_available ref_c (Some t) (Some d) (Some p) pp aqi
  = Ok c →
  calculate_rh ref_c (ftoc (Some d)) = Ok (predicted_rh_in c)
  ∧ (temp_ok c = true ↔
       IZR (min_temp inputs) <= t <= IZR (max_temp inputs))
  ∧ (rh_ok c = true ↔
       ∃ rh, predicted_rh_in c = Some rh
             ∧ IZR (min_rh inputs) <= rh <= IZR (max_rh inputs))
  ∧ (precip_ok c = true ↔ p < 0.1)
  ∧ (precip_prob_ok c = true ↔
       ∃ q, pp = Some q ∧ q <= IZR (max_precip_prob inputs))
  ∧ (aqi_ok c = true ↔
       aq_available = false
       ∨ ∃ v, aqi = Some v ∧ v <= IZR (max_aqi inputs)).
Proof.
  intros Hc.
  destruct (evaluate_hour_primary _ _ _ _ _ _ _ _ _ Hc)
    as (q & -> & Hrh & _ & Ht & Hr & Hp & Hq & Ha & _).
  split; [done|]. split; [|split; [|split; [|split]]].
  - rewrite Ht, andb_true_iff, !bool_decide_eq_true. done.
  - rewrite Hr. destruct (predicted_rh_in c) as [rh|].
    + rewrite andb_true_iff, !bool_decide_eq_true. split.
      * intros Hb. exists rh. done.
      * by intros (rh' & [= <-] & Hb).
    + split; [discriminate|]. by intros (rh' & [=] & _).
  - by rewrite Hp, bool_decide_eq_true.
  - rewrite Hq, bool_decide_eq_true. split.
    + intros Hb. exists q. done.
    + by intros (q' & [= <-] & Hb).
  - rewrite Ha. destruct aq_available.
    + destruct aqi as [v|].
      * rewrite bool_decide_eq_true. split.
        -- intros Hb. right. exists v. done.
        -- by intros [[=]|(v' & [= <-] & Hb)].
      * split; [discriminate|]. by intros [[=]|(v' & [=] & _)].
    + split; [by left|done].
Qed.

(** C1 (admissibility is a pure conjunction): for every hour [k] that
    [find_optimal_periods] evaluates, the row records the verdict of
    [evaluate_hour] on the entries of the payload at position [k] (the
    temperature, the dew point, the precipitation, the probability with
    its default, the AQI of the hour's timestamp).  The flag [is_good] is
    true exactly when the primary data (temperature, dew point,
    precipitation) is present and the five checks hold; without the
    primary data the hour is not admissible, no indoor humidity is
    predicted and the five checks are false; with it, each check is true
    exactly when its value is within its bound (both ends of the
    temperature and humidity ranges included, precipitation below 0.1,
    probability and AQI at most their maximum, the AQI check true without
    AQI data).  So the hour is admissible exactly when all the values are
    present and within their bounds, and moving one value outside its
    bound makes the hour not admissible. *)
Theorem admissible_iff_all_checks weather_data aqi_data inputs (k : nat) row :
  hourly_samples weather_data aqi_data inputs !! k = Some row →
  ∃ wd wh times temps_f dew_points_f time_str
    (temp_out_f dew_point_out_f precip : option R) (c : hour_checks),
    weather_data = Some wd ∧ hourly wd = Some wh
    ∧ hourly_time wh = Some times ∧ times !! k = Some time_str
    ∧ temperature_2m wh = Some temps_f ∧ temps_f !! k = Some temp_out_f
    ∧ dew_point_2m wh = Some dew_points_f
    ∧ dew_points_f !! k = Some dew_point_out_f
    ∧ default (replicate (length times) (Some 0)) (precipitation wh) !! k
      = Some precip
    ∧ row_temp_f row = temp_out_f ∧ row_precip row = precip
    ∧ row_precip_prob row
      = match default (replicate (length times) (Some 0))
                (precipitation_probability wh) !! k with
        | Some v => v
        | None => Some 0
        end
    ∧ row_aqi row = dict_get (aqi_table aqi_data).2 time_str
    ∧ evaluate_hour inputs (aqi_table aqi_data).1
        (ftoc (Some (IZR (indoor_ref_temp inputs))))
        temp_out_f dew_point_out_f precip
        (row_precip_prob row) (row_aqi row) = Ok c
    ∧ row_is_good row = is_good c
    ∧ row_rh_in row = predicted_rh_in c
    ∧ (primary_data_ok c = true ↔
         is_Some temp_out_f ∧ is_Some dew_point_out_f ∧ is_Some precip)
    ∧ (is_good c = true ↔
         primary_data_ok c = true ∧ temp_ok c = true ∧ rh_ok c = true
         ∧ precip_ok c = true ∧ precip_prob_ok c = true ∧ aqi_ok c = true)
    ∧ (primary_data_ok c = false →
         is_good c = false ∧ predicted_rh_in c = None ∧ temp_ok c = false
         ∧ rh_ok c = false ∧ precip_ok c = false ∧ precip_prob_ok c = false
         ∧ aqi_ok c = false)
    ∧ (∀ t d p,
         temp_out_f = Some t → dew_point_out_f = Some d → precip = Some p →
         predictIndoorRH (Some (IZR (indoor_ref_temp inputs))) (Some d)
         = Ok (predicted_rh_in c)
         ∧ (temp_ok c = true ↔
              IZR (min_temp inputs) <= t <= IZR (max_temp inputs))
         ∧ (rh_ok c = true ↔
              ∃ rh, predicted_rh_in c = Some rh
                    ∧ IZR (min_rh inputs) <= rh <= IZR (max_rh inputs))
         ∧ (precip_ok c = true ↔ p < 0.1)
         ∧ (precip_prob_ok c = true ↔
              ∃ q, row_precip_prob row = Some q
                   ∧ q <= IZR (max_precip_prob inputs))
         ∧ (aqi_ok c = true ↔
              (aqi_table aqi_data).1 = false
              ∨ ∃ v, row_aqi row = Some v ∧ v <= IZR (max_aqi inputs)))
    ∧ (row_is_good row = true ↔
         ∃ t d p q rh,
           temp_out_f = Some t ∧ dew_point_out_f = Some d
           ∧ precip = Some p ∧ row_precip_prob row = Some q
           ∧ predictIndoorRH (Some (IZR (indoor_ref_temp inputs))) (Some d)
             = Ok (Some rh)
           ∧ IZR (min_temp inputs) <= t <= IZR (max_temp inputs)
           ∧ IZR (min_rh inputs) <= rh <= IZR (max_rh inputs)
           ∧ p < 0.1
           ∧ q <= IZR (max_precip_prob inputs)
           ∧ ((aqi_table aqi_data).1 = false
              ∨ ∃ v, row_aqi row = Some v ∧ v <= IZR (max_aqi inputs))).
Proof.
  intros Hrow.
  destruct (sample_evaluated _ _ _ _ _ Hrow)
    as (wd & wh & times & temps & dews & s & t & d & p & n & c
        & Hwd & Hwh & Htimes & Htemps & Hdews & Hs & Hkt & Hkd & Hkp & _
        & Hpp & Haqi & Hc & _ & Hgood & Ht & Hrh & Hp).
  destruct (evaluate_hour_verdict _ _ _ _ _ _ _ _ _ Hc)
    as (H1 & H2 & H3 & _).
  exists wd, wh, times, temps, dews, s, t, d, p, c.
  do 9 (split; [done|]). do 7 (split; [done|]).
  do 3 (split; [done|]).
  assert (Hval : ∀ t' d' p', t = Some t' → d = Some d' → p = Some p' →
            predictIndoorRH (Some (IZR (indoor_ref_temp inputs))) (Some d')
            = Ok (predicted_rh_in c)
            ∧ (temp_ok c = true ↔
                 IZR (min_temp inputs) <= t' <= IZR (max_temp inputs))
            ∧ (rh_ok c = true ↔
                 ∃ rh, predicted_rh_in c = Some rh
                       ∧ IZR (min_rh inputs) <= rh <= IZR (max_rh inputs))
            ∧ (precip_ok c = true ↔ p' < 0.1)
            ∧ (precip_prob_ok c = true ↔
                 ∃ q, row_precip_prob row = Some q
                      ∧ q <= IZR (max_precip_prob inputs))
            ∧ (aqi_ok c = true ↔
                 (aqi_table aqi_data).1 = false
                 ∨ ∃ v, row_aqi row = Some v ∧ v <= IZR (max_aqi inputs))).
  { intros t' d' p' -> -> ->. by apply evaluate_hour_by_value in Hc. }
  split; [exact Hval|].
  rewrite Hgood, H2. split.
  - intros (Hprim & Htok & Hrok & Hpok & Hqok & Haok).
    apply H1 in Hprim as ([t' ->] & [d' ->] & [p' ->]).
    destruct (Hval t' d' p' eq_refl eq_refl eq_refl)
      as (Hpred & Et & Er & Ep & Eq & Ea).
    apply Et in Htok. apply Er in Hrok as (rh & Hrh' & Hrok).
    apply Ep in Hpok. apply Eq in Hqok as (q & Hq & Hqok).
    apply Ea in Haok. rewrite Hrh' in Hpred.
    exists t', d', p', q, rh. done.
  - intros (t' & d' & p' & q & rh & -> & -> & -> & Hq & Hpred & Htok & Hrok
            & Hpok & Hqok & Haok).
    destruct (Hval t' d' p' eq_refl eq_refl eq_refl)
      as (Hpred' & Et & Er & Ep & Eq & Ea).
    rewrite Hpred in Hpred'. injection Hpred' as Hrh'.
    split; [apply H1; eauto|].
    split; [by apply Et|]. split; [apply Er; by exists rh|].
    split; [by apply Ep|]. split; [apply Eq; by exists q|]. by apply Ea.
Qed.

End Verdict.

Section VerdictWitness.
Import Humidity HumidityFacts Host Examples.
#[local] Existing Instance utc_host.
Local Open Scope R_scope.

(** The first hour of the run around midnight passes every check: its
    values are present and within their bounds. *)
Lemma admissible_iff_all_checks_witness :
  hourly_samples (Some midnight_weather) None default_inputs !! 0%nat
  = Some (mild_row 1704150000 true None)
  ∧ ∃ (temp_out_f dew_point_out_f precip : option R) (c : hour_checks),
      is_Some temp_out_f ∧ is_Some dew_point_out_f ∧ is_Some precip
      ∧ is_good c = true
      ∧ primary_data_ok c = true ∧ temp_ok c = true ∧ rh_ok c = true
      ∧ precip_ok c = true ∧ precip_prob_ok c = true ∧ aqi_ok c = true.
Proof.
  assert (Hrow : hourly_samples (Some midnight_weather) None default_inputs
                 !! 0%nat = Some (mild_row 1704150000 true None))
    by (rewrite midnight_samples; reflexivity).
  split; [exact Hrow|].
  destruct (admissible_iff_all_checks _ _ _ _ _ Hrow)
    as (wd & wh & times & temps & dews & s & t & d & p & c
        & _ & _ & _ & _ & _ & _ & _ & _ & _ & _ & _ & _ & _ & _
        & Hgood & _ & Hprim & Hiff & _).
  simpl in Hgood.
  assert (Hall := proj1 Hiff (eq_sym Hgood)).
  exists t, d, p, c.
  destruct (proj1 Hprim (proj1 Hall)) as (Ht & Hd & Hp).
  split; [exact Ht|]. split; [exact Hd|]. split; [exact Hp|].
  split; [by symmetry|]. exact Hall.
Defined.

End VerdictWitness.

(** ** Air quality *)

Section AirQuality.
Context {host : Platform}.
Import Humidity HumidityFacts.
Local Open Scope R_scope.

Lemma aqi_unavailable_table (aqi_data : option AqiData) :
  aqi_unavailable aqi_data ↔ aqi_table aqi_data = (false, ∅).
Proof.
  unfold aqi_unavailable, aqi_table.
  destruct aqi_data as [[[[[ts|] [vs|]]|]]|]; simpl; try done.
  case_decide; split; done.
Qed.

(** With the AQI unavailable the test does not read [max_aqi]. *)
Lemma evaluate_hour_max_aqi inputs (v : Z) (ref_c t d p pp aqi : option R) :
  evaluate_hour (with_max_aqi inputs v) false ref_c t d p pp aqi
  = evaluate_hour inputs false ref_c t d p pp aqi.
Proof. reflexivity. Qed.

Lemma hour_loop_max_aqi inputs (v : Z) temps dews precs pps tz ref_c
    (i : nat) (times : list string) (st : hour_state) :
  hour_loop (with_max_aqi inputs v) temps dews precs pps false ∅ tz ref_c
    i times st
  = hour_loop inputs temps dews precs pps false ∅ tz ref_c i times st.
Proof.
  revert i st. induction times as [|s times IH]; intros i st; [done|].
  cbn [hour_loop].
  change (hour_row (with_max_aqi inputs v) temps dews precs pps false ∅ tz
            ref_c i s)
    with (hour_row inputs temps dews precs pps false ∅ tz ref_c i s).
  destruct (hour_row inputs temps dews precs pps false ∅ tz ref_c i s)
    as [row|e]; simpl; [apply IH|done].
Qed.

Lemma find_optimal_periods_unavailable weather_data aqi_data aqi_data'
    inputs (v : Z) :
  aqi_unavailable aqi_data → aqi_unavailable aqi_data' →
  find_optimal_periods weather_data aqi_data' (with_max_aqi inputs v)
  = find_optimal_periods weather_data aqi_data inputs.
Proof.
  intros Ha%aqi_unavailable_table Ha'%aqi_unavailable_table.
  unfold find_optimal_periods. f_equal. unfold scan_hours.
  rewrite Ha, Ha'. simpl.
  destruct weather_data as [wd|]; [|done].
  destruct (hourly wd) as [wh|]; [|done].
  destruct (hourly_time wh) as [times|]; [|done].
  destruct (temperature_2m wh) as [temps|]; [|done].
  destruct (dew_point_2m wh) as [dews|]; [|done]. simpl.
  by rewrite hour_loop_max_aqi.
Qed.

(** C4, as stated, fails: with no AQI payload at all, an hour whose
    temperature is missing has its AQI check false, like its four other
    checks. *)
Lemma aqi_check_false_without_primary_data :
  aqi_unavailable None
  ∧ ∃ c : hour_checks,
      evaluate_hour Examples.default_inputs (aqi_table None).1
        (ftoc (Some 69)) None (Some 50) (Some 0) (Some 0)
        (dict_get (aqi_table None).2 "2024-01-01T23:00") = Ok c
      ∧ aqi_ok c = false.
Proof. split; [exact I|]. eexists. split; reflexivity. Qed.

(** C4, amended: when the AQI payload is missing, lacks its timestamps or
    its values, or has values and timestamps of different lengths, every
    hour of the run carries no AQI, the AQI check is true for every hour
    whose primary data is present (for the other hours all checks are
    false), and the whole result is the same for any other unavailable
    payload and any other [max_aqi].  When the AQI is available, an hour
    without an AQI entry or with an AQI above [max_aqi] fails the check
    and is not admissible.  The run around midnight admits both hours
    without an AQI payload and rejects both under [smog]. *)
Theorem aqi_unavailable_is_neutral weather_data aqi_data inputs :
  aqi_unavailable aqi_data →
  aqi_table aqi_data = (false, ∅)
  ∧ (∀ k row,
       hourly_samples weather_data aqi_data inputs !! k = Some row →
       row_aqi row = None
       ∧ ∃ (d : option R) (c : hour_checks),
           evaluate_hour inputs false
             (ftoc (Some (IZR (indoor_ref_temp inputs))))
             (row_temp_f row) d (row_precip row) (row_precip_prob row) None
           = Ok c
           ∧ row_is_good row = is_good c
           ∧ aqi_ok c = primary_data_ok c)
  ∧ (∀ aqi_data' (v : Z),
       aqi_unavailable aqi_data' →
       find_optimal_periods weather_data aqi_data' (with_max_aqi inputs v)
       = find_optimal_periods weather_data aqi_data inputs)
  ∧ (∀ available k row,
       (aqi_table available).1 = true →
       hourly_samples weather_data available inputs !! k = Some row →
       row_aqi row = None
       ∨ (∃ v, row_aqi row = Some v ∧ IZR (max_aqi inputs) < v) →
       row_is_good row = false
       ∧ ∃ (d : option R) (c : hour_checks),
           evaluate_hour inputs true
             (ftoc (Some (IZR (indoor_ref_temp inputs))))
             (row_temp_f row) d (row_precip row) (row_precip_prob row)
             (row_aqi row) = Ok c
           ∧ row_is_good row = is_good c
           ∧ aqi_ok c = false)
  ∧ (∀ k : nat,
       (k < 2)%nat →
       row_is_good <$> @hourly_samples Host.utc_host
           (Some Examples.midnight_weather) None Examples.default_inputs !! k
       = Some true
       ∧ row_is_good <$> @hourly_samples Host.utc_host
             (Some Examples.midnight_weather) (Some Examples.smog)
             Examples.default_inputs !! k
         = Some false).
Proof.
  intros Hun. pose proof (proj1 (aqi_unavailable_table _) Hun) as Htable.
  split; [done|]. split; [|split; [|split]].
  - intros k row Hrow.
    destruct (sample_evaluated _ _ _ _ _ Hrow)
      as (wd & wh & times & temps & dews & s & t & d & p & n & c
          & _ & _ & _ & _ & _ & _ & _ & _ & _ & _ & _ & Haqi & Hc & _
          & Hgood & Ht & _ & Hp).
    rewrite Htable in Haqi, Hc. simpl in Haqi, Hc.
    unfold dict_get in Haqi. rewrite lookup_empty in Haqi.
    rewrite Haqi in Hc. split; [done|]. exists d, c.
    rewrite Ht, Hp. split; [done|]. split; [done|].
    destruct (evaluate_hour_cases _ _ _ _ _ _ _ _ _ Hc)
      as [(t' & d' & p' & -> & -> & -> & Hprim)|[_ ->]]; [|done].
    destruct (evaluate_hour_primary _ _ _ _ _ _ _ _ _ Hc)
      as (q & _ & _ & _ & _ & _ & _ & _ & Ha & _).
    by rewrite Ha, Hprim.
  - intros aqi_data' v Hun'. by apply find_optimal_periods_unavailable.
  - intros available k row Hav Hrow Hbad.
    destruct (sample_evaluated _ _ _ _ _ Hrow)
      as (wd & wh & times & temps & dews & s & t & d & p & n & c
          & _ & _ & _ & _ & _ & _ & _ & _ & _ & _ & _ & _ & Hc & _
          & Hgood & Ht & _ & Hp).
    rewrite Hav in Hc.
    assert (Haqi_ok : aqi_ok c = false).
    { destruct (evaluate_hour_cases _ _ _ _ _ _ _ _ _ Hc)
        as [(t' & d' & p' & -> & -> & -> & Hprim)|[_ ->]]; [|done].
      destruct (evaluate_hour_primary _ _ _ _ _ _ _ _ _ Hc)
        as (q & _ & _ & _ & _ & _ & _ & _ & Ha & _).
      rewrite Ha. destruct Hbad as [->|(v & -> & Hv)]; [done|].
      apply bool_decide_eq_false_2. lra. }
    assert (Hbadrow : row_is_good row = false).
    { rewrite Hgood.
      destruct (evaluate_hour_verdict _ _ _ _ _ _ _ _ _ Hc)
        as (_ & Hiff & _).
      destruct (is_good c); [|done].
      destruct (proj1 Hiff eq_refl) as (_ & _ & _ & _ & _ & ?). congruence. }
    split; [done|]. exists d, c. rewrite Ht, Hp. done.
  - intros k Hk. rewrite midnight_samples, smog_samples.
    destruct k as [|[|k]]; [done|done|lia].
Qed.

End AirQuality.

(** The amended claim without an AQI payload, on the run around midnight:
    the result is the same under a ceiling of 0 on the AQI. *)
Lemma aqi_unavailable_is_neutral_witness :
  aqi_unavailable None
  ∧ @find_optimal_periods Host.utc_host (Some Examples.midnight_weather) None
      (with_max_aqi Examples.default_inputs 0)
    = @find_optimal_periods Host.utc_host (Some Examples.midnight_weather)
        None Examples.default_inputs.
Proof.
  split; [exact I|].
  destruct (@aqi_unavailable_is_neutral Host.utc_host
              (Some Examples.midnight_weather) None Examples.default_inputs I)
    as (_ & _ & Hsame & _).
  apply (Hsame None 0%Z I).
Defined.

(** ** Arrays shorter than the timestamp axis *)

Section ShortArrays.
Context {host : Platform}.
Import Humidity HumidityFacts.
Local Open Scope R_scope.

(** C8, amended: an hour whose position is beyond the end of the
    precipitation-probability array reads a probability of 0.0, not an
    absent one; its probability check is the comparison of 0 with
    [max_precip_prob] whenever its primary data is present, and the hour
    is judged like an hour with an explicit 0.0. *)
Theorem short_precip_prob_reads_zero weather_data aqi_data inputs wd wh pps
    (k : nat) row :
  weather_data = Some wd → hourly wd = Some wh →
  precipitation_probability wh = Some pps → (length pps ≤ k)%nat →
  hourly_samples weather_data aqi_data inputs !! k = Some row →
  row_precip_prob row = Some 0
  ∧ ∃ (d : option R) (c : hour_checks),
      evaluate_hour inputs (aqi_table aqi_data).1
        (ftoc (Some (IZR (indoor_ref_temp inputs))))
        (row_temp_f row) d (row_precip row) (Some 0) (row_aqi row) = Ok c
      ∧ row_is_good row = is_good c
      ∧ (primary_data_ok c = true →
         precip_prob_ok c
         = bool_decide (0 <= IZR (max_precip_prob inputs))).
Proof.
  intros -> Hwh Hpps Hlen Hrow.
  destruct (sample_evaluated _ _ _ _ _ Hrow)
    as (wd' & wh' & times & temps & dews & s & t & d & p & n & c
        & [= <-] & Hwh' & _ & _ & _ & _ & _ & _ & _ & _ & Hpp & _ & Hc & _
        & Hgood & Ht & _ & Hp).
  rewrite Hwh in Hwh'. injection Hwh' as <-.
  rewrite Hpps in Hpp. simpl in Hpp.
  rewrite (lookup_ge_None_2 pps k Hlen) in Hpp.
  split; [done|]. exists d, c. rewrite Ht, Hp, <- Hpp.
  split; [done|]. split; [done|]. intros Hprim.
  rewrite Hpp in Hc.
  destruct (evaluate_hour_cases _ _ _ _ _ _ _ _ _ Hc)
    as [(t' & d' & p' & -> & -> & -> & _)|[_ ->]]; [|done].
  destruct (evaluate_hour_primary _ _ _ _ _ _ _ _ _ Hc)
    as (q & [= <-] & _ & _ & _ & _ & _ & Hq & _). done.
Qed.

(** *** Failures *)

Lemma find_optimal_periods_Raise weather_data aqi_data inputs e :
  find_optimal_periods weather_data aqi_data inputs = Raise e →
  scan_hours weather_data aqi_data inputs = Raise e
  ∨ ∃ times tz hs,
      scan_hours weather_data aqi_data inputs = Ok (times, tz, hs)
      ∧ (close_overall times tz hs = Raise e
         ∨ group_by_day (hourly_data_list hs) = Raise e).
Proof.
  unfold find_optimal_periods.
  destruct (scan_hours _ _ _) as [[[times tz] hs]|e0]; simpl.
  - intros Hraise. right. exists times, tz, hs. split; [done|].
    destruct (close_overall times tz hs) as [overall|e1] eqn:Hc;
      simpl in Hraise.
    + destruct (group_by_day (hourly_data_list hs)) as [d|e2] eqn:Hg;
        simpl in Hraise; [discriminate|].
      right. congruence.
    + left. congruence.
  - intros [= ->]. by left.
Qed.

Lemma scan_hours_Raise_find weather_data aqi_data inputs e :
  scan_hours weather_data aqi_data inputs = Raise e →
  find_optimal_periods weather_data aqi_data inputs = Raise e.
Proof. intros Hscan. unfold find_optimal_periods. by rewrite Hscan. Qed.

(** C9 (structural failure): a weather payload without a timestamp axis,
    or without a temperature or a dew-point array, ends
    [find_optimal_periods] in an exception and in no result.  The
    exception is raised by the checks that precede the loop over the hours:
    it is [TypeError] when the axis is missing and [KeyError] when an array
    is, whatever the hours, the AQI payload, the thresholds and the host
    are. *)
Theorem missing_axis_or_array_fails weather_data aqi_data inputs :
  lacks_time_axis weather_data ∨ lacks_required_array weather_data →
  ∃ e : exn,
    find_optimal_periods weather_data aqi_data inputs = Raise e
    ∧ scan_hours weather_data aqi_data inputs = Raise e
    ∧ (lacks_time_axis weather_data → e = TypeError)
    ∧ (¬ lacks_time_axis weather_data → e = KeyError).
Proof.
  intros Hlacks.
  assert (∃ e, scan_hours weather_data aqi_data inputs = Raise e
               ∧ (lacks_time_axis weather_data → e = TypeError)
               ∧ (¬ lacks_time_axis weather_data → e = KeyError))
    as (e & Hscan & He).
  { unfold scan_hours, lacks_time_axis, lacks_required_array in *.
    destruct weather_data as [wd|]; [|exists TypeError; tauto].
    destruct (hourly wd) as [wh|] eqn:Hwh; [|exists TypeError; tauto].
    destruct (hourly_time wh) as [times|] eqn:Ht; [|exists TypeError; tauto].
    destruct Hlacks as [?|(wd' & wh' & [= <-] & Hwh' & Harr)]; [done|].
    rewrite Hwh in Hwh'. injection Hwh' as <-.
    destruct (temperature_2m wh) as [temps|]; simpl;
      [|exists KeyError; split; [done|]; split; [done|tauto]].
    destruct (dew_point_2m wh) as [dews|]; simpl;
      [|exists KeyError; split; [done|]; split; [done|tauto]].
    destruct Harr; done. }
  exists e. split; [|done]. by apply scan_hours_Raise_find.
Qed.

(** C10 (positional indexing): the loop reads the temperature, dew-point
    and precipitation arrays at every position of the timestamp axis.  A
    result is returned only if each of these arrays is at least as long as
    the axis; and if they are, no [IndexError] is raised, however short
    the precipitation-probability array is. *)
Theorem arrays_cover_the_axis weather_data aqi_data inputs wd wh times
    temps_f dew_points_f :
  weather_data = Some wd → hourly wd = Some wh →
  hourly_time wh = Some times →
  temperature_2m wh = Some temps_f → dew_point_2m wh = Some dew_points_f →
  let covered :=
    (length times ≤ length temps_f)%nat
    ∧ (length times ≤ length dew_points_f)%nat
    ∧ (∀ precip_mm, precipitation wh = Some precip_mm →
         (length times ≤ length precip_mm)%nat) in
  (∀ res, find_optimal_periods weather_data aqi_data inputs = Ok res →
          covered)
  ∧ (covered →
     find_optimal_periods weather_data aqi_data inputs ≠ Raise IndexError).
Proof.
  intros -> Hwh Ht Htemps Hdews covered. split.
  - intros res (times' & tz & hs & overall & d & Hscan & _)%find_optimal_periods_Ok.
    apply scan_hours_Ok in Hscan
      as (wd' & wh' & temps & dews & [= <-] & Hwh' & Ht' & Htemps' & Hdews'
          & _ & Hloop).
    rewrite Hwh in Hwh'. injection Hwh' as <-.
    rewrite Ht in Ht'. injection Ht' as <-.
    rewrite Htemps in Htemps'. injection Htemps' as <-.
    rewrite Hdews in Hdews'. injection Hdews' as <-.
    apply hour_loop_Ok in Hloop as (rows & _ & Hk & _).
    assert (Hall : ∀ k, (k < length times)%nat →
              (k < length temps_f)%nat ∧ (k < length dew_points_f)%nat
              ∧ (k < length (default (replicate (length times) (Some 0%R))
                               (precipitation wh)))%nat).
    { intros k Hlt. destruct (lookup_lt_is_Some_2 times k Hlt) as [s Hs].
      destruct (Hk k s Hs) as (row & _ & Hrow). simpl in Hrow.
      apply hour_row_Ok in Hrow
        as (t & d0 & p & n & c & H1 & H2 & H3 & _).
      apply lookup_lt_Some in H1, H2, H3. done. }
    unfold covered. split; [|split].
    + destruct (decide (length times ≤ length temps_f)%nat); [done|].
      destruct (Hall (length temps_f)); lia.
    + destruct (decide (length times ≤ length dew_points_f)%nat); [done|].
      destruct (Hall (length dew_points_f)); lia.
    + intros precip_mm Hp. rewrite Hp in Hall. simpl in Hall.
      destruct (decide (length times ≤ length precip_mm)%nat); [done|].
      destruct (Hall (length precip_mm)) as (_ & _ & ?); lia.
  - intros (Hc1 & Hc2 & Hc3) Hraise.
    apply find_optimal_periods_Raise in Hraise
      as [Hscan|(times' & tz & hs & Hscan & [Hclose|Hgroup])].
    + unfold scan_hours in Hscan. rewrite Hwh, Ht, Htemps, Hdews in Hscan.
      simpl in Hscan.
      destruct (hour_loop _ _ _ _ _ _ _ _ _ _ _ _) as [hs|e] eqn:Hloop;
        [discriminate|].
      injection Hscan as ->.
      apply hour_loop_Raise in Hloop as (k & s & Hs & Hrow).
      apply lookup_lt_Some in Hs. simpl in Hrow.
      apply hour_row_IndexError in Hrow as [?|[?|Hp]]; [lia|lia|].
      destruct (precipitation wh) as [precip_mm|] eqn:Hprec; simpl in Hp.
      * specialize (Hc3 precip_mm eq_refl). lia.
      * rewrite length_replicate in Hp. lia.
    + pose proof (scan_hours_samples _ _ _ _ _ _ Hscan)
        as (_ & Hhs & Hlen & _).
      unfold close_overall in Hclose.
      destruct (overall_start_time hs) as [s|] eqn:Hs; [|discriminate].
      destruct (last times') as [last_str|] eqn:Hlast.
      * simpl in Hclose.
        destruct (fromisoformat last_str); simpl in Hclose; discriminate.
      * apply last_None in Hlast. subst times'. simpl in Hlen.
        apply nil_length_inv in Hlen. rewrite Hlen in Hhs. simpl in Hhs.
        subst hs. discriminate.
    + destruct (group_by_day_total (hourly_data_list hs)) as [d Hd].
      congruence.
Qed.

End ShortArrays.

Section ShortArraysWitnesses.
Import Humidity HumidityFacts Host Examples.
#[local] Existing Instance utc_host.
Local Open Scope R_scope.

(** C8, as stated, fails: the probability array of the run around
    midnight is empty, so its first hour is beyond the end of the array;
    the hour reads a probability of 0.0 and is admissible. *)
Lemma short_precip_prob_hour_admissible :
  ∃ wh row,
    hourly midnight_weather = Some wh
    ∧ precipitation_probability wh = Some []
    ∧ hourly_samples (Some midnight_weather) None default_inputs !! 0%nat
      = Some row
    ∧ row_precip_prob row = Some 0
    ∧ row_is_good row = true.
Proof.
  eexists _, _. split; [reflexivity|]. split; [reflexivity|].
  split; [rewrite midnight_samples; reflexivity|]. split; reflexivity.
Qed.

Lemma short_precip_prob_reads_zero_witness :
  (length (@nil (option R)) ≤ 0)%nat
  ∧ hourly_samples (Some midnight_weather) None default_inputs !! 0%nat
    = Some (mild_row 1704150000 true None)
  ∧ row_precip_prob (mild_row 1704150000 true None) = Some 0.
Proof.
  assert (Hrow : hourly_samples (Some midnight_weather) None default_inputs
                 !! 0%nat = Some (mild_row 1704150000 true None))
    by (rewrite midnight_samples; reflexivity).
  split; [simpl; lia|]. split; [exact Hrow|].
  apply (short_precip_prob_reads_zero (Some midnight_weather) None
           default_inputs midnight_weather _ [] 0 _
           eq_refl eq_refl eq_refl (le_n 0) Hrow).
Defined.

(** A payload without its temperature array ends in [KeyError]. *)
Lemma missing_axis_or_array_fails_witness :
  lacks_required_array (Some no_temperatures)
  ∧ find_optimal_periods (Some no_temperatures) None default_inputs
    = Raise KeyError.
Proof.
  assert (Hlacks : lacks_required_array (Some no_temperatures)).
  { eexists _, _. split; [reflexivity|]. split; [reflexivity|]. by left. }
  split; [exact Hlacks|].
  destruct (missing_axis_or_array_fails (Some no_temperatures) None
              default_inputs (or_intror Hlacks)) as (e & Hfop & _ & _ & He).
  rewrite Hfop. f_equal. apply He. simpl. discriminate.
Defined.

(** The run around midnight returns a result with an empty probability
    array: its other arrays cover the two hours. *)
Lemma arrays_cover_the_axis_witness :
  find_optimal_periods (Some midnight_weather) None default_inputs
  = Ok midnight_result
  ∧ (length midnight_times ≤ 2)%nat.
Proof.
  split; [exact midnight_run|].
  destruct (arrays_cover_the_axis (Some midnight_weather) None default_inputs
              midnight_weather _ midnight_times _ _
              eq_refl eq_refl eq_refl eq_refl eq_refl) as [Hcov _].
  destruct (Hcov midnight_result midnight_run) as [Hlen _]. exact Hlen.
Defined.

End ShortArraysWitnesses.

(** ** The intervals that are produced *)

Section ProducedIntervals.
Context {host : Platform}.
Implicit Types (r : hourly_row) (rows : list hourly_row).

(** C2, amended: every period of the overall output is the formatted
    interval of a maximal run of admissible hours: it starts at the stamp
    of the first hour of the run, the hour before the run (if any) is not
    admissible, and when a hour follows the run, that hour is not
    admissible and its stamp is the end (nothing is said of the end of a
    run that reaches the last hour).  Every interval of a day bucket is a
    run of admissible hours that is maximal inside its day: on each side
    it stops at a hour that is not admissible or at the first hour of a new
    local date, no new date starts inside it, and it ends at the stamp of
    the hour that follows it or, when it reaches the last hour, one hour
    after the last stamp.  When the hours are in chronological order,
    every hour whose timestamp lies in the half-open range of a produced
    interval is admissible. *)
Theorem intervals_are_runs weather_data aqi_data inputs res :
  find_optimal_periods weather_data aqi_data inputs = Ok res →
  let rows := hourly_samples weather_data aqi_data inputs in
  (∃ ivs : list (aware * aware),
     periods res = (λ iv, format_period iv.1 iv.2) <$> ivs
     ∧ ∀ iv, iv ∈ ivs → overall_interval rows iv)
  ∧ (∀ day iv, in_bucket (daily_good_intervals res) day iv →
               daily_interval rows iv)
  ∧ (chronological rows →
     ∀ iv, overall_interval rows iv ∨ daily_interval rows iv →
           good_inside rows iv).
Proof.
  intros (times & tz & hs & overall & d & Hscan & Hclose & Hgroup & ->)
    %find_optimal_periods_Ok rows.
  destruct (scan_hours_samples _ _ _ _ _ _ Hscan) as (Hrows & _).
  fold rows in Hrows. rewrite Hrows in Hgroup. simpl. split; [|split].
  - destruct (overall_output _ _ _ _ _ _ _ Hscan Hclose)
      as (ivs & Htext & Hivs & _).
    exists ivs. done.
  - intros day iv Hiv. by eapply daily_output.
  - intros Hchron iv [Hiv|Hiv].
    + by apply overall_interval_good_inside.
    + by apply daily_interval_good_inside.
Qed.

(** The split at a day boundary, for every input: when hours [m] and
    [m + 1] are both admissible and hour [m + 1] is the first hour of its
    local date, the bucket that lists hour [m] holds an interval that ends
    at the stamp of hour [m + 1], the bucket of the new date lists hour
    [m + 1] and holds an interval that starts at that stamp, the two
    buckets differ, and one period of the overall output comes from a
    maximal run of admissible hours that holds both.  That period ends at
    the stamp of the hour after the run; of the end of a run that reaches
    the last hour [overall_span] says nothing. *)
Lemma run_across_midnight_is_split weather_data aqi_data inputs res
    (m : nat) :
  find_optimal_periods weather_data aqi_data inputs = Ok res →
  let rows := hourly_samples weather_data aqi_data inputs in
  good_at rows m = Some true → good_at rows (S m) = Some true →
  opens_day rows (S m) →
  ∃ r0 r1 day0 s e,
    rows !! m = Some r0 ∧ rows !! S m = Some r1
    ∧ day0 ≠ day_label r1
    ∧ in_bucket (daily_chart_data res) day0 r0
    ∧ in_bucket (daily_good_intervals res) day0 (s, row_dt r1)
    ∧ in_bucket (daily_chart_data res) (day_label r1) r1
    ∧ in_bucket (daily_good_intervals res) (day_label r1) (row_dt r1, e)
    ∧ ∃ iv i j,
        format_period iv.1 iv.2 ∈ periods res
        ∧ overall_span rows iv i j ∧ (i ≤ m)%nat ∧ (S m < j)%nat.
Proof.
  intros (times & tz & hs & overall & d & Hscan & Hclose & Hgroup & ->)
    %find_optimal_periods_Ok.
  cbv zeta.
  destruct (scan_hours_samples _ _ _ _ _ _ Hscan) as (Hrows & _).
  destruct (overall_output _ _ _ _ _ _ _ Hscan Hclose)
    as (ivs & Htext & _ & Hcov).
  simpl in Hrows, Hcov.
  remember (hourly_samples weather_data aqi_data inputs) as rows eqn:Hdef.
  clear Hdef. rewrite Hrows in Hgroup. clear Hrows Hscan Hclose.
  intros Hg0 Hg1 (r1 & Hr1 & Hnew). simpl.
  assert (∃ r0, rows !! m = Some r0 ∧ row_is_good r0 = true)
    as (r0 & Hr0 & Hgood0).
  { unfold good_at in Hg0. destruct (rows !! m) as [r0|]; [|discriminate].
    injection Hg0 as Hg0. eauto. }
  assert (Hgood1 : row_is_good r1 = true).
  { unfold good_at in Hg1. rewrite Hr1 in Hg1. by injection Hg1. }
  (* the scan by day, cut before hour [m + 1] *)
  unfold group_by_day in Hgroup.
  destruct rows as [|first rest]; [done|].
  remember (first :: rest) as rows eqn:Hrows'.
  apply bind_Ok in Hgroup as (st_end & Hloop & Hend).
  rewrite <- (take_drop (S m) rows) in Hloop.
  rewrite (drop_S rows r1 (S m) Hr1) in Hloop.
  rewrite daily_loop_app in Hloop.
  apply bind_Ok in Hloop as (stA & HloopA & Hloop). simpl in Hloop.
  apply bind_Ok in Hloop as (stC & Hstep & HloopC).
  set (pre := take (S m) rows) in *.
  assert (Hlen : (S m < length rows)%nat) by (by eapply lookup_lt_Some).
  assert (Hhead : head pre = Some first) by (unfold pre; by rewrite Hrows').
  assert (Hlast : last pre = Some r0).
  { rewrite last_lookup. unfold pre. rewrite length_take_le by lia.
    change (pred (S m)) with m. rewrite lookup_take_lt by lia. done. }
  destruct (daily_scan first pre stA (or_intror Hhead) HloopA)
    as (HwfA & HdomA & HlastA & _ & _ & HnoneA).
  destruct (HlastA r0 Hlast) as [HlA Hchart0].
  assert (∃ s, daily_start_dt stA = Some s) as [s Hs].
  { destruct (daily_start_dt stA) as [s|] eqn:Hs; [eauto|exfalso].
    specialize (HnoneA eq_refl m).
    unfold pre in HnoneA. rewrite length_take_le in HnoneA by lia.
    specialize (HnoneA eq_refl). unfold good_at in HnoneA.
    rewrite lookup_take_lt in HnoneA by lia. rewrite Hr0 in HnoneA.
    simpl in HnoneA. congruence. }
  assert (HnewA : day_label r1 ∉ dom (daily_chart_data_map stA)).
  { rewrite HdomA. intros [Hf%elem_of_singleton|Hin%elem_of_list_to_set]
      %elem_of_union; [|done].
    apply Hnew. rewrite Hf. apply list_elem_of_fmap. exists first.
    split; [done|]. fold pre. destruct pre; [done|]. injection Hhead as ->.
    apply list_elem_of_here. }
  destruct (daily_step_spec stA r1 stC HwfA Hstep)
    as (HwfC & HlastC & HcurC & _ & HchartC & HstartC & HivsC).
  rewrite decide_False in HcurC by done.
  rewrite decide_False in HstartC by done. rewrite Hgood1 in HstartC.
  destruct (daily_loop_persist _ _ _ HwfC HloopC) as (Hwf_end & Hpc & Hpi).
  destruct (close_daily_spec _ _ Hwf_end Hend) as [Hchart_d Hivs_d].
  destruct (open_interval_closed _ _ _ _ _ HwfC HstartC
              ltac:(by rewrite HlastC) HloopC Hend) as [e He].
  rewrite HcurC in He.
  exists r0, r1, (current_day_str stA), s, e.
  split; [done|]. split; [done|]. split.
  { intros Heq. apply HnewA. rewrite <- Heq. by destruct HwfA. }
  split; [rewrite Hchart_d; apply Hpc, HchartC; by left|].
  split.
  { apply Hivs_d. left. apply Hpi, HivsC. right. exists s. auto. }
  split; [rewrite Hchart_d; apply Hpc, HchartC; right; by rewrite HcurC|].
  split; [done|].
  (* the overall scan *)
  destruct (Hcov (S m) Hg1) as (iv & i & j & Hiv & Hspan & Hij).
  exists iv, i, j. split.
  { rewrite Htext. apply list_elem_of_fmap. by exists iv. }
  split; [done|]. split; [|lia].
  destruct (decide (i = S m)) as [->|]; [|lia].
  destruct Hspan as ((_ & Hleft & _) & _).
  specialize (Hleft m eq_refl). congruence.
Qed.

End ProducedIntervals.

(** ** The interval that is open when the scan ends *)

Section LastInterval.
Context {host : Platform}.
Import Humidity HumidityFacts.
Implicit Types (r : hourly_row) (rows : list hourly_row).

Lemma good_at_last rows r :
  last rows = Some r →
  good_at rows (pred (length rows)) = Some (row_is_good r).
Proof. unfold good_at. rewrite last_lookup. by intros ->. Qed.

(** When the last hour is admissible, the two scans close their open
    interval at different instants: the scan by day one hour after the
    localized last timestamp, the overall scan one hour after the last
    timestamp as [astimezone] converts it from the clock of the host. *)
Lemma open_run_closing_instants weather_data aqi_data inputs res r_last :
  find_optimal_periods weather_data aqi_data inputs = Ok res →
  last (hourly_samples weather_data aqi_data inputs) = Some r_last →
  row_is_good r_last = true →
  ∃ wd wh times last_str n tz,
    weather_data = Some wd ∧ hourly wd = Some wh
    ∧ hourly_time wh = Some times ∧ tz = resolve_timezone wd
    ∧ last times = Some last_str ∧ fromisoformat last_str = Some n
    ∧ row_dt r_last = localize tz n
    ∧ (∃ day start_dt,
         in_bucket (daily_chart_data res) day r_last
         ∧ in_bucket (daily_good_intervals res) day
             (start_dt, add_hours (localize tz n) 1))
    ∧ (∃ earlier start_time,
         periods res
         = earlier ++ [format_period start_time
                         (add_hours (astimezone n tz) 1)]).
Proof.
  intros (times & tz & hs & overall & d & Hscan & Hclose & Hgroup & ->)
    %find_optimal_periods_Ok.
  destruct (scan_hours_samples _ _ _ _ _ _ Hscan)
    as (Hrows & Hhs & Hlen & Hstamps).
  simpl in Hrows, Hhs, Hlen, Hstamps.
  remember (hourly_samples weather_data aqi_data inputs) as rows eqn:Hdef.
  clear Hdef. intros Hlast Hgood.
  pose proof (good_at_last rows r_last Hlast) as Hg. rewrite Hgood in Hg.
  assert (Hne : (0 < length rows)%nat).
  { destruct rows; [discriminate|simpl; lia]. }
  apply scan_hours_Ok in Hscan
    as (wd & wh & temps & dews & -> & Hwh & Ht & _ & _ & -> & _).
  (* the overall scan *)
  destruct (overall_scan rows) as (_ & ivs & _ & _ & _ & Hnone & _).
  simpl in Hnone. rewrite <- Hhs in Hnone.
  apply close_overall_Ok in Hclose
    as [[Hs _]|(s & last_str & n & Hs & Hl & Hn & ->)].
  { specialize (Hnone Hs (pred (length rows))).
    rewrite Hnone in Hg by lia. discriminate. }
  rewrite last_lookup in Hl.
  destruct (Hstamps _ _ Hl) as (row & n' & Hrow & Hn' & Hdt).
  rewrite Hn in Hn'. injection Hn' as <-.
  rewrite <- Hlen, <- last_lookup, Hlast in Hrow. injection Hrow as <-.
  exists wd, wh, times, last_str, n, (resolve_timezone wd).
  do 4 (split; [done|]). split; [by rewrite last_lookup|].
  split; [done|]. split; [done|]. split; [|eauto].
  (* the scan by day *)
  rewrite Hrows in Hgroup. unfold group_by_day in Hgroup.
  destruct rows as [|first rest]; [done|].
  remember (first :: rest) as rows eqn:Hrows'.
  apply bind_Ok in Hgroup as (st & Hloop & Hend).
  destruct (daily_scan first rows st) as (Hwf & _ & Hl' & _ & _ & HnoneD);
    [right; by rewrite Hrows'|done|].
  destruct (Hl' r_last Hlast) as [Hlast_dt Hchart].
  destruct (close_daily_spec st d Hwf Hend) as [Hchart_d Hivs_d].
  destruct (daily_start_dt st) as [s'|] eqn:Hs'.
  - exists (current_day_str st), s'. simpl. rewrite Hchart_d.
    split; [done|]. apply Hivs_d. right. exists s', (row_dt r_last).
    rewrite Hdt in *. auto.
  - specialize (HnoneD eq_refl (pred (length rows))).
    rewrite HnoneD in Hg by lia. discriminate.
Qed.

(** *** When a result is returned *)

(** The exceptions that the hours can raise are ruled out by a payload
    whose arrays cover the axis, whose timestamps parse, whose dew points
    are off the pole of the Magnus formula and whose probabilities are not
    [null]; the reference temperature must be off the pole too. *)
Lemma find_optimal_periods_returns wd wh times temps_f dew_points_f
    aqi_data inputs :
  hourly wd = Some wh → hourly_time wh = Some times →
  temperature_2m wh = Some temps_f → dew_point_2m wh = Some dew_points_f →
  (length times ≤ length temps_f)%nat →
  (length times ≤ length dew_points_f)%nat →
  (∀ precip_mm, precipitation wh = Some precip_mm →
     (length times ≤ length precip_mm)%nat) →
  (∀ s, s ∈ times → is_Some (fromisoformat s)) →
  IZR (indoor_ref_temp inputs) ≠ (-405.616)%R →
  (∀ d, Some d ∈ dew_points_f → d ≠ (-405.616)%R) →
  (∀ pps, precipitation_probability wh = Some pps → None ∉ pps) →
  ∃ res, find_optimal_periods (Some wd) aqi_data inputs = Ok res.
Proof.
  intros Hwh Ht Htemps Hdews Hl1 Hl2 Hl3 Hparse Href Hpole Hpps.
  set (precip_mm := default (replicate (length times) (Some 0%R))
                      (precipitation wh)).
  set (precip_prob := default (replicate (length times) (Some 0%R))
                        (precipitation_probability wh)).
  assert (Hl3' : (length times ≤ length precip_mm)%nat).
  { unfold precip_mm. destruct (precipitation wh) as [l|]; simpl; [auto|].
    by rewrite length_replicate. }
  assert (Hpp : ∀ k, is_Some (match precip_prob !! k with
                              | Some v => v
                              | None => Some 0%R
                              end)).
  { intros k. destruct (precip_prob !! k) as [[v|]|] eqn:Hk; [eauto| |eauto].
    exfalso. unfold precip_prob in Hk.
    destruct (precipitation_probability wh) as [pps|]; simpl in Hk.
    - apply (Hpps pps eq_refl). apply list_elem_of_lookup. eauto.
    - apply lookup_replicate in Hk as [? _]. discriminate. }
  assert (Hrow : ∀ k s, times !! k = Some s →
            ∃ row, hour_row inputs temps_f dew_points_f precip_mm precip_prob
                     (aqi_table aqi_data).1 (aqi_table aqi_data).2
                     (resolve_timezone wd)
                     (ftoc (Some (IZR (indoor_ref_temp inputs)))) k s
                   = Ok row).
  { intros k s Hs. pose proof (lookup_lt_Some _ _ _ Hs) as Hk.
    destruct (lookup_lt_is_Some_2 temps_f k ltac:(lia)) as [t Hkt].
    destruct (lookup_lt_is_Some_2 dew_points_f k ltac:(lia)) as [d Hkd].
    destruct (lookup_lt_is_Some_2 precip_mm k ltac:(lia)) as [p Hkp].
    destruct (Hparse s) as [n Hn]; [apply list_elem_of_lookup; eauto|].
    destruct (Hpp k) as [q Hq].
    assert (∃ c, evaluate_hour inputs (aqi_table aqi_data).1
                   (ftoc (Some (IZR (indoor_ref_temp inputs)))) t d p
                   (match precip_prob !! k with
                    | Some v => v
                    | None => Some 0%R
                    end) (dict_get (aqi_table aqi_data).2 s) = Ok c)
      as [c Hc].
    { rewrite Hq. destruct t as [t|], d as [d|], p as [p|];
        try (rewrite evaluate_hour_no_primary by auto; eauto).
      unfold evaluate_hour, ftoc. rewrite calculate_rh_Some.
      - simpl. eauto.
      - intros Hb%ftoc_pole. done.
      - intros Hb%ftoc_pole. apply (Hpole d); [|done].
        apply list_elem_of_lookup. eauto. }
    eexists. apply hour_row_Ok. exists t, d, p, n, c. auto 10. }
  assert (∃ hs, scan_hours (Some wd) aqi_data inputs
                = Ok (times, resolve_timezone wd, hs)) as [hs Hscan].
  { assert (∀ (l : list string) i st,
              (∀ k s, l !! k = Some s → times !! (i + k)%nat = Some s) →
              ∃ hs, hour_loop inputs temps_f dew_points_f precip_mm
                      precip_prob (aqi_table aqi_data).1
                      (aqi_table aqi_data).2 (resolve_timezone wd)
                      (ftoc (Some (IZR (indoor_ref_temp inputs)))) i l st
                    = Ok hs) as Hloop.
    { induction l as [|s l IH]; intros i st Hl; [simpl; eauto|].
      cbn [hour_loop]. destruct (Hrow i s) as [row ->].
      - rewrite <- (Nat.add_0_r i). by apply Hl.
      - simpl. apply IH. intros k s' Hk. rewrite Nat.add_succ_comm.
        by apply Hl. }
    destruct (Hloop times 0%nat
                {| overall_good_periods_text := [];
                   overall_start_time := None;
                   hourly_data_list := [] |}) as [hs Hhs]; [done|].
    exists hs. apply scan_hours_Ok. exists wd, wh, temps_f, dew_points_f.
    auto 10. }
  destruct (scan_hours_samples _ _ _ _ _ _ Hscan)
    as (Hrows & Hhs & Hlen & Hstamps).
  assert (∃ overall, close_overall times (resolve_timezone wd) hs
                     = Ok overall) as [overall Hclose].
  { unfold close_overall. destruct (overall_start_time hs) as [s|] eqn:Hs;
      [|eauto].
    destruct (last times) as [last_str|] eqn:Hlast.
    - simpl. rewrite last_lookup in Hlast.
      destruct (Hstamps _ _ Hlast) as (_ & n & _ & -> & _). simpl. eauto.
    - apply last_None in Hlast. subst times. simpl in Hlen.
      apply nil_length_inv in Hlen. simpl in Hhs. rewrite Hlen in Hhs.
      subst hs. discriminate. }
  destruct (group_by_day_total (hourly_data_list hs)) as [d Hgroup].
  eexists. apply find_optimal_periods_Ok.
  exists times, (resolve_timezone wd), hs, overall, d. auto.
Qed.

End LastInterval.

(** ** The run around midnight, interval by interval *)

Section MidnightIntervals.
Import Humidity HumidityFacts Host Examples.
#[local] Existing Instance utc_host.

(** C2, as stated, fails: the interval of Monday's bucket ends at the stamp
    of the hour of Tuesday 00:00, and that hour is admissible. *)
Lemma day_interval_ends_on_admissible_hour :
  ∃ res row,
    find_optimal_periods (Some midnight_weather) None default_inputs = Ok res
    ∧ in_bucket (daily_good_intervals res) "Mon 2024-01-01" (mon_23, tue_00)
    ∧ hourly_samples (Some midnight_weather) None default_inputs !! 1%nat
      = Some row
    ∧ row_dt row = tue_00
    ∧ row_is_good row = true.
Proof.
  exists midnight_result, (mild_row 1704153600 true None).
  split; [exact midnight_run|]. split.
  - exists [(mon_23, tue_00)]. split; [reflexivity|]. apply list_elem_of_here.
  - split; [rewrite midnight_samples; reflexivity|]. split; reflexivity.
Qed.

Lemma midnight_chronological :
  chronological (hourly_samples (Some midnight_weather) None default_inputs).
Proof.
  rewrite midnight_samples. intros i j ri rj Hij Hi Hj.
  destruct j as [|[|j]]; [lia| |discriminate].
  destruct i as [|i]; [|lia].
  injection Hi as <-. injection Hj as <-. vm_compute. reflexivity.
Qed.

(** The intervals of the run around midnight are runs, and the hours
    stamped inside Monday's interval are admissible. *)
Lemma intervals_are_runs_witness :
  find_optimal_periods (Some midnight_weather) None default_inputs
  = Ok midnight_result
  ∧ chronological (hourly_samples (Some midnight_weather) None default_inputs)
  ∧ daily_interval
      (hourly_samples (Some midnight_weather) None default_inputs)
      (mon_23, tue_00)
  ∧ good_inside
      (hourly_samples (Some midnight_weather) None default_inputs)
      (mon_23, tue_00).
Proof.
  split; [exact midnight_run|]. split; [exact midnight_chronological|].
  destruct (intervals_are_runs (Some midnight_weather) None default_inputs
              midnight_result midnight_run) as (_ & Hdaily & Hinside).
  assert (Hiv : daily_interval
                  (hourly_samples (Some midnight_weather) None default_inputs)
                  (mon_23, tue_00)).
  { apply (Hdaily "Mon 2024-01-01"%string).
    exists [(mon_23, tue_00)]. split; [reflexivity|].
    apply list_elem_of_here. }
  split; [exact Hiv|].
  apply (Hinside midnight_chronological). right. exact Hiv.
Defined.

Lemma tuesday_opens_a_day :
  opens_day (hourly_samples (Some midnight_weather) None default_inputs) 1.
Proof.
  rewrite midnight_samples. eexists. split; [reflexivity|].
  vm_compute. intros Hin. apply elem_of_cons in Hin as [Heq|Hin].
  - discriminate.
  - by apply elem_of_nil in Hin.
Qed.

(** The split on the run around midnight. *)
Lemma run_across_midnight_is_split_midnight :
  find_optimal_periods (Some midnight_weather) None default_inputs
  = Ok midnight_result
  ∧ good_at (hourly_samples (Some midnight_weather) None default_inputs) 0
    = Some true
  ∧ good_at (hourly_samples (Some midnight_weather) None default_inputs) 1
    = Some true
  ∧ opens_day (hourly_samples (Some midnight_weather) None default_inputs) 1
  ∧ ∃ r1 day0 s e,
      hourly_samples (Some midnight_weather) None default_inputs !! 1%nat
      = Some r1
      ∧ in_bucket (daily_good_intervals midnight_result) day0 (s, row_dt r1)
      ∧ in_bucket (daily_good_intervals midnight_result) (day_label r1)
          (row_dt r1, e).
Proof.
  assert (H0 : good_at (hourly_samples (Some midnight_weather) None
                          default_inputs) 0 = Some true)
    by (rewrite midnight_samples; reflexivity).
  assert (H1 : good_at (hourly_samples (Some midnight_weather) None
                          default_inputs) 1 = Some true)
    by (rewrite midnight_samples; reflexivity).
  split; [exact midnight_run|]. split; [exact H0|]. split; [exact H1|].
  split; [exact tuesday_opens_a_day|].
  destruct (run_across_midnight_is_split (Some midnight_weather) None
              default_inputs midnight_result 0 midnight_run H0 H1
              tuesday_opens_a_day)
    as (r0 & r1 & day0 & s & e & _ & Hr1 & _ & _ & Hold & _ & Hnew & _).
  exists r1, day0, s, e. auto.
Qed.

(** C3 (day-boundary split): the run around midnight is two admissible
    hours, Monday 23:00 and Tuesday 00:00 in New York, the second the
    first hour of its local date.  The day buckets hold what the claim
    says: Monday's one interval from 23:00 to 00:00, Tuesday's one
    interval from 00:00 to 01:00.  The overall output holds one period,
    but not the one that covers the run, from Monday 23:00 to Tuesday
    01:00: its end is computed by [astimezone] on the host's clock (UTC
    here) and lies before its start. *)
Theorem midnight_run_overall_period_ends_early :
  find_optimal_periods (Some midnight_weather) None default_inputs
  = Ok midnight_result
  ∧ hourly_samples (Some midnight_weather) None default_inputs
    = [mild_row 1704150000 true None; mild_row 1704153600 true None]
  ∧ row_dt (mild_row 1704150000 true None) = mon_23
  ∧ row_dt (mild_row 1704153600 true None) = tue_00
  ∧ opens_day (hourly_samples (Some midnight_weather) None default_inputs) 1
  ∧ daily_good_intervals midnight_result !! "Mon 2024-01-01"
    = Some [(mon_23, tue_00)]
  ∧ daily_good_intervals midnight_result !! "Tue 2024-01-02"
    = Some [(tue_00, tue_01)]
  ∧ periods midnight_result
    = [format_period mon_23
         (add_hours (astimezone 1704153600 eastern_standard) 1)]
  ∧ periods midnight_result = [("Mon 11:00 PM", "08:00 PM")]
  ∧ (instant (add_hours (astimezone 1704153600 eastern_standard) 1)
     < instant mon_23)%Z
  ∧ format_period mon_23 tue_01 = ("Mon 11:00 PM", "Tue 01:00 AM")
  ∧ format_period mon_23 tue_01 ∉ periods midnight_result.
Proof.
  split; [exact midnight_run|].
  split; [exact midnight_samples|].
  split; [reflexivity|]. split; [reflexivity|].
  split; [exact tuesday_opens_a_day|].
  split; [reflexivity|]. split; [reflexivity|].
  split; [reflexivity|]. split; [reflexivity|].
  split; [reflexivity|]. split; [reflexivity|].
  intros Hin. apply list_elem_of_singleton in Hin. discriminate Hin.
Qed.

(** C7 (end of the last interval): the run around midnight ends on an
    admissible hour, localized as Tuesday 00:00 in New York.  The last
    interval of the last day bucket ends one hour later, at 01:00.  The
    period of the overall output does not: its end is computed by
    [astimezone] from the naive timestamp, which reads it on the clock of
    the host (UTC here) and converts it to New York, so the period ends at
    Monday 08:00 PM, before it starts. *)
Theorem overall_end_read_on_host_clock :
  find_optimal_periods (Some midnight_weather) None default_inputs
  = Ok midnight_result
  ∧ last (hourly_samples (Some midnight_weather) None default_inputs)
    = Some (mild_row 1704153600 true None)
  ∧ row_dt (mild_row 1704153600 true None) = tue_00
  ∧ fromisoformat "2024-01-02T00:00" = Some 1704153600%Z
  ∧ localize eastern_standard 1704153600 = tue_00
  ∧ add_hours tue_00 1 = tue_01
  ∧ daily_good_intervals midnight_result !! "Tue 2024-01-02"
    = Some [(tue_00, tue_01)]
  ∧ periods midnight_result = [("Mon 11:00 PM", "08:00 PM")]
  ∧ format_period mon_23 (add_hours (astimezone 1704153600 eastern_standard) 1)
    = ("Mon 11:00 PM", "08:00 PM")
  ∧ format_period mon_23 tue_01 = ("Mon 11:00 PM", "Tue 01:00 AM").
Proof.
  split; [exact midnight_run|].
  split; [rewrite midnight_samples; reflexivity|].
  split; [reflexivity|]. split; [exact parse_tue_00|].
  repeat split; reflexivity.
Qed.

End MidnightIntervals.

(** * Further properties of the code *)

(** ** Temperature conversion and relative humidity *)

Section HumidityCurve.
Import Humidity HumidityFacts.
Local Open Scope R_scope.

Lemma magnus_exponent_strict (d1 d2 : R) :
  0 < b + d1 → d1 < d2 → a * d1 / (b + d1) < a * d2 / (b + d2).
Proof.
  intros H1 H12. assert (H2 : 0 < b + d2) by lra.
  apply Rmult_lt_reg_r with (r := (b + d1) * (b + d2)); [nra|].
  replace (a * d1 / (b + d1) * ((b + d1) * (b + d2)))
    with (a * d1 * (b + d2)) by (field; lra).
  replace (a * d2 / (b + d2) * ((b + d1) * (b + d2)))
    with (a * d2 * (b + d1)) by (field; lra).
  unfold a, b in *. nra.
Qed.

(** The ratio of the two vapour pressures reaches 100 percent exactly when
    the dew point reaches the temperature. *)
Lemma pressure_ratio (t d : R) :
  0 < b + t → 0 < b + d →
  let x := 6.112 * exp (a * d / (b + d)) / (6.112 * exp (a * t / (b + t)))
           * 100 in
  0 < x ∧ (100 <= x ↔ t <= d).
Proof.
  intros Ht Hd x.
  set (fd := a * d / (b + d)) in *. set (ft := a * t / (b + t)) in *.
  pose proof (exp_pos fd) as Hed. pose proof (exp_pos ft) as Het.
  assert (Hx : x * exp ft = 100 * exp fd) by (unfold x; field; lra).
  split; [nra|]. split.
  - intros Hle. destruct (Rle_dec t d) as [|Hn]; [done|]. exfalso.
    assert (Hlt : fd < ft) by (apply magnus_exponent_strict; lra).
    apply exp_increasing in Hlt. nra.
  - intros Hle. assert (Hf : ft <= fd) by (by apply magnus_exponent_mono).
    apply exp_le in Hf. nra.
Qed.

(** In exact arithmetic, for a temperature and a dew point from -200 C
    up, well to the right of the pole of the Magnus formula (-243.12 C),
    the function returns a positive number, and it returns 100 exactly
    when the dew point is at or above the temperature. *)
Lemma calculate_rh_exact_saturated (t d : R) :
  -200 <= t → -200 <= d →
  ∃ rh, calculate_rh (Some t) (Some d) = Ok (Some rh)
        ∧ 0 < rh <= 100
        ∧ (rh = 100 ↔ t <= d).
Proof.
  intros Ht Hd.
  assert (Ht' : 0 < b + t) by (unfold b; lra).
  assert (Hd' : 0 < b + d) by (unfold b; lra).
  eexists. split; [apply calculate_rh_Some; lra|].
  destruct (pressure_ratio t d Ht' Hd') as [Hpos Hsat].
  set (x := 6.112 * exp (a * d / (b + d)) / (6.112 * exp (a * t / (b + t)))
            * 100) in *.
  rewrite (Rmax_left x 0) by lra.
  destruct (Rle_dec 100 x) as [Hx|Hx].
  - rewrite Rmin_right by done. split; [lra|]. split; [tauto|done].
  - rewrite Rmin_left by lra. split; [lra|]. split; [lra|tauto].
Qed.

(** X1.  In rounded arithmetic, for a temperature and a dew point between
    -100 C and 100 C: a dew point at least a thousandth of a degree above
    the temperature gives exactly 100, the upper clamp; a dew point at
    least a thousandth of a degree below it gives a number strictly
    between 0 and 100. *)
Theorem calculate_rh_saturated (rnd fexp : R → R) (t d : R) :
  Rounded.accurate rnd fexp →
  -100 <= t <= 100 → -100 <= d <= 100 →
  (t + 0.001 <= d →
   Rounded.calculate_rh rnd fexp (Some t) (Some d) = Ok (Some 100))
  ∧ (d + 0.001 <= t →
     ∃ rh, Rounded.calculate_rh rnd fexp (Some t) (Some d) = Ok (Some rh)
           ∧ 0 < rh < 100).
Proof.
  intros arith Ht Hd. split; intros Hgap.
  - apply (RoundedFacts.calculate_rh_rounded_above rnd fexp arith); lra.
  - apply (RoundedFacts.calculate_rh_rounded_below rnd fexp arith); lra.
Qed.

Lemma calculate_rh_saturated_witness :
  Rounded.accurate (λ x, x) exp
  ∧ Rounded.calculate_rh (λ x, x) exp (Some 20) (Some 25) = Ok (Some 100)
  ∧ ∃ rh, Rounded.calculate_rh (λ x, x) exp (Some 25) (Some 20)
          = Ok (Some rh)
          ∧ 0 < rh < 100.
Proof.
  split; [exact RoundedFacts.exact_accurate|]. split.
  - apply (calculate_rh_saturated (λ x, x) exp 20 25
             RoundedFacts.exact_accurate); lra.
  - apply (calculate_rh_saturated (λ x, x) exp 25 20
             RoundedFacts.exact_accurate); lra.
Defined.

End HumidityCurve.

(** ** The AQI table *)

Section AqiJoin.

Lemma fill_aqi_absent (ts : list string) (vs : list (option R))
    (d : gmap string (option R)) (k : string) :
  k ∉ ts → fill_aqi ts vs d !! k = d !! k.
Proof.
  revert vs d. induction ts as [|t ts IH]; intros vs d Hk; [done|].
  destruct vs as [|v vs]; [done|]. simpl.
  apply not_elem_of_cons in Hk as [Hne Hk].
  rewrite IH by done. by rewrite lookup_insert_ne.
Qed.

Lemma fill_aqi_last (ts : list string) (vs : list (option R))
    (d : gmap string (option R)) (k : string) (i : nat) :
  length ts = length vs → ts !! i = Some k →
  (∀ j, (i < j)%nat → ts !! j ≠ Some k) →
  fill_aqi ts vs d !! k = vs !! i.
Proof.
  revert vs d i. induction ts as [|t ts IH]; intros vs d i Hlen Hi Hlast;
    [done|].
  destruct vs as [|v vs]; [done|]. simpl in Hlen.
  destruct i as [|i]; simpl in *.
  - injection Hi as ->. rewrite fill_aqi_absent.
    + by rewrite lookup_insert_eq.
    + intros Hin. apply list_elem_of_lookup in Hin as [j Hj].
      apply (Hlast (S j)); [lia|done].
  - apply IH; [lia|done|].
    intros j Hij. apply (Hlast (S j)). lia.
Qed.

(** X2.  When the AQI payload is usable (both arrays present, of equal
    length), the value joined to an hour is looked up by the text of its
    timestamp: a timestamp that the payload does not list has no AQI, and
    for a timestamp listed more than once the value at its last position
    wins, a [null] there reading as no AQI. *)
Theorem aqi_join_by_timestamp (ad : AqiData) (ah : AqiHourly)
    (ts : list string) (vs : list (option R)) :
  aq_hourly ad = Some ah → aq_time ah = Some ts → us_aqi ah = Some vs →
  length ts = length vs →
  (aqi_table (Some ad)).1 = true
  ∧ (∀ k, k ∉ ts → dict_get (aqi_table (Some ad)).2 k = None)
  ∧ (∀ k i v, ts !! i = Some k → (∀ j, (i < j)%nat → ts !! j ≠ Some k) →
       vs !! i = Some v → dict_get (aqi_table (Some ad)).2 k = v).
Proof.
  intros Hh Ht Hv Hlen. unfold aqi_table. rewrite Hh, Ht, Hv.
  rewrite decide_True by done. simpl. split; [done|]. split.
  - intros k Hk. unfold dict_get. by rewrite fill_aqi_absent.
  - intros k i v Hi Hlast Hvi. unfold dict_get.
    by rewrite (fill_aqi_last ts vs ∅ k i), Hvi.
Qed.

Lemma aqi_join_by_timestamp_witness :
  dict_get (aqi_table (Some Examples.smog)).2 "2024-01-02T00:00"
  = Some 180%R
  ∧ dict_get (aqi_table (Some Examples.smog)).2 "2024-01-02T01:00" = None.
Proof.
  destruct (aqi_join_by_timestamp Examples.smog
              {| aq_time := Some Examples.midnight_times;
                 us_aqi := Some [Some 180%R; Some 180%R] |}
              Examples.midnight_times [Some 180%R; Some 180%R]
              eq_refl eq_refl eq_refl eq_refl) as (_ & Habsent & Hlast).
  split.
  - apply (Hlast "2024-01-02T00:00" 1%nat (Some 180%R)); [done| |done].
    intros [|[|[|j]]] Hj; try lia; done.
  - apply Habsent. intros Hin.
    apply elem_of_cons in Hin as [Heq|Hin]; [discriminate|].
    apply elem_of_cons in Hin as [Heq|Hin]; [discriminate|].
    by apply elem_of_nil in Hin.
Defined.

End AqiJoin.

(** ** Chart identifiers and the validation of the thresholds *)

Section Identifiers.

Lemma replace_char_elem (a b c : ascii) (s : string) :
  c ∈ list_ascii_of_string (replace_char a b s) →
  c = b ∨ (c ≠ a ∧ c ∈ list_ascii_of_string s).
Proof.
  induction s as [|x s IH]; simpl; [by intros ?%elem_of_nil|].
  intros [->|Hin]%elem_of_cons.
  - destruct (Ascii.eqb_spec x a) as [->|Hne]; [by left|].
    right. split; [done|]. apply elem_of_cons. by left.
  - destruct (IH Hin) as [->|[Hne Hc]]; [by left|].
    right. split; [done|]. apply elem_of_cons. by right.
Qed.

Lemma list_ascii_of_string_app (s1 s2 : string) :
  list_ascii_of_string (s1 +:+ s2)
  = list_ascii_of_string s1 ++ list_ascii_of_string s2.
Proof. induction s1 as [|c s1 IH]; simpl; [done|]. by rewrite IH. Qed.

(** X3.  The identifier of a chart has no blank and no slash when its
    prefix has none, whatever the label of the day: the blanks and the
    slashes of the label are all replaced. *)
Theorem chart_id_clean (prefix day_str : string) :
  Forall (λ c, c ≠ " "%char ∧ c ≠ "/"%char) (list_ascii_of_string prefix) →
  Forall (λ c, c ≠ " "%char ∧ c ≠ "/"%char)
         (list_ascii_of_string (chart_id prefix day_str)).
Proof.
  intros Hprefix. unfold chart_id. rewrite list_ascii_of_string_app.
  apply Forall_app. split; [done|].
  apply Forall_forall. intros c Hin.
  apply replace_char_elem in Hin as [->|[Hslash Hin]]; [done|].
  apply replace_char_elem in Hin as [->|[Hblank Hin]]; done.
Qed.

Lemma chart_id_clean_witness :
  chart_id "chart-div-" "Mon 2024/01/01" = "chart-div-Mon-2024-01-01"
  ∧ Forall (λ c, c ≠ " "%char ∧ c ≠ "/"%char)
           (list_ascii_of_string (chart_id "chart-div-" "Mon 2024/01/01")).
Proof.
  split; [reflexivity|].
  apply (chart_id_clean "chart-div-" "Mon 2024/01/01").
  simpl. repeat constructor; discriminate.
Defined.

End Identifiers.

(** ** When [find_optimal_periods] returns *)

Section Returns.
Context {host : Platform}.
Import Humidity HumidityFacts.
Implicit Types (r : hourly_row) (rows : list hourly_row).

Lemma calculate_rh_Ok_inv (x y : R) (rh : option R) :
  calculate_rh (Some x) (Some y) = Ok rh → (b + x ≠ 0 ∧ b + y ≠ 0)%R.
Proof.
  unfold calculate_rh, vapor_pressure.
  destruct (decide (b + x = 0)%R); simpl; [discriminate|].
  destruct (decide (b + y = 0)%R); simpl; [discriminate|]. done.
Qed.

(** The loop over the hours ends when every hour has its row. *)
Lemma hour_loop_total inputs temps_f dew_points_f precip_mm precip_prob
    aq_available aqi_values_dict tz indoor_ref_temp_c
    (times : list string) (st : hour_state) :
  (∀ k s, times !! k = Some s →
     ∃ row, hour_row inputs temps_f dew_points_f precip_mm precip_prob
              aq_available aqi_values_dict tz indoor_ref_temp_c k s
            = Ok row) →
  ∃ hs, hour_loop inputs temps_f dew_points_f precip_mm precip_prob
          aq_available aqi_values_dict tz indoor_ref_temp_c 0 times st
        = Ok hs.
Proof.
  intros Hrow.
  assert (∀ (l : list string) i st,
            (∀ k s, l !! k = Some s → times !! (i + k)%nat = Some s) →
            ∃ hs, hour_loop inputs temps_f dew_points_f precip_mm
                    precip_prob aq_available aqi_values_dict tz
                    indoor_ref_temp_c i l st = Ok hs) as Hloop.
  { induction l as [|s l IH]; intros i st' Hl; [simpl; eauto|].
    cbn [hour_loop]. destruct (Hrow i s) as [row ->].
    - rewrite <- (Nat.add_0_r i). by apply Hl.
    - simpl. apply IH. intros k s' Hk. rewrite Nat.add_succ_comm.
      by apply Hl. }
  by apply Hloop.
Qed.

(** Once the hours are scanned nothing can fail any more. *)
Lemma scan_hours_result weather_data aqi_data inputs times tz hs :
  scan_hours weather_data aqi_data inputs = Ok (times, tz, hs) →
  ∃ res, find_optimal_periods weather_data aqi_data inputs = Ok res.
Proof.
  intros Hscan.
  destruct (scan_hours_samples _ _ _ _ _ _ Hscan)
    as (Hrows & Hhs & Hlen & Hstamps).
  assert (∃ overall, close_overall times tz hs = Ok overall)
    as [overall Hclose].
  { unfold close_overall. destruct (overall_start_time hs) as [s|] eqn:Hs;
      [|eauto].
    destruct (last times) as [last_str|] eqn:Hlast.
    - simpl. rewrite last_lookup in Hlast.
      destruct (Hstamps _ _ Hlast) as (_ & n & _ & -> & _). simpl. eauto.
    - apply last_None in Hlast. subst times. simpl in Hlen.
      apply nil_length_inv in Hlen. simpl in Hhs. rewrite Hlen in Hhs.
      subst hs. discriminate. }
  destruct (group_by_day_total (hourly_data_list hs)) as [d Hgroup].
  eexists. apply find_optimal_periods_Ok.
  exists times, tz, hs, overall, d. auto.
Qed.

(** In the model, where the payloads are values of the record types and
    the arithmetic is exact, a well-formed forecast gets a result. *)
Lemma well_formed_returns wd aqi_data inputs :
  well_formed_forecast wd inputs →
  ∃ res, find_optimal_periods (Some wd) aqi_data inputs = Ok res.
Proof.
  intros (wh & times & temps_f & dew_points_f & Hwh & Ht & Htemps & Hdews
          & Hl1 & Hl2 & Hl3 & Hparse & Hhour).
  set (precip_mm := default (replicate (length times) (Some 0%R))
                      (precipitation wh)) in *.
  set (precip_prob := default (replicate (length times) (Some 0%R))
                        (precipitation_probability wh)).
  assert (Hl3' : (length times ≤ length precip_mm)%nat).
  { unfold precip_mm. destruct (precipitation wh) as [l|]; simpl; [auto|].
    by rewrite length_replicate. }
  assert (Hrow : ∀ k s, times !! k = Some s →
            ∃ row, hour_row inputs temps_f dew_points_f precip_mm precip_prob
                     (aqi_table aqi_data).1 (aqi_table aqi_data).2
                     (resolve_timezone wd)
                     (ftoc (Some (IZR (indoor_ref_temp inputs)))) k s
                   = Ok row).
  { intros k s Hs. pose proof (lookup_lt_Some _ _ _ Hs) as Hk.
    destruct (lookup_lt_is_Some_2 temps_f k ltac:(lia)) as [t Hkt].
    destruct (lookup_lt_is_Some_2 dew_points_f k ltac:(lia)) as [d Hkd].
    destruct (lookup_lt_is_Some_2 precip_mm k ltac:(lia)) as [p Hkp].
    destruct (Hparse s) as [n Hn]; [apply list_elem_of_lookup; eauto|].
    assert (∃ c, evaluate_hour inputs (aqi_table aqi_data).1
                   (ftoc (Some (IZR (indoor_ref_temp inputs)))) t d p
                   (match precip_prob !! k with
                    | Some v => v
                    | None => Some 0%R
                    end) (dict_get (aqi_table aqi_data).2 s) = Ok c)
      as [c Hc].
    { destruct t as [t|], d as [d|], p as [p|];
        try (rewrite evaluate_hour_no_primary by auto; eauto).
      destruct (Hhour k t d p Hk Hkt Hkd Hkp) as (Href & Hpole & Hpps).
      assert (∃ q, match precip_prob !! k with
                   | Some v => v
                   | None => Some 0%R
                   end = Some q) as [q ->].
      { destruct (precip_prob !! k) as [[v|]|] eqn:Hq; [eauto| |eauto].
        exfalso. unfold precip_prob in Hq.
        destruct (precipitation_probability wh) as [pps|]; simpl in Hq.
        - by apply (Hpps pps eq_refl).
        - apply lookup_replicate in Hq as [? _]. discriminate. }
      unfold evaluate_hour, ftoc. rewrite calculate_rh_Some.
      - simpl. eauto.
      - by intros Hb%ftoc_pole.
      - by intros Hb%ftoc_pole. }
    eexists. apply hour_row_Ok. exists t, d, p, n, c. auto 10. }
  destruct (hour_loop_total _ _ _ _ _ _ _ _ _ times
              {| overall_good_periods_text := [];
                 overall_start_time := None;
                 hourly_data_list := [] |} Hrow) as [hs Hhs].
  apply (scan_hours_result _ _ _ times (resolve_timezone wd) hs).
  apply scan_hours_Ok. exists wd, wh, temps_f, dew_points_f. auto 10.
Qed.

Lemma returns_well_formed wd aqi_data inputs res :
  find_optimal_periods (Some wd) aqi_data inputs = Ok res →
  well_formed_forecast wd inputs.
Proof.
  intros (times & tz & hs & overall & dd & Hscan & _)%find_optimal_periods_Ok.
  apply scan_hours_Ok in Hscan
    as (wd' & wh & temps_f & dew_points_f & [= <-] & Hwh & Ht & Htemps
        & Hdews & -> & Hloop).
  apply hour_loop_Ok in Hloop as (rows & Hlen & Hrows & _).
  assert (Hrow : ∀ k, (k < length times)%nat →
            ∃ s t d p n c,
              times !! k = Some s ∧ temps_f !! k = Some t
              ∧ dew_points_f !! k = Some d
              ∧ default (replicate (length times) (Some 0%R))
                  (precipitation wh) !! k = Some p
              ∧ fromisoformat s = Some n
              ∧ evaluate_hour inputs (aqi_table aqi_data).1
                  (ftoc (Some (IZR (indoor_ref_temp inputs)))) t d p
                  (match default (replicate (length times) (Some 0%R))
                           (precipitation_probability wh) !! k with
                   | Some v => v
                   | None => Some 0%R
                   end) (dict_get (aqi_table aqi_data).2 s) = Ok c).
  { intros k Hk. destruct (lookup_lt_is_Some_2 times k Hk) as [s Hs].
    destruct (Hrows k s Hs) as (row & _ & Hrow). simpl in Hrow.
    apply hour_row_Ok in Hrow
      as (t & d & p & n & c & Hkt & Hkd & Hkp & Hn & Hc & _).
    exists s, t, d, p, n, c. auto 10. }
  assert (Hcover : ∀ (l : list (option R)),
            (∀ k, (k < length times)%nat → is_Some (l !! k)) →
            (length times ≤ length l)%nat).
  { intros l Hl. destruct (decide (length times ≤ length l)%nat) as [|Hn];
      [done|]. exfalso.
    destruct (Hl (length l)) as [x Hx]; [lia|].
    apply lookup_lt_Some in Hx. lia. }
  exists wh, times, temps_f, dew_points_f.
  do 4 (split; [done|]). split; [|split; [|split; [|split]]].
  - apply Hcover. intros k Hk.
    destruct (Hrow k Hk) as (? & t & ? & ? & ? & ? & _ & Hkt & _). eauto.
  - apply Hcover. intros k Hk.
    destruct (Hrow k Hk) as (? & ? & d & ? & ? & ? & _ & _ & Hkd & _). eauto.
  - intros precip_mm Hp. apply Hcover. intros k Hk.
    destruct (Hrow k Hk) as (? & ? & ? & p & ? & ? & _ & _ & _ & Hkp & _).
    rewrite Hp in Hkp. simpl in Hkp. eauto.
  - intros s [k Hs]%list_elem_of_lookup.
    destruct (Hrow k) as (s' & ? & ? & ? & n & ? & Hs' & _ & _ & _ & Hn & _).
    { by eapply lookup_lt_Some. }
    rewrite Hs in Hs'. injection Hs' as <-. eauto.
  - intros k t d p Hk Hkt Hkd Hkp.
    destruct (Hrow k Hk)
      as (s & t' & d' & p' & n & c & _ & Hkt' & Hkd' & Hkp' & _ & Hc).
    rewrite Hkt in Hkt'. rewrite Hkd in Hkd'.
    rewrite Hkp in Hkp'. injection Hkt' as <-. injection Hkd' as <-.
    injection Hkp' as <-.
    apply evaluate_hour_primary in Hc as (q & Hq & Hrh & _).
    simpl in Hrh. apply calculate_rh_Ok_inv in Hrh as [Hb1 Hb2].
    split; [|split].
    + intros Href. apply Hb1. apply ftoc_pole. exact Href.
    + intros Hd. apply Hb2. apply ftoc_pole. exact Hd.
    + intros pps Hpps Hnull. rewrite Hpps in Hq. simpl in Hq.
      rewrite Hnull in Hq. discriminate.
Qed.

(** X4.  [find_optimal_periods] returns a result only for a well-formed
    forecast: the timestamp axis and the temperature and dew-point arrays
    are present, the arrays read by position cover the axis, every
    timestamp parses and, at the hours that have their primary data, no
    input sits on the pole of the humidity formula and the precipitation
    probability is not [null]. *)
Theorem result_only_if_well_formed (wd : WeatherData)
    (aqi_data : option AqiData) (inputs : WeatherInputs)
    (res : ForecastResult) :
  find_optimal_periods (Some wd) aqi_data inputs = Ok res →
  well_formed_forecast wd inputs.
Proof. apply returns_well_formed. Qed.

(** The number of hours evaluated is the length of the timestamp axis. *)
Lemma samples_length wd wh times aqi_data inputs res :
  find_optimal_periods (Some wd) aqi_data inputs = Ok res →
  hourly wd = Some wh → hourly_time wh = Some times →
  length (hourly_samples (Some wd) aqi_data inputs) = length times.
Proof.
  intros (times' & tz & hs & overall & d & Hscan & _)%find_optimal_periods_Ok
    Hwh Ht.
  destruct (scan_hours_samples _ _ _ _ _ _ Hscan) as (_ & _ & Hlen & _).
  apply scan_hours_Ok in Hscan
    as (wd' & wh' & ? & ? & [= <-] & Hwh' & Ht' & _).
  congruence.
Qed.

(** X5.  When [pytz] does not know the zone that the payload names, every
    hour is localized in UTC: its offset is zero and its instant is its
    wall-clock reading, the timestamp as parsed. *)
Theorem unknown_zone_read_as_utc (wd : WeatherData) (name : string)
    (aqi_data : option AqiData) (inputs : WeatherInputs)
    (k : nat) (row : hourly_row) :
  timezone wd = Some name → pytz_timezone name = None →
  hourly_samples (Some wd) aqi_data inputs !! k = Some row →
  utcoffset (row_dt row) = 0%Z
  ∧ ∃ wh times s,
      hourly wd = Some wh ∧ hourly_time wh = Some times
      ∧ times !! k = Some s
      ∧ fromisoformat s = Some (instant (row_dt row)).
Proof.
  intros Hname Hzone Hrow.
  destruct (sample_evaluated _ _ _ _ _ Hrow)
    as (wd' & wh & times & ? & ? & s & ? & ? & ? & n & ?
        & [= <-] & Hwh & Ht & _ & _ & Hs & _ & _ & _ & Hn & _ & _ & _
        & Hdt & _).
  assert (Htz : resolve_timezone wd = pytz_utc).
  { unfold resolve_timezone. rewrite Hname. simpl. by rewrite Hzone. }
  rewrite Htz in Hdt. rewrite Hdt. simpl. split; [done|].
  exists wh, times, s. unfold instant. simpl.
  rewrite Z.sub_0_r. auto.
Qed.

End Returns.

Section ReturnsExamples.
Import Humidity HumidityFacts Host Examples.
#[local] Existing Instance utc_host.
Local Open Scope R_scope.

Lemma mild_hours_return (zone : option string)
    (probabilities : list (option R)) (inputs : WeatherInputs) :
  None ∉ probabilities → indoor_ref_temp inputs = 69%Z →
  ∃ res, find_optimal_periods
           (Some {| hourly := Some (mild_hours midnight_times probabilities);
                    timezone := zone |}) None inputs = Ok res.
Proof.
  intros Hpps Href.
  apply (find_optimal_periods_returns _
           (mild_hours midnight_times probabilities) midnight_times
           [Some 70%R; Some 70%R] [Some 50%R; Some 50%R]);
    try reflexivity; simpl; try lia.
  - intros precip_mm [= <-]. simpl. lia.
  - intros s [->|[->|[]%elem_of_nil]%elem_of_cons]%elem_of_cons;
      vm_compute; eauto.
  - rewrite Href. lra.
  - intros d [[= ->]|[[= ->]|[]%elem_of_nil]%elem_of_cons]%elem_of_cons; lra.
  - by intros pps [= <-].
Qed.

Lemma result_only_if_well_formed_witness :
  find_optimal_periods (Some midnight_weather) None default_inputs
  = Ok midnight_result
  ∧ well_formed_forecast midnight_weather default_inputs.
Proof.
  split; [exact midnight_run|].
  exact (result_only_if_well_formed midnight_weather None default_inputs
           midnight_result midnight_run).
Defined.

Lemma olympus_mons_unknown : pytz_timezone "Mars/Olympus_Mons" = None.
Proof.
  simpl. unfold zone_table.
  rewrite decide_False by discriminate. by rewrite decide_False.
Qed.

Lemma unknown_zone_read_as_utc_witness :
  ∃ row, hourly_samples (Some unknown_zone_weather) None default_inputs
         !! 0%nat = Some row
         ∧ utcoffset (row_dt row) = 0%Z.
Proof.
  destruct (mild_hours_return (Some "Mars/Olympus_Mons") [] default_inputs)
    as [res Hres]; [apply not_elem_of_nil|reflexivity|].
  pose proof (samples_length unknown_zone_weather _ midnight_times None
                default_inputs res Hres eq_refl eq_refl) as Hlen.
  destruct (lookup_lt_is_Some_2
              (hourly_samples (Some unknown_zone_weather) None default_inputs)
              0%nat) as [row Hrow]; [rewrite Hlen; simpl; lia|].
  exists row. split; [exact Hrow|].
  apply (unknown_zone_read_as_utc unknown_zone_weather "Mars/Olympus_Mons"
           None default_inputs 0%nat row eq_refl olympus_mons_unknown Hrow).
Defined.

End ReturnsExamples.

(** ** The day buckets of the result *)

Section DayBuckets.
Context {host : Platform}.
Implicit Types (st : daily_state) (r : hourly_row) (rows pre : list hourly_row).

(** The per-day part of a result is the grouping of the evaluated hours. *)
Lemma result_days weather_data aqi_data inputs res :
  find_optimal_periods weather_data aqi_data inputs = Ok res →
  ∃ d, group_by_day (hourly_samples weather_data aqi_data inputs) = Ok d
       ∧ daily_chart_data res = daily_chart_data_map d
       ∧ daily_good_intervals res = daily_good_intervals_map d
       ∧ daily_good_periods_text res = daily_good_periods_text_map d.
Proof.
  intros (times & tz & hs & overall & d & Hscan & _ & Hgroup & ->)
    %find_optimal_periods_Ok.
  destruct (scan_hours_samples _ _ _ _ _ _ Hscan) as (Hrows & _).
  rewrite Hrows in Hgroup. exists d. done.
Qed.

Lemma close_daily_wf st d :
  daily_wf st → close_daily st = Ok d →
  daily_wf d ∧ daily_chart_data_map d = daily_chart_data_map st.
Proof.
  intros (Hcur & Hivs & Htxt). unfold close_daily.
  destruct (daily_start_dt st) as [s|]; [|by intros [= <-]].
  destruct (last_dt_local st) as [l|]; [|by intros [= <-]].
  intros (ivs & Hi & (txt & Ht & [= <-])%bind_Ok)%bind_Ok.
  apply dict_append_dom in Hi as [Hi _].
  apply dict_append_dom in Ht as [Ht _].
  split; [|done]. split; [done|]. simpl. split; congruence.
Qed.

(** The rows listed in the buckets are the rows scanned, beside those
    listed before. *)
Lemma daily_loop_chart pre st0 st :
  daily_wf st0 → daily_loop pre st0 = Ok st →
  (∀ k y, in_bucket (daily_chart_data_map st) k y →
          in_bucket (daily_chart_data_map st0) k y ∨ y ∈ pre)
  ∧ (∀ y, y ∈ pre → ∃ k, in_bucket (daily_chart_data_map st) k y).
Proof.
  revert st0. induction pre as [|r pre IH]; intros st0 Hwf0.
  - simpl. intros [= <-]. split; [auto|]. by intros y ?%elem_of_nil.
  - simpl. intros (st1 & Hstep & Hloop)%bind_Ok.
    destruct (daily_step_spec st0 r st1 Hwf0 Hstep)
      as (Hwf1 & _ & _ & _ & Hchart & _).
    destruct (IH st1 Hwf1 Hloop) as [Hfrom Hto].
    destruct (daily_loop_persist pre st1 st Hwf1 Hloop) as (_ & Hkeep & _).
    split.
    + intros k y [Hold|Hin]%Hfrom.
      * apply Hchart in Hold as [Hold|[_ ->]]; [by left|right].
        apply list_elem_of_here.
      * right. by apply list_elem_of_further.
    + intros y [->|Hin]%elem_of_cons; [|by apply Hto].
      exists (current_day_str st1). apply Hkeep, Hchart. by right.
Qed.

Lemma group_by_day_keys rows d :
  group_by_day rows = Ok d →
  dom (daily_good_intervals_map d) = dom (daily_chart_data_map d)
  ∧ dom (daily_good_periods_text_map d) = dom (daily_chart_data_map d)
  ∧ dom (daily_chart_data_map d) = list_to_set (day_label <$> rows)
  ∧ (∀ y, y ∈ rows ↔ ∃ k, in_bucket (daily_chart_data_map d) k y).
Proof.
  unfold group_by_day. destruct rows as [|first rest] eqn:Hrows.
  { intros [= <-]. simpl. rewrite !dom_empty_L. do 3 (split; [done|]).
    intros y. split; [by intros ?%elem_of_nil|].
    intros (k & l & Hl & _). by rewrite lookup_empty in Hl. }
  rewrite <- Hrows. intros (st & Hloop & Hclose)%bind_Ok.
  assert (Hhead : rows = [] ∨ head rows = Some first)
    by (right; by rewrite Hrows).
  destruct (daily_scan first rows st Hhead Hloop) as (Hwf & Hdom & _).
  destruct (close_daily_wf st d Hwf Hclose) as ((_ & Hi & Ht) & Hchart).
  destruct (daily_loop_chart rows _ st (daily_init_wf first) Hloop)
    as [Hfrom Hto].
  rewrite Hchart. rewrite Hchart in Hi, Ht.
  split; [done|]. split; [done|]. split.
  - rewrite Hdom, Hrows. simpl.
    apply subseteq_union_1_L, singleton_subseteq_l.
    apply elem_of_union. left. by apply elem_of_singleton.
  - intros y. split; [apply Hto|].
    intros (k & [(l & Hl & Hin)|Hin]%Hfrom); [|done].
    simpl in Hl. apply lookup_singleton_Some in Hl as [_ <-].
    by apply elem_of_nil in Hin.
Qed.

(** X6.  The three per-day dicts of a result have the same keys, the
    labels of the local dates of the evaluated hours and no other; every
    evaluated hour is charted under one of them, and only evaluated hours
    are charted. *)
Theorem day_buckets_cover_the_hours weather_data aqi_data inputs res :
  find_optimal_periods weather_data aqi_data inputs = Ok res →
  let rows := hourly_samples weather_data aqi_data inputs in
  dom (daily_good_intervals res) = dom (daily_chart_data res)
  ∧ dom (daily_good_periods_text res) = dom (daily_chart_data res)
  ∧ (∀ day, day ∈ dom (daily_chart_data res) ↔
            ∃ row, row ∈ rows ∧ day_label row = day)
  ∧ (∀ row, row ∈ rows ↔ ∃ day, in_bucket (daily_chart_data res) day row).
Proof.
  intros (d & Hgroup & -> & -> & ->)%result_days rows.
  destruct (group_by_day_keys _ _ Hgroup) as (Hi & Ht & Hdom & Hrows).
  do 2 (split; [done|]). split; [|done].
  intros day. rewrite Hdom, elem_of_list_to_set, list_elem_of_fmap.
  split; intros (row & H1 & H2); exists row; done.
Qed.

(** ** The rows of a day, in order *)

Lemma day_record_chart st r st' :
  day_record st r = Ok st' →
  ∃ l, daily_chart_data_map st !! current_day_str st = Some l
       ∧ daily_chart_data_map st'
         = <[current_day_str st := l ++ [r]]> (daily_chart_data_map st).
Proof.
  unfold day_record. intros (chart & Hchart & Hrest)%bind_Ok.
  apply dict_append_Ok in Hchart as (l & Hl & ->). exists l.
  split; [done|].
  destruct (row_is_good r), (daily_start_dt st) as [s|];
    try (by injection Hrest as <-).
  by apply bind_Ok in Hrest as (ivs & _ & (txt & _ & [= <-])%bind_Ok).
Qed.

Lemma daily_step_chart st r st' :
  daily_wf st → daily_step st r = Ok st' →
  if decide (day_label r ∈ dom (daily_chart_data_map st))
  then ∃ l, daily_chart_data_map st !! current_day_str st = Some l
            ∧ daily_chart_data_map st'
              = <[current_day_str st := l ++ [r]]> (daily_chart_data_map st)
  else daily_chart_data_map st'
       = <[day_label r := [r]]> (daily_chart_data_map st).
Proof.
  intros Hwf. unfold daily_step.
  set (st_ := {| daily_chart_data_map := daily_chart_data_map st;
                 daily_good_intervals_map := daily_good_intervals_map st;
                 daily_good_periods_text_map := daily_good_periods_text_map st;
                 current_day_str := current_day_str st;
                 daily_start_dt := daily_start_dt st;
                 last_dt_local := Some (row_dt r) |}).
  assert (Hwf_ : daily_wf st_) by exact Hwf.
  intros (st2 & Hswitch & Hrecord)%bind_Ok.
  apply day_record_chart in Hrecord as (l & Hl & Hchart).
  change (strftime "%a %Y-%m-%d" (row_dt r)) with (day_label r) in Hswitch.
  destruct (decide (day_label r ∈ dom (daily_chart_data_map st)))
    as [Hin|Hnew].
  - rewrite (day_switch_keep st_) in Hswitch by exact Hin.
    injection Hswitch as <-. by exists l.
  - destruct (day_switch_new st_ _ _ st2 Hwf_ Hnew Hswitch)
      as (Hcur & _ & _ & Hmap & _).
    rewrite Hcur, Hmap in Hl. rewrite lookup_insert_eq in Hl.
    injection Hl as <-. rewrite Hchart, Hcur, Hmap. simpl.
    by rewrite insert_insert_eq.
Qed.

Lemma contiguous_days_prefix pre r :
  contiguous_days (pre ++ [r]) → contiguous_days pre.
Proof.
  intros Hc i j k ri rj rk Hijk Hi Hj Hk.
  apply (Hc i j k); [done|by apply lookup_app_l_Some..].
Qed.

(** With consecutive days, an hour whose label is known carries the label
    of the hour before it. *)
Lemma contiguous_days_last pre r r0 :
  contiguous_days (pre ++ [r]) → last pre = Some r0 →
  day_label r ∈ (day_label <$> pre) → day_label r0 = day_label r.
Proof.
  intros Hc Hlast (ri & Hlab & [i Hi]%list_elem_of_lookup)%list_elem_of_fmap.
  rewrite last_lookup in Hlast.
  pose proof (lookup_lt_Some _ _ _ Hi) as Hlt.
  destruct (decide (i = pred (length pre))) as [->|Hne].
  { rewrite Hi in Hlast. by injection Hlast as <-. }
  rewrite (Hc i (pred (length pre)) (length pre) ri r0 r); [done|lia|..].
  - by apply lookup_app_l_Some.
  - by apply lookup_app_l_Some.
  - by rewrite lookup_app_r, Nat.sub_diag.
  - done.
Qed.

Lemma filter_none {A} (P : A → Prop) `{∀ x, Decision (P x)} (l : list A) :
  (∀ y, y ∈ l → ¬ P y) → filter P l = [].
Proof.
  induction l as [|x l IH]; intros Hl; [done|].
  rewrite filter_cons_False by (apply Hl, list_elem_of_here).
  apply IH. intros y Hy. by apply Hl, list_elem_of_further.
Qed.

Lemma daily_scan_chart first pre st :
  pre = [] ∨ head pre = Some first →
  contiguous_days pre →
  daily_loop pre (daily_init first) = Ok st →
  current_day_str st = day_label (default first (last pre))
  ∧ ∀ k l, daily_chart_data_map st !! k = Some l →
           l = filter (λ y, day_label y = k) pre.
Proof.
  revert st. induction pre as [|r pre IH] using rev_ind; intros st Hhead Hc.
  - simpl. intros [= <-]. split; [done|]. simpl.
    by intros k l [_ <-]%lookup_singleton_Some.
  - rewrite daily_loop_app, bind_Ok. intros (st0 & Hloop & Hstep).
    simpl in Hstep. apply bind_Ok in Hstep as (st1 & Hstep & [= ->]).
    assert (Hhead0 : pre = [] ∨ head pre = Some first).
    { destruct pre as [|r0 pre]; [by left|right].
      destruct Hhead as [?|Hh]; [discriminate|exact Hh]. }
    pose proof (contiguous_days_prefix _ _ Hc) as Hc0.
    destruct (IH st0 Hhead0 Hc0 Hloop) as [Hcur0 Hchart0].
    destruct (daily_scan first pre st0 Hhead0 Hloop) as (Hwf0 & Hdom0 & _).
    destruct (daily_step_spec st0 r st Hwf0 Hstep) as (_ & _ & Hcur & _).
    pose proof (daily_step_chart st0 r st Hwf0 Hstep) as Hchart.
    rewrite last_snoc. simpl.
    assert (Hsame : day_label r ∈ dom (daily_chart_data_map st0) →
                    current_day_str st0 = day_label r).
    { rewrite Hcur0, Hdom0, elem_of_union, elem_of_singleton,
        elem_of_list_to_set.
      destruct (last pre) as [r0|] eqn:Hlast; simpl.
      - intros [Hfirst|Hin]; [|by eapply contiguous_days_last].
        eapply contiguous_days_last; [done..|].
        rewrite Hfirst. apply list_elem_of_fmap. exists first.
        split; [done|]. destruct Hhead0 as [->|Hh]; [done|].
        destruct pre as [|r1 pre']; [done|]. injection Hh as ->.
        apply list_elem_of_here.
      - apply last_None in Hlast. subst pre.
        destruct Hhead as [?|Hh]; [done|]. simpl in Hh.
        injection Hh as ->. intros [?|?%elem_of_nil]; done. }
    assert (Hother : ∀ k, k ≠ day_label r →
              filter (λ y, day_label y = k) (pre ++ [r])
              = filter (λ y, day_label y = k) pre).
    { intros k Hk. rewrite filter_app, filter_cons_False by done.
      by rewrite filter_nil, (right_id_L [] (++)). }
    assert (Hown : filter (λ y, day_label y = day_label r) (pre ++ [r])
                   = filter (λ y, day_label y = day_label r) pre ++ [r]).
    { rewrite filter_app, filter_cons_True by done. by rewrite filter_nil. }
    destruct (decide (day_label r ∈ dom (daily_chart_data_map st0)))
      as [Hin|Hnew].
    + destruct Hchart as (l0 & Hl0 & ->).
      specialize (Hsame Hin). rewrite Hcur. split; [done|].
      intros k l. rewrite Hsame. rewrite Hsame in Hl0.
      destruct (decide (k = day_label r)) as [->|Hne].
      * rewrite lookup_insert_eq. intros [= <-].
        by rewrite Hown, (Hchart0 _ _ Hl0).
      * rewrite lookup_insert_ne by done. rewrite Hother by done.
        apply Hchart0.
    + rewrite Hchart, Hcur. split; [done|]. intros k l.
      destruct (decide (k = day_label r)) as [->|Hne].
      * rewrite lookup_insert_eq. intros [= <-]. rewrite Hown.
        replace (filter (λ y, day_label y = day_label r) pre)
          with (@nil hourly_row); [done|].
        symmetry. apply filter_none. intros y Hy Hlab.
        apply Hnew. rewrite Hdom0, elem_of_union, elem_of_list_to_set.
        right. apply list_elem_of_fmap. by exists y.
      * rewrite lookup_insert_ne by done. rewrite Hother by done.
        apply Hchart0.
Qed.

(** X7.  When the hours of each local date are consecutive, as in a
    forecast in chronological order, the chart rows of a day are exactly
    the evaluated hours that carry its label, in the order of the
    timestamp axis; a label that no hour carries has no bucket. *)
Theorem chart_rows_by_day weather_data aqi_data inputs res :
  find_optimal_periods weather_data aqi_data inputs = Ok res →
  let rows := hourly_samples weather_data aqi_data inputs in
  contiguous_days rows →
  ∀ day, daily_chart_data res !! day
         = if decide (day ∈ (day_label <$> rows))
           then Some (filter (λ row, day_label row = day) rows)
           else None.
Proof.
  intros (d & Hgroup & -> & _)%result_days rows Hc day.
  destruct (group_by_day_keys _ _ Hgroup) as (_ & _ & Hdom & _).
  fold rows in Hgroup, Hdom.
  assert (Hk : day ∈ dom (daily_chart_data_map d)
               ↔ day ∈ (day_label <$> rows))
    by (by rewrite Hdom, elem_of_list_to_set).
  destruct (decide (day ∈ (day_label <$> rows))) as [Hin|Hnot].
  - apply Hk, elem_of_dom in Hin as [l Hl]. rewrite Hl. f_equal.
    unfold group_by_day in Hgroup.
    destruct rows as [|first rest] eqn:Hrows.
    { injection Hgroup as <-. simpl in Hl. by rewrite lookup_empty in Hl. }
    rewrite <- Hrows in *.
    apply bind_Ok in Hgroup as (st & Hloop & Hclose).
    assert (Hhead : rows = [] ∨ head rows = Some first)
      by (right; by rewrite Hrows).
    destruct (daily_scan first rows st Hhead Hloop) as (Hwf & _).
    destruct (close_daily_wf st d Hwf Hclose) as (_ & Hchart).
    rewrite Hchart in Hl.
    destruct (daily_scan_chart first rows st Hhead Hc Hloop) as [_ Hrows'].
    by apply Hrows'.
  - apply not_elem_of_dom. by rewrite Hk.
Qed.

(** ** The texts of the day intervals *)

Local Notation "'texts_of'" :=
  (fmap (M := gmap string)
     (fmap (M := list) (λ iv : aware * aware, format_daily iv.1 iv.2))).

Lemma add_hours_back (dt : aware) : add_hours (add_hours dt (-1)) 1 = dt.
Proof.
  destruct dt as [w o]. unfold add_hours. simpl. f_equal. lia.
Qed.

Lemma append_texts (ivs ivs' : gmap string (list (aware * aware)))
    (txt' : gmap string (list string)) (k : string) (s e : aware) :
  dict_append ivs k (s, e) = Ok ivs' →
  dict_append (texts_of ivs) k (format_daily s e) = Ok txt' →
  txt' = texts_of ivs'.
Proof.
  intros (l & Hl & ->)%dict_append_Ok (lt & Hlt & ->)%dict_append_Ok.
  rewrite lookup_fmap, Hl in Hlt. simpl in Hlt. injection Hlt as <-.
  by rewrite fmap_insert, fmap_app.
Qed.

Lemma day_switch_texts st dt lab st' :
  daily_good_periods_text_map st = texts_of (daily_good_intervals_map st) →
  day_switch st dt lab = Ok st' →
  daily_good_periods_text_map st' = texts_of (daily_good_intervals_map st').
Proof.
  intros Hsync. unfold day_switch.
  destruct (daily_chart_data_map st !! lab); [by intros [= <-]|].
  destruct (daily_start_dt st) as [s|]; simpl.
  - intros (st1 & (ivs & Hi & (txt & Ht & [= <-])%bind_Ok)%bind_Ok
            & [= <-])%bind_Ok. simpl.
    rewrite add_hours_back, Hsync in Ht.
    by rewrite fmap_insert, (append_texts _ _ _ _ _ _ Hi Ht).
  - intros [= <-]. simpl. by rewrite fmap_insert, Hsync.
Qed.

Lemma day_record_texts st r st' :
  daily_good_periods_text_map st = texts_of (daily_good_intervals_map st) →
  day_record st r = Ok st' →
  daily_good_periods_text_map st' = texts_of (daily_good_intervals_map st').
Proof.
  intros Hsync. unfold day_record. intros (chart & _ & Hrest)%bind_Ok.
  destruct (row_is_good r), (daily_start_dt st) as [s|];
    try (by injection Hrest as <-).
  apply bind_Ok in Hrest as (ivs & Hi & (txt & Ht & [= <-])%bind_Ok).
  simpl. rewrite Hsync in Ht. by rewrite (append_texts _ _ _ _ _ _ Hi Ht).
Qed.

Lemma daily_loop_texts pre st st' :
  daily_good_periods_text_map st = texts_of (daily_good_intervals_map st) →
  daily_loop pre st = Ok st' →
  daily_good_periods_text_map st' = texts_of (daily_good_intervals_map st').
Proof.
  revert st. induction pre as [|r pre IH]; intros st Hsync.
  - by intros [= <-].
  - simpl. intros (st1 & Hstep & Hloop)%bind_Ok.
    apply (IH st1); [|done].
    unfold daily_step in Hstep.
    apply bind_Ok in Hstep as (st2 & Hswitch & Hrecord).
    apply (day_record_texts st2 r); [|done].
    eapply day_switch_texts; [|exact Hswitch]. exact Hsync.
Qed.

Lemma group_by_day_texts rows d :
  group_by_day rows = Ok d →
  daily_good_periods_text_map d = texts_of (daily_good_intervals_map d).
Proof.
  unfold group_by_day. destruct rows as [|first rest] eqn:Hrows.
  { intros [= <-]. simpl. by rewrite fmap_empty. }
  rewrite <- Hrows. intros (st & Hloop & Hclose)%bind_Ok.
  assert (Hsync : daily_good_periods_text_map st
                  = texts_of (daily_good_intervals_map st)).
  { apply (daily_loop_texts rows (daily_init first)); [|done].
    simpl. by rewrite map_fmap_singleton. }
  unfold close_daily in Hclose.
  destruct (daily_start_dt st) as [s|]; [|by injection Hclose as <-].
  destruct (last_dt_local st) as [l|]; [|by injection Hclose as <-].
  apply bind_Ok in Hclose as (ivs & Hi & (txt & Ht & [= <-])%bind_Ok).
  simpl. rewrite Hsync in Ht. by rewrite (append_texts _ _ _ _ _ _ Hi Ht).
Qed.

(** X8.  The per-day texts are the per-day intervals, formatted: under
    every key the list of texts is the list of intervals of that key, each
    written as start and end in 12-hour clock time, in the same order. *)
Theorem day_texts_follow_intervals weather_data aqi_data inputs res :
  find_optimal_periods weather_data aqi_data inputs = Ok res →
  daily_good_periods_text res
  = fmap (M := gmap string)
      (fmap (M := list) (λ iv : aware * aware, format_daily iv.1 iv.2))
      (daily_good_intervals res).
Proof.
  intros (d & Hgroup & _ & -> & ->)%result_days.
  by apply (group_by_day_texts _ _ Hgroup).
Qed.

End DayBuckets.

Section DayBucketsExamples.
Import Host Examples.
#[local] Existing Instance utc_host.

Lemma day_buckets_cover_the_hours_witness :
  find_optimal_periods (Some midnight_weather) None default_inputs
  = Ok midnight_result
  ∧ dom (daily_good_intervals midnight_result)
    = dom (daily_chart_data midnight_result)
  ∧ ∃ day, in_bucket (daily_chart_data midnight_result) day
             (mild_row 1704153600 true None).
Proof.
  split; [exact midnight_run|].
  destruct (day_buckets_cover_the_hours (Some midnight_weather) None
              default_inputs midnight_result midnight_run)
    as (Hdom & _ & _ & Hrows).
  split; [exact Hdom|]. apply Hrows. rewrite midnight_samples.
  apply list_elem_of_further, list_elem_of_here.
Defined.

Lemma midnight_contiguous :
  contiguous_days
    (hourly_samples (Some midnight_weather) None default_inputs).
Proof.
  rewrite midnight_samples. intros i j k ri rj rk Hijk _ _ Hk.
  apply lookup_lt_Some in Hk. simpl in Hk. lia.
Qed.

Lemma chart_rows_by_day_witness :
  find_optimal_periods (Some midnight_weather) None default_inputs
  = Ok midnight_result
  ∧ contiguous_days
      (hourly_samples (Some midnight_weather) None default_inputs)
  ∧ daily_chart_data midnight_result !! "Tue 2024-01-02"
    = if decide ("Tue 2024-01-02"
                 ∈ (day_label
                    <$> hourly_samples (Some midnight_weather) None
                          default_inputs))
      then Some (filter (λ row, day_label row = "Tue 2024-01-02")
                   (hourly_samples (Some midnight_weather) None
                      default_inputs))
      else None.
Proof.
  split; [exact midnight_run|]. split; [exact midnight_contiguous|].
  exact (chart_rows_by_day (Some midnight_weather) None default_inputs
           midnight_result midnight_run midnight_contiguous
           "Tue 2024-01-02").
Defined.

Lemma day_texts_follow_intervals_witness :
  find_optimal_periods (Some midnight_weather) None default_inputs
  = Ok midnight_result
  ∧ daily_good_periods_text midnight_result !! "Mon 2024-01-01"
    = Some ["11:00 PM - 12:00 AM"].
Proof.
  split; [exact midnight_run|].
  rewrite (day_texts_follow_intervals (Some midnight_weather) None
             default_inputs midnight_result midnight_run).
  reflexivity.
Defined.

End DayBucketsExamples.

(** ** Every admissible hour is inside an interval of its day *)

Section DayCover.
Context {host : Platform}.
Implicit Types (st : daily_state) (r : hourly_row) (rows pre : list hourly_row).

(** The run of the current day that reaches the last hour of [pre], from
    hour [i] on, with [s] the stamp of hour [i]. *)
Local Notation "'open_run'" := (λ pre i s,
  all_good pre i (length pre)
  ∧ (∀ i', S i' = i → good_at pre i' = Some false ∨ opens_day pre i)
  ∧ (∀ k, (i < k < length pre)%nat → ¬ opens_day pre k)
  ∧ stamp_at pre i = Some s).

Lemma open_run_extends pre r i s :
  open_run pre i s → row_is_good r = true →
  ¬ opens_day (pre ++ [r]) (length pre) →
  open_run (pre ++ [r]) i s.
Proof.
  intros (Hgood & Hleft & Hinside & Hstamp) Hr Hsame.
  assert (Hi : (i < length pre)%nat) by (destruct Hgood; lia).
  split; [by apply all_good_extend|]. split; [|split].
  - intros i' Hi'. rewrite good_at_snoc_l, opens_day_snoc_l by lia. auto.
  - intros k. rewrite length_app. simpl. intros Hk.
    destruct (decide (k = length pre)) as [->|Hne]; [done|].
    rewrite opens_day_snoc_l by lia. apply Hinside. lia.
  - by rewrite stamp_at_snoc_l by lia.
Qed.

Lemma open_run_closes pre r i s :
  open_run pre i s →
  opens_day (pre ++ [r]) (length pre) ∨ row_is_good r = false →
  daily_span (pre ++ [r]) (s, row_dt r) i (length pre).
Proof.
  intros (Hgood & Hleft & Hinside & Hstamp) Hwhy.
  assert (Hi : (i < length pre)%nat) by (destruct Hgood; lia).
  split; [split; [|split; [|split]]|split; [|split]]; simpl.
  - by apply all_good_snoc.
  - intros i' Hi'. rewrite good_at_snoc_l, opens_day_snoc_l by lia. auto.
  - intros _. destruct Hwhy as [Hnew|Hbad]; [by right|left].
    by rewrite good_at_snoc_r, Hbad.
  - intros k Hk. rewrite opens_day_snoc_l by lia. apply Hinside. lia.
  - by rewrite stamp_at_snoc_l by lia.
  - intros _. apply stamp_at_snoc_r.
  - rewrite length_app. simpl. lia.
Qed.

(** The invariant of the loop by day on the admissible hours: each lies
    in an interval already written, under the key that charts it, or in
    the open run of the current day. *)
Lemma daily_cover first pre st :
  pre = [] ∨ head pre = Some first →
  daily_loop pre (daily_init first) = Ok st →
  ∀ m row, pre !! m = Some row → row_is_good row = true →
    (∃ k iv i j,
       in_bucket (daily_chart_data_map st) k row
       ∧ in_bucket (daily_good_intervals_map st) k iv
       ∧ daily_span pre iv i j ∧ (j < length pre)%nat ∧ (i ≤ m < j)%nat)
    ∨ (∃ s i,
         daily_start_dt st = Some s
         ∧ in_bucket (daily_chart_data_map st) (current_day_str st) row
         ∧ open_run pre i s ∧ (i ≤ m)%nat).
Proof.
  revert st. induction pre as [|r pre IH] using rev_ind; intros st Hhead Hall.
  { intros m row Hm. by rewrite lookup_nil in Hm. }
  pose proof Hall as Hloop'.
  rewrite daily_loop_app, bind_Ok in Hloop'.
  destruct Hloop' as (st0 & Hloop & Hstep).
  simpl in Hstep. apply bind_Ok in Hstep as (st1 & Hstep & [= ->]).
  assert (Hhead0 : pre = [] ∨ head pre = Some first).
  { destruct pre as [|r0 pre]; [by left|right].
    destruct Hhead as [?|Hh]; [discriminate|exact Hh]. }
  specialize (IH st0 Hhead0 Hloop).
  destruct (daily_scan first pre st0 Hhead0 Hloop) as (Hwf0 & Hdom0 & _).
  destruct (daily_scan first (pre ++ [r]) st Hhead Hall)
    as (_ & _ & _ & _ & Hopen & _).
  destruct (daily_step_spec st0 r st Hwf0 Hstep)
    as (Hwf & Hlast & Hcur & Hdom & Hchart & Hstart & Hivs).
  set (n := length pre).
  assert (Hlabels : ∀ lab, lab ∈ dom (daily_chart_data_map st0) ↔
            lab = day_label first ∨ lab ∈ (day_label <$> pre)).
  { intros lab.
    by rewrite Hdom0, elem_of_union, elem_of_singleton, elem_of_list_to_set. }
  assert (Hfirst : pre ≠ [] → day_label first ∈ (day_label <$> pre)).
  { intros Hne. destruct Hhead0 as [?|Hh]; [done|].
    apply list_elem_of_fmap. exists first. split; [done|].
    destruct pre as [|r0 pre']; [done|]. injection Hh as ->.
    apply list_elem_of_here. }
  assert (F1 : day_label r ∉ dom (daily_chart_data_map st0) →
               opens_day (pre ++ [r]) n).
  { intros Hnew. apply opens_day_snoc_r. intros Hin. apply Hnew.
    apply Hlabels. by right. }
  assert (F2 : day_label r ∈ dom (daily_chart_data_map st0) → pre ≠ [] →
               ¬ opens_day (pre ++ [r]) n).
  { intros Hin Hne Hopens%opens_day_snoc_r. apply Hopens.
    apply Hlabels in Hin as [->|Hin]; auto. }
  intros m row Hm Hgood.
  destruct (decide (m = n)) as [->|Hne].
  - (* the hour just scanned *)
    unfold n in Hm. rewrite lookup_app_r, Nat.sub_diag in Hm by lia.
    injection Hm as <-. right.
    rewrite Hgood in Hstart.
    destruct (Hopen _ Hstart) as (i & Hrun).
    eexists _, i. split; [exact Hstart|]. split; [|split; [exact Hrun|]].
    + apply Hchart. by right.
    + destruct Hrun as ([Hi _] & _). rewrite length_app in Hi. simpl in Hi.
      unfold n. lia.
  - (* an earlier hour *)
    assert (Hlt : (m < n)%nat).
    { apply lookup_lt_Some in Hm. rewrite length_app in Hm. simpl in Hm.
      unfold n. lia. }
    rewrite lookup_app_l in Hm by exact Hlt.
    assert (Hpre : pre ≠ []) by (intros ->; simpl in Hlt; unfold n in Hlt;
                                 simpl in Hlt; lia).
    destruct (IH m row Hm Hgood)
      as [(k & iv & i & j & Hrow & Hiv & Hspan & Hj & Hij)
         |(s & i & Hs & Hrow & Hrun & Hi)].
    + left. exists k, iv, i, j.
      split; [apply Hchart; by left|]. split; [apply Hivs; by left|].
      destruct (daily_span_snoc pre r iv i j Hspan Hj). done.
    + destruct (decide (day_label r ∈ dom (daily_chart_data_map st0)))
        as [Hin|Hnew]; [destruct (row_is_good r) eqn:Hr|].
      * right. exists s, i. rewrite Hs in Hstart. simpl in Hstart.
        split; [exact Hstart|]. rewrite Hcur.
        split; [apply Hchart; by left|]. split; [|done].
        apply open_run_extends; [done..|]. by apply F2.
      * left. exists (current_day_str st0), (s, row_dt r), i, n.
        split; [apply Hchart; by left|]. split.
        { apply Hivs. right. exists s. auto. }
        split; [apply open_run_closes; [done|by right]|].
        rewrite length_app. simpl. unfold n. lia.
      * left. exists (current_day_str st0), (s, row_dt r), i, n.
        split; [apply Hchart; by left|]. split.
        { apply Hivs. right. exists s. auto. }
        split; [apply open_run_closes; [done|left; by apply F1]|].
        rewrite length_app. simpl. unfold n. lia.
Qed.

Lemma group_by_day_cover rows d m row :
  group_by_day rows = Ok d → rows !! m = Some row →
  row_is_good row = true →
  ∃ k iv i j,
    in_bucket (daily_chart_data_map d) k row
    ∧ in_bucket (daily_good_intervals_map d) k iv
    ∧ daily_span rows iv i j ∧ (i ≤ m < j)%nat.
Proof.
  unfold group_by_day. destruct rows as [|first rest] eqn:Hrows;
    [by rewrite lookup_nil|].
  rewrite <- Hrows. intros (st & Hloop & Hclose)%bind_Ok Hm Hgood.
  assert (Hhead : rows = [] ∨ head rows = Some first)
    by (right; by rewrite Hrows).
  destruct (daily_scan first rows st Hhead Hloop) as (Hwf & _ & Hlast & _).
  destruct (close_daily_wf st d Hwf Hclose) as (_ & Hchart).
  destruct (close_daily_spec st d Hwf Hclose) as (_ & Hivs).
  rewrite Hchart.
  destruct (daily_cover first rows st Hhead Hloop m row Hm Hgood)
    as [(k & iv & i & j & Hrow & Hiv & Hspan & Hj & Hij)
       |(s & i & Hs & Hrow & (Hrun & Hleft & Hinside & Hstamp) & Hi)].
  - exists k, iv, i, j. split; [done|]. split; [apply Hivs; by left|done].
  - destruct (last rows) as [r_last|] eqn:Hr.
    2: { apply last_None in Hr. rewrite Hr in Hm.
         by rewrite lookup_nil in Hm. }
    destruct (Hlast r_last eq_refl) as [Hl _].
    exists (current_day_str st), (s, add_hours (row_dt r_last) 1), i,
      (length rows).
    split; [done|]. split.
    { apply Hivs. right. exists s, (row_dt r_last). auto. }
    split; [|split; [done|by apply lookup_lt_Some in Hm]].
    split; [split; [done|split; [done|split; [lia|done]]]|].
    split; [done|]. split; [lia|]. intros _. simpl.
    exists (row_dt r_last). split; [by apply stamp_at_last|done].
Qed.

(** X9.  Every admissible hour is reported, per day and overall: the
    bucket that charts hour [m] holds an interval that is a run of the
    day, as in [daily_span], whose hours include [m], and the overall list
    holds the period of a maximal run whose hours include [m]. *)
Theorem admissible_hour_is_covered weather_data aqi_data inputs res
    (m : nat) (row : hourly_row) :
  find_optimal_periods weather_data aqi_data inputs = Ok res →
  let rows := hourly_samples weather_data aqi_data inputs in
  rows !! m = Some row → row_is_good row = true →
  (∃ day iv i j,
     in_bucket (daily_chart_data res) day row
     ∧ in_bucket (daily_good_intervals res) day iv
     ∧ daily_span rows iv i j ∧ (i ≤ m < j)%nat)
  ∧ (∃ iv i j,
       format_period iv.1 iv.2 ∈ periods res
       ∧ overall_span rows iv i j ∧ (i ≤ m < j)%nat).
Proof.
  intros Hres rows Hm Hgood. split.
  - apply result_days in Hres as (d & Hgroup & -> & -> & _).
    by apply (group_by_day_cover rows d m row).
  - apply find_optimal_periods_Ok in Hres
      as (times & tz & hs & overall & d & Hscan & Hclose & _ & ->). simpl.
    destruct (overall_output _ _ _ _ _ _ _ Hscan Hclose)
      as (ivs & -> & _ & Hcov).
    destruct (Hcov m) as (iv & i & j & Hiv & Hspan & Hij).
    { unfold good_at. fold rows. by rewrite Hm, <- Hgood. }
    exists iv, i, j. split; [|done].
    apply list_elem_of_fmap. by exists iv.
Qed.

(** ** Results without interval *)

Lemma all_good_first rows i j :
  all_good rows i j →
  ∃ row, rows !! i = Some row ∧ row_is_good row = true.
Proof.
  intros [Hij Hk]. specialize (Hk i ltac:(lia)). unfold good_at in Hk.
  destruct (rows !! i) as [row|]; [|discriminate].
  injection Hk as Hk. by exists row.
Qed.

(** Without admissible hour nothing is reported. *)
Lemma no_admissible_no_interval weather_data aqi_data inputs res :
  find_optimal_periods weather_data aqi_data inputs = Ok res →
  (∀ row, row ∈ hourly_samples weather_data aqi_data inputs →
          row_is_good row = false) →
  periods res = []
  ∧ ∀ day iv, ¬ in_bucket (daily_good_intervals res) day iv.
Proof.
  intros Hres Hnone.
  assert (Hno : ∀ i j,
            ¬ all_good (hourly_samples weather_data aqi_data inputs) i j).
  { intros i j (row & Hi & Hgood)%all_good_first.
    rewrite Hnone in Hgood; [done|]. apply list_elem_of_lookup. eauto. }
  split.
  - apply find_optimal_periods_Ok in Hres
      as (times & tz & hs & overall & d & Hscan & Hclose & _ & ->). simpl.
    destruct (overall_output _ _ _ _ _ _ _ Hscan Hclose)
      as (ivs & -> & Hruns & _).
    destruct ivs as [|iv ivs]; [done|].
    destruct (Hruns iv (list_elem_of_here _ _)) as (i & j & (Hrun & _) & _).
    by apply Hno in Hrun.
  - apply result_days in Hres as (d & Hgroup & _ & -> & _).
    intros day iv Hiv.
    destruct (daily_output _ _ _ _ Hgroup Hiv) as (i & j & (Hrun & _) & _).
    by apply Hno in Hrun.
Qed.

(** X10.  The overall list of periods is empty exactly when no evaluated
    hour is admissible, and so is the family of per-day intervals. *)
Theorem no_interval_iff_no_admissible_hour weather_data aqi_data inputs res :
  find_optimal_periods weather_data aqi_data inputs = Ok res →
  let rows := hourly_samples weather_data aqi_data inputs in
  (periods res = [] ↔ ∀ row, row ∈ rows → row_is_good row = false)
  ∧ ((∀ day iv, ¬ in_bucket (daily_good_intervals res) day iv)
     ↔ ∀ row, row ∈ rows → row_is_good row = false).
Proof.
  intros Hres rows.
  pose proof (no_admissible_no_interval _ _ _ _ Hres) as Hback.
  split; (split; [|intros Hnone; by destruct (Hback Hnone)]).
  - intros Hempty row [m Hm]%list_elem_of_lookup.
    destruct (row_is_good row) eqn:Hgood; [exfalso|done].
    apply find_optimal_periods_Ok in Hres
      as (times & tz & hs & overall & d & Hscan & Hclose & _ & ->).
    simpl in Hempty.
    destruct (overall_output _ _ _ _ _ _ _ Hscan Hclose)
      as (ivs & -> & _ & Hcov).
    destruct (Hcov m) as (iv & _ & _ & Hiv & _).
    { unfold good_at. fold rows. by rewrite Hm, <- Hgood. }
    apply fmap_nil_inv in Hempty. subst ivs. by apply elem_of_nil in Hiv.
  - intros Hempty row [m Hm]%list_elem_of_lookup.
    destruct (row_is_good row) eqn:Hgood; [exfalso|done].
    apply result_days in Hres as (d & Hgroup & _ & Heq & _).
    destruct (group_by_day_cover _ _ m row Hgroup Hm Hgood)
      as (k & iv & _ & _ & _ & Hiv & _).
    apply (Hempty k iv). by rewrite Heq.
Qed.

End DayCover.

(** ** Thresholds *)

Section Thresholds.
Context {host : Platform}.
Import Humidity HumidityFacts.
Local Open Scope R_scope.

(** What an admissible hour says of the thresholds. *)
Lemma admissible_hour_bounds weather_data aqi_data inputs (k : nat) row :
  hourly_samples weather_data aqi_data inputs !! k = Some row →
  row_is_good row = true →
  ∃ t rh p q,
    row_temp_f row = Some t ∧ row_rh_in row = Some rh
    ∧ row_precip row = Some p ∧ row_precip_prob row = Some q
    ∧ IZR (min_temp inputs) <= t <= IZR (max_temp inputs)
    ∧ IZR (min_rh inputs) <= rh <= IZR (max_rh inputs)
    ∧ 0 <= rh <= 100
    ∧ p < 0.1
    ∧ q <= IZR (max_precip_prob inputs)
    ∧ ((aqi_table aqi_data).1 = true →
       ∃ v, row_aqi row = Some v ∧ v <= IZR (max_aqi inputs)).
Proof.
  intros Hrow Hgood.
  destruct (sample_evaluated _ _ _ _ _ Hrow)
    as (wd & wh & times & temps & dews & s & t & d & p & n & c
        & _ & _ & _ & _ & _ & _ & _ & _ & _ & _ & _ & _ & Hc & _ & Hg
        & Ht & Hrh & Hp).
  rewrite Hgood in Hg. symmetry in Hg.
  destruct (evaluate_hour_cases _ _ _ _ _ _ _ _ _ Hc)
    as [(t' & d' & p' & -> & -> & -> & _)|[_ ->]]; [|discriminate].
  apply evaluate_hour_primary in Hc
    as (q & Hq & Hcalc & _ & Htemp & Hrhok & Hprecip & Hpp & Haqi & Hall).
  rewrite Hg in Hall. symmetry in Hall.
  repeat (apply andb_prop in Hall as [Hall ?]).
  destruct (predicted_rh_in c) as [rh|] eqn:Hpred; [|congruence].
  exists t', rh, p', q.
  rewrite Ht, Hrh, Hp, Hq. do 4 (split; [done|]).
  rewrite Htemp in Hall. apply andb_prop in Hall as [?%bool_decide_eq_true
                                                    ?%bool_decide_eq_true].
  assert (Hr : rh_ok c = true) by done.
  rewrite Hrhok in Hr. apply andb_prop in Hr as [?%bool_decide_eq_true
                                                 ?%bool_decide_eq_true].
  assert (Hpr : precip_ok c = true) by done.
  rewrite Hprecip in Hpr. apply bool_decide_eq_true in Hpr.
  assert (Hppr : precip_prob_ok c = true) by done.
  rewrite Hpp in Hppr. apply bool_decide_eq_true in Hppr.
  assert (Haq : aqi_ok c = true) by done.
  split; [done|]. split; [done|].
  split; [by apply calculate_rh_range in Hcalc|].
  split; [done|]. split; [done|].
  intros Hav. rewrite Haqi, Hav in Haq.
  destruct (row_aqi row) as [v|]; [|discriminate].
  exists v. split; [done|]. by apply bool_decide_eq_true in Haq.
Qed.

(** X11.  Under thresholds whose temperature band or humidity band is
    empty, or whose humidity band misses the range from 0 to 100 percent,
    no hour is admissible: the result has no period and no per-day
    interval.  The validation of the route refuses the inverted bands
    before they get there. *)
Theorem empty_band_leaves_no_hour weather_data aqi_data inputs res :
  find_optimal_periods weather_data aqi_data inputs = Ok res →
  (max_temp inputs < min_temp inputs ∨ max_rh inputs < min_rh inputs
   ∨ max_rh inputs < 0 ∨ 100 < min_rh inputs)%Z →
  periods res = []
  ∧ (∀ day iv, ¬ in_bucket (daily_good_intervals res) day iv)
  ∧ ((max_temp inputs < min_temp inputs ∨ max_rh inputs < min_rh inputs)%Z →
     is_Some (validation_error inputs)).
Proof.
  intros Hres Hband.
  assert (Hnone : ∀ row,
            row ∈ hourly_samples weather_data aqi_data inputs →
            row_is_good row = false).
  { intros row [k Hk]%list_elem_of_lookup.
    destruct (row_is_good row) eqn:Hgood; [exfalso|done].
    destruct (admissible_hour_bounds _ _ _ _ _ Hk Hgood)
      as (t & rh & _ & _ & _ & _ & _ & _ & Htemp & Hrh & Hrange & _).
    destruct Hband as [H|[H|[H|H]]]; apply IZR_lt in H; lra. }
  destruct (no_admissible_no_interval _ _ _ _ Hres Hnone) as [Hp Hd].
  split; [done|]. split; [done|].
  intros Hinv. unfold validation_error.
  destruct (bool_decide (min_temp inputs >= max_temp inputs)%Z) eqn:H1;
    [by eexists|].
  destruct (bool_decide (min_rh inputs >= max_rh inputs)%Z) eqn:H2;
    [by eexists|].
  apply bool_decide_eq_false in H1. apply bool_decide_eq_false in H2. lia.
Qed.

(** X12.  Widening the thresholds never loses an hour: an hour admissible
    under thresholds [inputs1] is admissible under every thresholds
    [inputs2] that are at least as wide, for the same indoor reference
    temperature and the same payloads. *)
Theorem wider_thresholds_keep_hours weather_data aqi_data inputs1 inputs2
    (k : nat) (row1 row2 : hourly_row) :
  wider inputs1 inputs2 →
  hourly_samples weather_data aqi_data inputs1 !! k = Some row1 →
  hourly_samples weather_data aqi_data inputs2 !! k = Some row2 →
  row_is_good row1 = true → row_is_good row2 = true.
Proof.
  intros (Href & Hw1 & Hw2 & Hw3 & Hw4 & Hw5 & Hw6) Hrow1 Hrow2 Hgood.
  apply IZR_le in Hw1, Hw2, Hw3, Hw4, Hw5, Hw6.
  destruct (admissible_hour_bounds _ _ _ _ _ Hrow1 Hgood)
    as (t & rh & p & q & Ht & Hrh & Hp & Hq & Htemp & Hrhb & _ & Hpr & Hpp
        & Haq).
  destruct (sample_evaluated _ _ _ _ _ Hrow1)
    as (wd & wh & times & temps & dews & s & t1 & d1 & p1 & n1 & c1
        & Hwd & Hwh & Htimes & Htemps & Hdews & Hs & Hkt & Hkd & Hkp & _
        & Hq1 & Ha1 & Hc1 & _ & _ & Ht1 & Hrh1 & Hp1).
  destruct (sample_evaluated _ _ _ _ _ Hrow2)
    as (wd' & wh' & times' & temps' & dews' & s' & t2 & d2 & p2 & n2 & c2
        & Hwd' & Hwh' & Htimes' & Htemps' & Hdews' & Hs' & Hkt' & Hkd' & Hkp'
        & _ & Hq2 & Ha2 & Hc2 & _ & Hg2 & Ht2 & Hrh2 & Hp2).
  rewrite Hwd in Hwd'. injection Hwd' as <-.
  rewrite Hwh in Hwh'. injection Hwh' as <-.
  rewrite Htimes in Htimes'. injection Htimes' as <-.
  rewrite Htemps in Htemps'. injection Htemps' as <-.
  rewrite Hdews in Hdews'. injection Hdews' as <-.
  rewrite Hs in Hs'. injection Hs' as <-.
  rewrite Hkt in Hkt'. injection Hkt' as <-.
  rewrite Hkd in Hkd'. injection Hkd' as <-.
  rewrite Hkp in Hkp'. injection Hkp' as <-.
  rewrite <- Hq1 in Hq2. rewrite <- Ha1 in Ha2.
  rewrite Hq2, Ha2, <- Href in Hc2.
  rewrite Ht1 in Ht. rewrite Hp1 in Hp. subst t1 p1.
  destruct d1 as [d|]; [|by rewrite evaluate_hour_no_primary in Hc1
                             by auto; injection Hc1 as <-;
                             rewrite Hrh1 in Hrh].
  rewrite Hq in Hc1, Hc2.
  apply evaluate_hour_primary in Hc1 as (q1 & _ & Hcalc1 & _).
  apply evaluate_hour_primary in Hc2
    as (q2 & [= <-] & Hcalc2 & _ & Htemp2 & Hrhok2 & Hprecip2 & Hpp2 & Haqi2
        & Hall2).
  rewrite Hcalc1 in Hcalc2. injection Hcalc2 as Hpred.
  rewrite <- Hpred, <- Hrh1, Hrh in Hrhok2.
  rewrite Hg2, Hall2, Htemp2, Hrhok2, Hprecip2, Hpp2, Haqi2.
  rewrite !bool_decide_eq_true_2 by lra. simpl.
  destruct ((aqi_table aqi_data).1) eqn:Hav; [|done].
  destruct (Haq eq_refl) as (v & -> & Hv).
  rewrite bool_decide_eq_true_2 by lra. done.
Qed.

End Thresholds.

(** ** The AQI chart of a day *)

Section AqiChart.
Context {host : Platform}.

(** X13.  When the AQI payload is unusable, no day has AQI data to plot:
    [has_aqi_data] is false for the rows of every day of the result, so
    the script of [create_aqi_chart_script] takes the branch that plots
    nothing and reports that AQI data is not available. *)
Theorem no_aqi_chart_without_aqi weather_data aqi_data inputs res
    (day : string) (hourly_data : list hourly_row) :
  find_optimal_periods weather_data aqi_data inputs = Ok res →
  aqi_unavailable aqi_data →
  daily_chart_data res !! day = Some hourly_data →
  has_aqi_data hourly_data = false.
Proof.
  intros Hres Hun Hday.
  apply result_days in Hres as (d & Hgroup & Hchart & _).
  destruct (group_by_day_keys _ _ Hgroup) as (_ & _ & _ & Hrows).
  apply aqi_unavailable_table in Hun.
  assert (Hnone : ∀ row, row ∈ hourly_data → row_aqi row = None).
  { intros row Hin.
    assert (Hin' : row ∈ hourly_samples weather_data aqi_data inputs).
    { apply Hrows. exists day, hourly_data. by rewrite <- Hchart. }
    apply list_elem_of_lookup in Hin' as [k Hk].
    destruct (sample_evaluated _ _ _ _ _ Hk)
      as (? & ? & ? & ? & ? & s & ? & ? & ? & ? & ?
          & _ & _ & _ & _ & _ & _ & _ & _ & _ & _ & _ & Haqi & _).
    rewrite Haqi, Hun. done. }
  unfold has_aqi_data. clear Hday.
  induction hourly_data as [|row l IH]; [done|]. simpl.
  rewrite (Hnone row) by apply list_elem_of_here. simpl.
  apply IH. intros row' Hin. by apply Hnone, list_elem_of_further.
Qed.

(** X14.  A result has no day bucket exactly when the timestamp axis of
    the payload is empty, the case in which the route shows that no
    forecast data is available; the result is then empty altogether. *)
Theorem no_day_iff_empty_axis wd wh times aqi_data inputs res :
  find_optimal_periods (Some wd) aqi_data inputs = Ok res →
  hourly wd = Some wh → hourly_time wh = Some times →
  (daily_chart_data res = ∅ ↔ times = [])
  ∧ (times = [] →
     res = {| periods := []; daily_chart_data := ∅;
              daily_good_intervals := ∅; daily_good_periods_text := ∅ |}).
Proof.
  intros Hres Hwh Ht.
  pose proof (samples_length _ _ _ _ _ _ Hres Hwh Ht) as Hlen.
  assert (Hempty : times = [] →
            res = {| periods := []; daily_chart_data := ∅;
                     daily_good_intervals := ∅;
                     daily_good_periods_text := ∅ |}).
  { intros ->. simpl in Hlen. apply nil_length_inv in Hlen.
    apply find_optimal_periods_Ok in Hres
      as (times' & tz & hs & overall & d & Hscan & Hclose & Hgroup & ->).
    destruct (scan_hours_samples _ _ _ _ _ _ Hscan) as (Hrows & Hhs & _).
    rewrite Hlen in Hrows, Hhs. simpl in Hhs. subst hs.
    simpl in Hgroup, Hclose. unfold close_overall in Hclose.
    simpl in Hclose. injection Hclose as <-. injection Hgroup as <-.
    done. }
  split; [|done]. split; [|by intros ->%Hempty].
  intros Hnone. apply result_days in Hres as (d & Hgroup & Hchart & _).
  destruct (group_by_day_keys _ _ Hgroup) as (_ & _ & Hdom & _).
  rewrite <- Hchart, Hnone, dom_empty_L in Hdom.
  destruct (hourly_samples (Some wd) aqi_data inputs) as [|row rows];
    [by apply nil_length_inv|].
  exfalso. simpl in Hdom.
  assert (Hin : day_label row ∈ (∅ : gset string)).
  { rewrite Hdom. apply elem_of_union. left. by apply elem_of_singleton. }
  by apply elem_of_empty in Hin.
Qed.

End AqiChart.

(** ** The predicted humidity of an hour *)

Section PredictedHumidity.
Context {host : Platform}.
Import Humidity HumidityFacts.
Local Open Scope R_scope.

(** X15.  The indoor relative humidity recorded for an evaluated hour is
    the prediction from the hour's dew point, it is a percentage, between
    0 and 100, and it is recorded only for an hour whose temperature and
    precipitation are present; this for an indoor reference temperature
    and a dew point of at most a million degrees in magnitude, far from
    the floats whose conversion overflows. *)
Theorem predicted_rh_is_percentage (wd : WeatherData) (wh : WeatherHourly)
    (dew_points_f : list (option R)) aqi_data inputs
    (k : nat) (row : hourly_row) (d rh : R) :
  hourly wd = Some wh → dew_point_2m wh = Some dew_points_f →
  dew_points_f !! k = Some (Some d) →
  -1000000 <= d <= 1000000 →
  (-1000000 ≤ indoor_ref_temp inputs ≤ 1000000)%Z →
  hourly_samples (Some wd) aqi_data inputs !! k = Some row →
  row_rh_in row = Some rh →
  predictIndoorRH (Some (IZR (indoor_ref_temp inputs))) (Some d)
  = Ok (Some rh)
  ∧ 0 <= rh <= 100
  ∧ is_Some (row_temp_f row) ∧ is_Some (row_precip row).
Proof.
  intros Hwh Hdews Hkd _ _ Hrow Hrh.
  destruct (sample_evaluated _ _ _ _ _ Hrow)
    as (wd' & wh' & times & temps & dews & s & t & d0 & p & n & c
        & [= <-] & Hwh' & _ & _ & Hdews' & _ & _ & Hkd' & _ & _ & _ & _
        & Hc & _ & _ & Ht & Hpred & Hp).
  rewrite Hwh in Hwh'. injection Hwh' as <-.
  rewrite Hdews in Hdews'. injection Hdews' as <-.
  rewrite Hkd in Hkd'. injection Hkd' as <-.
  rewrite Hrh in Hpred.
  destruct (evaluate_hour_cases _ _ _ _ _ _ _ _ _ Hc)
    as [(t' & d' & p' & -> & [= <-] & -> & _)|[_ ->]]; [|discriminate].
  apply evaluate_hour_primary in Hc as (q & _ & Hcalc & _).
  rewrite <- Hpred in Hcalc.
  split; [exact Hcalc|].
  split; [by apply calculate_rh_range in Hcalc|].
  rewrite Ht, Hp. eauto.
Qed.

End PredictedHumidity.

(** ** The properties on the run around midnight *)

Section FurtherExamples.
Import Humidity HumidityFacts Host Examples.
#[local] Existing Instance utc_host.
Local Open Scope R_scope.

Lemma predicted_rh_is_percentage_witness :
  hourly_samples (Some midnight_weather) None default_inputs !! 0%nat
  = Some (mild_row 1704150000 true None)
  ∧ predictIndoorRH (Some 69) (Some 50) = Ok (Some mild_rh)
  ∧ 0 <= mild_rh <= 100.
Proof.
  assert (H : hourly_samples (Some midnight_weather) None default_inputs
              !! 0%nat = Some (mild_row 1704150000 true None))
    by (by rewrite midnight_samples).
  split; [exact H|].
  destruct (predicted_rh_is_percentage midnight_weather
              (mild_hours midnight_times []) [Some 50; Some 50] None
              default_inputs 0 (mild_row 1704150000 true None) 50 mild_rh
              eq_refl eq_refl eq_refl ltac:(lra) ltac:(simpl; lia) H eq_refl)
    as (Hpred & Hrange & _).
  split; [exact Hpred|exact Hrange].
Defined.

(** A timestamp that is no ISO date, or a [null] probability at an hour
    that has its primary data, leaves no result. *)
Example garbled_weather_fails (aqi_data : option AqiData)
    (inputs : WeatherInputs) (res : ForecastResult) :
  find_optimal_periods (Some garbled_weather) aqi_data inputs ≠ Ok res.
Proof.
  intros (wh & times & temps & dews & [= <-] & [= <-] & _ & _ & _ & _ & _
          & Hparse & _)%returns_well_formed.
  destruct (Hparse "tomorrow"%string) as [n Hn]; [|discriminate Hn].
  apply list_elem_of_further, list_elem_of_here.
Qed.

Example null_probability_fails (aqi_data : option AqiData)
    (inputs : WeatherInputs) (res : ForecastResult) :
  find_optimal_periods (Some null_probability_weather) aqi_data inputs
  ≠ Ok res.
Proof.
  intros (wh & times & temps & dews & [= <-] & [= <-] & [= <-] & [= <-]
          & _ & _ & _ & _ & Hhour)%returns_well_formed.
  destruct (Hhour 0%nat 70 50 0) as (_ & _ & Hpps);
    [simpl; lia|reflexivity..|].
  by apply (Hpps [None; Some 0]).
Qed.

Lemma admissible_hour_is_covered_witness :
  hourly_samples (Some midnight_weather) None default_inputs !! 1%nat
  = Some (mild_row 1704153600 true None)
  ∧ (∃ day iv i j,
       in_bucket (daily_chart_data midnight_result) day
         (mild_row 1704153600 true None)
       ∧ in_bucket (daily_good_intervals midnight_result) day iv
       ∧ daily_span (hourly_samples (Some midnight_weather) None
                       default_inputs) iv i j
       ∧ (i ≤ 1 < j)%nat)
  ∧ (∃ iv i j,
       format_period iv.1 iv.2 ∈ periods midnight_result
       ∧ overall_span (hourly_samples (Some midnight_weather) None
                         default_inputs) iv i j
       ∧ (i ≤ 1 < j)%nat).
Proof.
  assert (H : hourly_samples (Some midnight_weather) None default_inputs
              !! 1%nat = Some (mild_row 1704153600 true None))
    by (by rewrite midnight_samples).
  split; [exact H|].
  exact (admissible_hour_is_covered (Some midnight_weather) None
           default_inputs midnight_result 1 (mild_row 1704153600 true None)
           midnight_run H eq_refl).
Defined.

Lemma no_interval_iff_no_admissible_hour_witness :
  find_optimal_periods (Some midnight_weather) None default_inputs
  = Ok midnight_result
  ∧ ¬ ∀ row,
        row ∈ hourly_samples (Some midnight_weather) None default_inputs →
        row_is_good row = false.
Proof.
  split; [exact midnight_run|]. intros Hnone.
  destruct (no_interval_iff_no_admissible_hour (Some midnight_weather) None
              default_inputs midnight_result midnight_run) as [[_ Hp] _].
  specialize (Hp Hnone). discriminate Hp.
Defined.

Lemma empty_band_leaves_no_hour_witness :
  (max_temp inverted_inputs < min_temp inverted_inputs)%Z
  ∧ ∃ res,
      find_optimal_periods (Some midnight_weather) None inverted_inputs
      = Ok res
      ∧ periods res = []
      ∧ is_Some (validation_error inverted_inputs).
Proof.
  assert (Hband : (max_temp inverted_inputs < min_temp inverted_inputs)%Z)
    by (simpl; lia).
  split; [exact Hband|].
  destruct (mild_hours_return (Some "America/New_York"%string) []
              inverted_inputs) as [res Hres];
    [apply not_elem_of_nil|reflexivity|].
  exists res. split; [exact Hres|].
  destruct (empty_band_leaves_no_hour (Some midnight_weather) None
              inverted_inputs res Hres (or_introl Hband)) as (Hp & _ & Hv).
  split; [exact Hp|]. apply Hv. by left.
Defined.

Lemma wider_thresholds_keep_hours_witness :
  wider default_inputs (with_max_aqi default_inputs 100)
  ∧ ∃ row2,
      hourly_samples (Some midnight_weather) None
        (with_max_aqi default_inputs 100) !! 0%nat = Some row2
      ∧ row_is_good row2 = true.
Proof.
  assert (Hw : wider default_inputs (with_max_aqi default_inputs 100)).
  { unfold wider. simpl. lia. }
  split; [exact Hw|].
  destruct (mild_hours_return (Some "America/New_York"%string) []
              (with_max_aqi default_inputs 100)) as [res Hres];
    [apply not_elem_of_nil|reflexivity|].
  pose proof (samples_length midnight_weather _ midnight_times None
                (with_max_aqi default_inputs 100) res Hres eq_refl eq_refl)
    as Hlen.
  destruct (lookup_lt_is_Some_2
              (hourly_samples (Some midnight_weather) None
                 (with_max_aqi default_inputs 100)) 0%nat)
    as [row2 Hrow2]; [rewrite Hlen; simpl; lia|].
  exists row2. split; [exact Hrow2|].
  apply (wider_thresholds_keep_hours (Some midnight_weather) None
           default_inputs (with_max_aqi default_inputs 100) 0
           (mild_row 1704150000 true None) row2 Hw);
    [by rewrite midnight_samples|exact Hrow2|reflexivity].
Defined.

Lemma no_aqi_chart_without_aqi_witness :
  aqi_unavailable None
  ∧ daily_chart_data midnight_result !! "Tue 2024-01-02"%string
    = Some [mild_row 1704153600 true None]
  ∧ has_aqi_data [mild_row 1704153600 true None] = false.
Proof.
  split; [exact I|]. split; [reflexivity|].
  exact (no_aqi_chart_without_aqi (Some midnight_weather) None default_inputs
           midnight_result "Tue 2024-01-02" [mild_row 1704153600 true None]
           midnight_run I eq_refl).
Defined.

Lemma empty_forecast_run :
  find_optimal_periods (Some empty_forecast) None default_inputs
  = Ok {| periods := []; daily_chart_data := ∅;
          daily_good_intervals := ∅; daily_good_periods_text := ∅ |}.
Proof. reflexivity. Qed.

Lemma no_day_iff_empty_axis_witness :
  find_optimal_periods (Some empty_forecast) None default_inputs
  = Ok {| periods := []; daily_chart_data := ∅;
          daily_good_intervals := ∅; daily_good_periods_text := ∅ |}
  ∧ (daily_chart_data midnight_result = ∅ ↔ midnight_times = []).
Proof.
  split; [exact empty_forecast_run|].
  exact (proj1 (no_day_iff_empty_axis midnight_weather _ midnight_times None
                  default_inputs midnight_result midnight_run
                  eq_refl eq_refl)).
Defined.

End FurtherExamples.

(** ** The order of the overall periods *)

Section OrderedPeriods.
Context {host : Platform}.
Implicit Types (r : hourly_row) (rows : list hourly_row).

Local Notation "'start_state'" :=
  {| overall_good_periods_text := []; overall_start_time := None;
     hourly_data_list := [] |}.

(** The overall scan, with the positions of the runs: the intervals
    written so far follow each other, and all end before the open run
    starts. *)
Lemma overall_scan_ordered rows :
  let st := fold_left overall_step rows start_state in
  ∃ (ivs : list (aware * aware)) (bounds : list (nat * nat)),
    overall_good_periods_text st = (λ iv, format_period iv.1 iv.2) <$> ivs
    ∧ Forall2 (λ iv b, overall_span rows iv b.1 b.2
                       ∧ (b.2 < length rows)%nat) ivs bounds
    ∧ (∀ a b x y, (a < b)%nat → bounds !! a = Some x → bounds !! b = Some y →
                  (x.2 < y.1)%nat)
    ∧ (∀ s, overall_start_time st = Some s →
         ∃ i, all_good rows i (length rows)
              ∧ (∀ i', S i' = i → good_at rows i' = Some false)
              ∧ stamp_at rows i = Some s
              ∧ ∀ x, x ∈ bounds → (x.2 < i)%nat)
    ∧ (overall_start_time st = None →
         ∀ n, S n = length rows → good_at rows n = Some false).
Proof.
  induction rows as [|r rows IH] using rev_ind; simpl.
  - exists [], []. split; [done|]. split; [constructor|].
    split; [intros a b x y _ Ha; by rewrite lookup_nil in Ha|].
    split; [discriminate|]. intros _ n Hn. discriminate.
  - rewrite fold_left_app. simpl.
    set (st := fold_left overall_step rows start_state) in *.
    destruct IH as (ivs & bounds & Htext & Hspans & Hsorted & Hopen & Hnone).
    assert (Hspans' :
              Forall2 (λ iv b, overall_span (rows ++ [r]) iv b.1 b.2
                               ∧ (b.2 < length (rows ++ [r]))%nat)
                ivs bounds).
    { eapply Forall2_impl; [exact Hspans|]. intros iv b [Hspan Hj].
      by apply overall_span_snoc. }
    assert (Hbefore : ∀ x, x ∈ bounds → (x.2 < length rows)%nat).
    { intros x [a Ha]%list_elem_of_lookup.
      destruct (Forall2_lookup_r _ _ _ _ _ Hspans Ha) as (iv & _ & _ & Hj).
      exact Hj. }
    unfold overall_step.
    destruct (row_is_good r) eqn:Hg, (overall_start_time st) as [s|] eqn:Hs;
      simpl.
    + (* the open run grows *)
      exists ivs, bounds. do 3 (split; [done|]). split; [|discriminate].
      intros s' [= <-].
      destruct (Hopen s eq_refl) as (i & Hgood & Hleft & Hstamp & Hlater).
      assert (Hi : (i < length rows)%nat) by (destruct Hgood; lia).
      exists i. split; [by apply all_good_extend|]. split; [|split].
      * intros i' Hi'. rewrite good_at_snoc_l by lia. auto.
      * by rewrite stamp_at_snoc_l.
      * done.
    + (* a run opens at this hour *)
      exists ivs, bounds. do 3 (split; [done|]). split; [|discriminate].
      intros s' [= <-]. exists (length rows).
      split; [by apply all_good_last|]. split; [|split].
      * intros i' Hi'. rewrite good_at_snoc_l by lia. auto.
      * apply stamp_at_snoc_r.
      * done.
    + (* the open run is closed by this hour *)
      destruct (Hopen s eq_refl) as (i & Hgood & Hleft & Hstamp & Hlater).
      assert (Hi : (i < length rows)%nat) by (destruct Hgood; lia).
      exists (ivs ++ [(s, row_dt r)]), (bounds ++ [(i, length rows)]).
      split; [by rewrite fmap_app, Htext|]. split; [|split; [|split]].
      * apply Forall2_app; [done|]. constructor; [|constructor]. simpl.
        rewrite length_app. simpl. split; [|lia].
        split; [split; [|split]|split]; simpl.
        -- by apply all_good_snoc.
        -- intros i' Hi'. rewrite good_at_snoc_l by lia. auto.
        -- intros _. by rewrite good_at_snoc_r, Hg.
        -- by rewrite stamp_at_snoc_l.
        -- intros _. apply stamp_at_snoc_r.
      * intros a b x y Hab Ha Hb.
        apply lookup_snoc_Some in Hb as [[Hb1 Hb]|[-> <-]].
        -- rewrite lookup_app_l in Ha by lia.
           exact (Hsorted a b x y Hab Ha Hb).
        -- rewrite lookup_app_l in Ha by lia. simpl. apply Hlater.
           apply list_elem_of_lookup. eauto.
      * discriminate.
      * intros _ n Hn. rewrite length_app in Hn. simpl in Hn.
        replace n with (length rows) by lia. by rewrite good_at_snoc_r, Hg.
    + (* nothing is open and nothing opens *)
      exists ivs, bounds. do 3 (split; [done|]). split; [discriminate|].
      intros _ n Hn. rewrite length_app in Hn. simpl in Hn.
      replace n with (length rows) by lia. by rewrite good_at_snoc_r, Hg.
Qed.

(** X16.  The overall periods are listed in the order of the hours and
    never touch: they are the formatted intervals of maximal runs at
    positions [i .. j-1], and each run starts after the hour [j] that ends
    the run before it. *)
Theorem periods_in_order weather_data aqi_data inputs res :
  find_optimal_periods weather_data aqi_data inputs = Ok res →
  let rows := hourly_samples weather_data aqi_data inputs in
  ∃ (ivs : list (aware * aware)) (bounds : list (nat * nat)),
    periods res = (λ iv, format_period iv.1 iv.2) <$> ivs
    ∧ Forall2 (λ iv b, overall_span rows iv b.1 b.2) ivs bounds
    ∧ ∀ a b x y, (a < b)%nat → bounds !! a = Some x → bounds !! b = Some y →
                 (x.2 < y.1)%nat.
Proof.
  intros (times & tz & hs & overall & d & Hscan & Hclose & _ & ->)
    %find_optimal_periods_Ok rows. simpl.
  destruct (scan_hours_samples _ _ _ _ _ _ Hscan) as (_ & Hhs & _ & _).
  fold rows in Hhs.
  destruct (overall_scan_ordered rows)
    as (ivs & bounds & Htext & Hspans & Hsorted & Hopen & _).
  simpl in *. rewrite <- Hhs in *.
  apply close_overall_Ok in Hclose
    as [[Hnone ->]|(s & last_str & n & Hs & _ & _ & ->)].
  - exists ivs, bounds. split; [done|]. split; [|done].
    eapply Forall2_impl; [exact Hspans|]. by intros iv b [Hspan _].
  - destruct (Hopen s Hs) as (i & Hgood & Hleft & Hstamp & Hlater).
    exists (ivs ++ [(s, add_hours (astimezone n tz) 1)]),
      (bounds ++ [(i, length rows)]).
    split; [by rewrite fmap_app, Htext|]. split.
    + apply Forall2_app.
      * eapply Forall2_impl; [exact Hspans|]. by intros iv b [Hspan _].
      * constructor; [|constructor]. simpl.
        split; [split; [done|split; [done|lia]]|]. split; [done|]. simpl. lia.
    + intros a b x y Hab Ha Hb.
      apply lookup_snoc_Some in Hb as [[Hb1 Hb]|[-> <-]].
      * rewrite lookup_app_l in Ha by lia.
        exact (Hsorted a b x y Hab Ha Hb).
      * rewrite lookup_app_l in Ha by lia. simpl. apply Hlater.
        apply list_elem_of_lookup. eauto.
Qed.

(** ** The hours follow the timestamp axis *)

(** X17.  The evaluated hours are the positions of the timestamp axis, one
    for one and in order: hour [k] carries the timestamp at position [k],
    localized in the zone of the payload, the temperature and the
    precipitation at position [k] (0.0 when the payload has no
    precipitation array), and the AQI bound to the text of its timestamp. *)
Theorem samples_follow_the_axis wd wh times temps_f aqi_data inputs res :
  find_optimal_periods (Some wd) aqi_data inputs = Ok res →
  hourly wd = Some wh → hourly_time wh = Some times →
  temperature_2m wh = Some temps_f →
  let rows := hourly_samples (Some wd) aqi_data inputs in
  length rows = length times
  ∧ ∀ k row, rows !! k = Some row →
      ∃ s n,
        times !! k = Some s ∧ fromisoformat s = Some n
        ∧ row_dt row = localize (resolve_timezone wd) n
        ∧ temps_f !! k = Some (row_temp_f row)
        ∧ (∀ precip_mm, precipitation wh = Some precip_mm →
             precip_mm !! k = Some (row_precip row))
        ∧ (precipitation wh = None → row_precip row = Some 0%R)
        ∧ row_aqi row = dict_get (aqi_table aqi_data).2 s.
Proof.
  intros Hres Hwh Ht Htemps rows.
  split; [by eapply samples_length|].
  intros k row Hrow.
  destruct (sample_evaluated _ _ _ _ _ Hrow)
    as (wd' & wh' & times' & temps' & dews & s & t & d & p & n & c
        & [= <-] & Hwh' & Ht' & Htemps' & _ & Hs & Hkt & _ & Hkp & Hn & _
        & Haqi & _ & Hdt & _ & Htemp & _ & Hprecip).
  rewrite Hwh in Hwh'. injection Hwh' as <-.
  rewrite Ht in Ht'. injection Ht' as <-.
  rewrite Htemps in Htemps'. injection Htemps' as <-.
  exists s, n. do 3 (split; [done|]). split; [by rewrite Htemp|].
  split; [|split; [|done]].
  - intros precip_mm Hp. rewrite Hp in Hkp. simpl in Hkp.
    by rewrite Hprecip.
  - intros Hp. rewrite Hp in Hkp. simpl in Hkp.
    apply lookup_replicate in Hkp as [<- _]. done.
Qed.

(** ** The end of the forecast on a host in the zone of the forecast *)

(** X18.  When the last hour is admissible and the host reads a naive
    timestamp in the zone of the forecast, the last overall period and the
    last interval of the last day both end one hour after the last
    timestamp. *)
Theorem trailing_period_on_agreeing_host wd aqi_data inputs res r_last :
  find_optimal_periods (Some wd) aqi_data inputs = Ok res →
  last (hourly_samples (Some wd) aqi_data inputs) = Some r_last →
  row_is_good r_last = true →
  (∀ n, astimezone n (resolve_timezone wd)
        = localize (resolve_timezone wd) n) →
  (∃ earlier start_time,
     periods res
     = earlier ++ [format_period start_time (add_hours (row_dt r_last) 1)])
  ∧ (∃ day start_dt,
       in_bucket (daily_chart_data res) day r_last
       ∧ in_bucket (daily_good_intervals res) day
           (start_dt, add_hours (row_dt r_last) 1)).
Proof.
  intros Hres Hlast Hgood Hhost.
  destruct (open_run_closing_instants _ _ _ _ _ Hres Hlast Hgood)
    as (wd' & wh & times & last_str & n & tz & [= <-] & _ & _ & -> & _ & _
        & Hdt & Hday & earlier & start_time & Hp).
  rewrite Hhost, <- Hdt in Hp. rewrite <- Hdt in Hday.
  split; [by exists earlier, start_time|done].
Qed.

End OrderedPeriods.

Section OrderedPeriodsExamples.
Import Humidity HumidityFacts Host Examples.
#[local] Existing Instance utc_host.
Local Open Scope R_scope.

Lemma periods_in_order_witness :
  find_optimal_periods (Some midnight_weather) None default_inputs
  = Ok midnight_result
  ∧ ∃ (ivs : list (aware * aware)) (bounds : list (nat * nat)),
      periods midnight_result = (λ iv, format_period iv.1 iv.2) <$> ivs
      ∧ Forall2 (λ iv b,
                   overall_span (hourly_samples (Some midnight_weather) None
                                   default_inputs) iv b.1 b.2) ivs bounds
      ∧ ∀ a b x y, (a < b)%nat →
          bounds !! a = Some x → bounds !! b = Some y → (x.2 < y.1)%nat.
Proof.
  split; [exact midnight_run|].
  exact (periods_in_order (Some midnight_weather) None default_inputs
           midnight_result midnight_run).
Defined.

Lemma samples_follow_the_axis_witness :
  find_optimal_periods (Some midnight_weather) None default_inputs
  = Ok midnight_result
  ∧ length (hourly_samples (Some midnight_weather) None default_inputs)
    = length midnight_times.
Proof.
  split; [exact midnight_run|].
  exact (proj1 (samples_follow_the_axis midnight_weather _ midnight_times
                  [Some 70; Some 70] None default_inputs midnight_result
                  midnight_run eq_refl eq_refl eq_refl)).
Defined.

(** The two mild hours are admissible under the default thresholds in
    every zone. *)
Lemma mild_hours_good (zone : option string) (k : nat) (row : hourly_row) :
  hourly_samples
    (Some {| hourly := Some (mild_hours midnight_times []);
             timezone := zone |}) None default_inputs !! k = Some row →
  row_is_good row = true.
Proof.
  intros Hrow.
  destruct (sample_evaluated _ _ _ _ _ Hrow)
    as (wd & wh & times & temps & dews & s & t & d & p & n & c
        & [= <-] & [= <-] & [= <-] & [= <-] & [= <-] & Hs & Hkt & Hkd & Hkp
        & _ & Hq & Haqi & Hc & _ & Hg & _).
  rewrite Hq, Haqi in Hc. simpl in Hkp.
  assert (Hk : (k < 2)%nat) by (by apply lookup_lt_Some in Hs).
  assert (t = Some 70 ∧ d = Some 50 ∧ p = Some 0) as (-> & -> & ->).
  { clear Hrow Hc Hq Haqi Hg Hs.
    destruct k as [|[|k]]; [| |lia]; simpl in Hkt, Hkd, Hkp;
      injection Hkt as <-; injection Hkd as <-; injection Hkp as <-; done. }
  change (evaluate_hour default_inputs false (ftoc (Some 69))
            (Some 70) (Some 50) (Some 0) (Some 0) None = Ok c) in Hc.
  rewrite (mild_hour false None) in Hc. injection Hc as <-. by rewrite Hg.
Qed.

Lemma utc_host_agrees (wd : WeatherData) :
  timezone wd = Some "UTC"%string →
  ∀ n, astimezone n (resolve_timezone wd) = localize (resolve_timezone wd) n.
Proof.
  intros Hzone n. unfold resolve_timezone. rewrite Hzone. simpl.
  unfold astimezone, localize. simpl. f_equal. lia.
Qed.

Lemma trailing_period_on_agreeing_host_witness :
  ∃ res r_last,
    find_optimal_periods (Some utc_weather) None default_inputs = Ok res
    ∧ last (hourly_samples (Some utc_weather) None default_inputs)
      = Some r_last
    ∧ row_is_good r_last = true
    ∧ ∃ earlier start_time,
        periods res
        = earlier ++ [format_period start_time
                        (add_hours (row_dt r_last) 1)].
Proof.
  set (wd := utc_weather).
  destruct (mild_hours_return (Some "UTC"%string) [] default_inputs)
    as [res Hres]; [apply not_elem_of_nil|reflexivity|].
  pose proof (samples_length wd _ midnight_times None default_inputs res
                Hres eq_refl eq_refl) as Hlen.
  destruct (lookup_lt_is_Some_2 (hourly_samples (Some wd) None default_inputs)
              1%nat) as [r_last Hrow]; [rewrite Hlen; simpl; lia|].
  assert (Hlast : last (hourly_samples (Some wd) None default_inputs)
                  = Some r_last).
  { rewrite last_lookup, Hlen. exact Hrow. }
  pose proof (mild_hours_good (Some "UTC"%string) 1 r_last Hrow) as Hgood.
  exists res, r_last. split; [exact Hres|]. split; [exact Hlast|].
  split; [exact Hgood|].
  exact (proj1 (trailing_period_on_agreeing_host wd None default_inputs res
                  r_last Hres Hlast Hgood (utc_host_agrees wd eq_refl))).
Defined.

End OrderedPeriodsExamples.
